(** * K6 result post-processing: a shallow embedding and its properties

    The development embeds the aggregation tools of the repository:

    - [Streaming]: [k6_tests/analyze-k6-streaming.js]
    - [Analyzer]:  [k6_tests/analyze-k6-results.js] (the statistics of one
                   endpoint)
    - [Exporter]:  the CSV exporter, whose usage text calls it
                   [export_to_excel.js] ([parseK6Results],
                   [calculateEndpointStats], [createCSV], [exportToExcel],
                   [main])
    - [Parser]:    the console reporter, whose usage text calls it
                   [parse_k6_results.js] ([parseK6Results])

    What the model leaves out:

    - JavaScript numbers are modelled by [number]: an exact rational, or
      one of the three non-finite values.  Rounding of IEEE doubles and the
      sign of zero are not modelled.
    - Strings are sequences of bytes; [trim] removes ASCII white space.
    - A sample value that is not a number is read as [NaN]
      ([value_number]); the k6 format has numbers there.
    - Objects used as maps keep their keys in insertion order, which is
      the order of [Object.keys] when no key is an array index.
    - Limits of the engine (the number of arguments of a spread call, the
      size of a string) are not modelled.

    Built-ins of the runtime are the fields of [Platform]; the properties
    hold for every platform, and [ReferencePlatform] is an executable one
    on which the tools are run on sample files. *)

From Stdlib Require Import ZArith QArith Qabs Qround Lqa Lia List Ascii String.
From Stdlib Require Import DecimalString Sorting.
From stdpp Require Import base strings list gmap.

Local Open Scope Z_scope.

(** ** JavaScript numbers *)

Inductive number : Type :=
| Fin (q : Q)
| NaN
| PosInf
| NegInf.

Definition num_of_Z (z : Z) : number := Fin (inject_Z z).
Definition num_of_nat (n : nat) : number := num_of_Z (Z.of_nat n).

Definition Qsign (q : Q) : comparison := Qcompare q 0.

Definition num_neg (a : number) : number :=
  match a with
  | Fin q => Fin (Qopp q)
  | NaN => NaN
  | PosInf => NegInf
  | NegInf => PosInf
  end.

Definition num_add (a b : number) : number :=
  match a, b with
  | NaN, _ | _, NaN => NaN
  | Fin x, Fin y => Fin (x + y)
  | PosInf, NegInf | NegInf, PosInf => NaN
  | PosInf, _ | _, PosInf => PosInf
  | NegInf, _ | _, NegInf => NegInf
  end.

Definition num_sub (a b : number) : number := num_add a (num_neg b).

Definition num_mul (a b : number) : number :=
  match a, b with
  | NaN, _ | _, NaN => NaN
  | Fin x, Fin y => Fin (x * y)
  | Fin x, PosInf | PosInf, Fin x =>
      match Qsign x with Eq => NaN | Gt => PosInf | Lt => NegInf end
  | Fin x, NegInf | NegInf, Fin x =>
      match Qsign x with Eq => NaN | Gt => NegInf | Lt => PosInf end
  | PosInf, PosInf | NegInf, NegInf => PosInf
  | PosInf, NegInf | NegInf, PosInf => NegInf
  end.

(** [a / b]; a finite non-zero value divided by zero is infinite and
    [0 / 0] is [NaN] (the sign of a zero divisor is not tracked). *)
Definition num_div (a b : number) : number :=
  match a, b with
  | NaN, _ | _, NaN => NaN
  | Fin x, Fin y =>
      match Qsign y with
      | Eq => match Qsign x with Eq => NaN | Gt => PosInf | Lt => NegInf end
      | _ => Fin (x / y)
      end
  | Fin _, _ => Fin 0
  | PosInf, Fin y => match Qsign y with Lt => NegInf | _ => PosInf end
  | NegInf, Fin y => match Qsign y with Lt => PosInf | _ => NegInf end
  | _, _ => NaN
  end.

(** [Math.round]: the nearest integer, halves going up. *)
Definition Qround_half_up (q : Q) : Z := Qfloor (q + (1 # 2)).

Definition Math_round (a : number) : number :=
  match a with
  | Fin q => num_of_Z (Qround_half_up q)
  | _ => a
  end.

(** Truthiness of a number, and [a || b] on numbers. *)
Definition num_truthy (a : number) : bool :=
  match a with
  | Fin q => negb (Qeq_bool q 0)
  | NaN => false
  | _ => true
  end.

Definition num_or (a b : number) : number := if num_truthy a then a else b.

Definition num_min (a b : number) : number :=
  match a, b with
  | NaN, _ | _, NaN => NaN
  | NegInf, _ | _, NegInf => NegInf
  | PosInf, c | c, PosInf => c
  | Fin x, Fin y => if Qle_bool x y then a else b
  end.

Definition num_max (a b : number) : number :=
  match a, b with
  | NaN, _ | _, NaN => NaN
  | PosInf, _ | _, PosInf => PosInf
  | NegInf, c | c, NegInf => c
  | Fin x, Fin y => if Qle_bool x y then b else a
  end.

(** [Math.min(...xs)] and [Math.max(...xs)]: the spread of an empty array
    gives [Infinity] and [-Infinity]. *)
Definition Math_min (xs : list number) : number := foldr num_min PosInf xs.
Definition Math_max (xs : list number) : number := foldr num_max NegInf xs.

(** [xs.reduce((a, b) => a + b, 0)] *)
Definition sum_numbers (xs : list number) : number :=
  fold_left num_add xs (Fin 0).

(** The relation [a <= b] of JavaScript on numbers. *)
Definition num_le (a b : number) : Prop :=
  match a, b with
  | NaN, _ | _, NaN => False
  | Fin x, Fin y => (x <= y)%Q
  | NegInf, _ | _, PosInf => True
  | _, _ => False
  end.

(** A list of numbers that never decreases from one element to the
    next. *)
Fixpoint increasing (xs : list number) : Prop :=
  match xs with
  | a :: (b :: _) as rest => num_le a b /\ increasing rest
  | _ => True
  end.

(** ** [Array.prototype.sort] with a comparator

    The sort is stable.  An element goes in front of the first element
    of the already sorted suffix it does not exceed. *)

Fixpoint insert_by {A} (le : A -> A -> bool) (x : A) (l : list A) : list A :=
  match l with
  | [] => [x]
  | y :: l' => if le x y then x :: l else y :: insert_by le x l'
  end.

Definition sort_by {A} (le : A -> A -> bool) (l : list A) : list A :=
  foldr (insert_by le) [] l.

(** The comparator [(a, b) => a - b]; a [NaN] result counts as zero. *)
Definition ascending (a b : number) : bool :=
  match num_sub a b with
  | Fin d => Qle_bool d 0
  | NaN => true
  | NegInf => true
  | PosInf => false
  end.

Definition sort_numbers (xs : list number) : list number :=
  sort_by ascending xs.

(** Array indexing by a number that is an integer: [xs[i]], [None] being
    [undefined]. *)
Definition at_index {A} (xs : list A) (i : Z) : option A :=
  if (i <? 0) then None else xs !! Z.to_nat i.

(** A possibly undefined number in a numeric position ([ToNumber]). *)
Definition to_num (o : option number) : number :=
  match o with Some a => a | None => NaN end.

(** ** Strings *)

Local Open Scope string_scope.

(** White space removed by [trim] (the ASCII part of it). *)
Definition is_space (c : ascii) : bool :=
  let n := nat_of_ascii c in
  ((9 <=? n) && (n <=? 13))%nat || (n =? 32)%nat.

Fixpoint trim_start (s : string) : string :=
  match s with
  | String c s' => if is_space c then trim_start s' else s
  | EmptyString => EmptyString
  end.

Definition trim (s : string) : string :=
  String.rev (trim_start (String.rev (trim_start s))).

(** [s.split('\n')] *)
Fixpoint split_lines (s : string) : list string :=
  match s with
  | EmptyString => [EmptyString]
  | String c s' =>
      if Ascii.eqb c "010" then EmptyString :: split_lines s'
      else match split_lines s' with
           | l :: ls => String c l :: ls
           | [] => [String c EmptyString]
           end
  end.

(** [xs.join(sep)] on strings. *)
Definition join (sep : string) (xs : list string) : string :=
  String.concat sep xs.

Fixpoint string_drop (n : nat) (s : string) : string :=
  match n, s with
  | S n', String _ s' => string_drop n' s'
  | _, _ => s
  end.

(** The text before and after the first occurrence of [sep] in [s]. *)
Fixpoint cut (sep s : string) : option (string * string) :=
  if String.prefix sep s then Some (EmptyString, string_drop (String.length sep) s)
  else match s with
       | EmptyString => None
       | String c s' =>
           match cut sep s' with
           | Some (a, b) => Some (String c a, b)
           | None => None
           end
       end.

(** [s.includes(sep)], [s.split(sep)[0]] and [s.replace(a, b)] for a
    non-empty pattern. *)
Definition includes (sep s : string) : bool :=
  match cut sep s with Some _ => true | None => false end.

Definition first_part (sep s : string) : string :=
  match cut sep s with Some (a, _) => a | None => s end.

Definition replace_first (a b s : string) : string :=
  match cut a s with Some (x, y) => x +:+ b +:+ y | None => s end.

(** Texts with double quotes are written below with an apostrophe for
    each double quote. *)
Fixpoint dq (s : string) : string :=
  match s with
  | EmptyString => EmptyString
  | String c s' => String (if Ascii.eqb c "'" then ascii_of_nat 34 else c) (dq s')
  end.

Definition newline : string := String (ascii_of_nat 10) EmptyString.

(** ** JavaScript values

    The values the tools handle: what [JSON.parse] returns, plus
    [undefined]. *)

#[warnings="-register-all"]
Inductive jsval : Type :=
| Undefined
| Null
| Bool (b : bool)
| Num (n : number)
| Str (s : string)
| Arr (items : list jsval)
| Obj (fields : list (string * jsval)).

Definition truthy (v : jsval) : bool :=
  match v with
  | Undefined | Null => false
  | Bool b => b
  | Num n => num_truthy n
  | Str s => negb (String.eqb s EmptyString)
  | Arr _ | Obj _ => true
  end.

(** The last binding of a key: a repeated key of a JSON text keeps its
    last value. *)
Fixpoint assoc_last (k : string) (fs : list (string * jsval)) : jsval :=
  match fs with
  | [] => Undefined
  | (k', v) :: fs' =>
      match assoc_last k fs' with
      | Undefined => if String.eqb k k' then v else Undefined
      | w => w
      end
  end.

Inductive error : Type :=
| SyntaxError
| TypeError
| IOError (path : string).

Inductive result (A : Type) : Type :=
| Ok (a : A)
| Throw (e : error).
Arguments Ok {A} a.
Arguments Throw {A} e.

Global Instance result_ret : MRet result := fun A a => Ok a.
Global Instance result_bind : MBind result := fun A B k r =>
  match r with Ok a => k a | Throw e => Throw e end.

(** [v.k] for the data properties the tools read ([metric], [data],
    [tags], [value], ...): reading a property of [undefined] or [null]
    throws, a primitive or an array has none of them. *)
Definition get (v : jsval) (k : string) : result jsval :=
  match v with
  | Undefined | Null => Throw TypeError
  | Obj fs => Ok (assoc_last k fs)
  | _ => Ok Undefined
  end.

(** [v?.k] *)
Definition get_opt (v : jsval) (k : string) : jsval :=
  match v with
  | Obj fs => assoc_last k fs
  | _ => Undefined
  end.

(** [a && a.k]: the property of a truthy value, else the falsy value. *)
Definition and_get (v : jsval) (k : string) : jsval :=
  if truthy v then get_opt v k else v.

(** [v === s] for a string literal and [v === 1]. *)
Definition is_str (v : jsval) (s : string) : bool :=
  match v with Str t => String.eqb t s | _ => false end.

Definition is_one (v : jsval) : bool :=
  match v with Num (Fin q) => Qeq_bool q 1 | _ => false end.

(** The numeric reading of a sample value.  The k6 format has numbers
    there; any other value is read as [NaN]. *)
Definition value_number (v : jsval) : number :=
  match v with Num n => n | _ => NaN end.

(** ** Objects used as maps

    Keys in insertion order, as [Object.keys] lists them when no key is an
    array index. *)

Definition obj (A : Type) : Type := list (string * A).

Fixpoint obj_get {A} (o : obj A) (k : string) : option A :=
  match o with
  | [] => None
  | (k', a) :: o' => if String.eqb k k' then Some a else obj_get o' k
  end.

Fixpoint obj_set {A} (o : obj A) (k : string) (a : A) : obj A :=
  match o with
  | [] => [(k, a)]
  | (k', a') :: o' =>
      if String.eqb k k' then (k', a) :: o' else (k', a') :: obj_set o' k a
  end.

Definition Object_keys {A} (o : obj A) : list string := map fst o.
Definition Object_values {A} (o : obj A) : list A := map snd o.

(** Names every object inherits from [Object.prototype]: [o[k]] is
    truthy for them although [o] was created empty. *)
Definition inherited_names : list string :=
  [ "constructor"; "__defineGetter__"; "__defineSetter__"; "hasOwnProperty";
    "__lookupGetter__"; "__lookupSetter__"; "isPrototypeOf";
    "propertyIsEnumerable"; "toString"; "valueOf"; "__proto__";
    "toLocaleString" ].

Definition inherited (k : string) : bool :=
  existsb (String.eqb k) inherited_names.

(** ** The platform

    Built-ins of the runtime that the tools call and that are not part of
    the repository. *)

Class Platform : Type := {
  (** [JSON.parse]; [None] is a [SyntaxError] *)
  JSON_parse : string -> option jsval;
  (** [Number.prototype.toString] *)
  Number_toString : number -> string;
  (** the time value of [new Date(v)] *)
  Date_valueOf : jsval -> number;
  (** [parseInt(v)] *)
  parseInt : jsval -> number;
  (** [path.join(a, b)] and [path.dirname(p)] *)
  path_join : string -> string -> string;
  path_dirname : string -> string;
  (** [error.message] *)
  error_message : error -> string
}.

Section WithPlatform.
Context {P : Platform}.

(** [ToString] of a value, as template literals and property keys
    apply it. *)
Fixpoint ToString (v : jsval) : string :=
  match v with
  | Undefined => "undefined"
  | Null => "null"
  | Bool true => "true"
  | Bool false => "false"
  | Num n => Number_toString n
  | Str s => s
  | Arr items =>
      join ","
        (map (fun x => match x with
                       | Undefined | Null => EmptyString
                       | _ => ToString x
                       end) items)
  | Obj _ => "[object Object]"
  end.

(** The decimal digits of a natural number. *)
Definition digits (z : Z) : string :=
  NilZero.string_of_uint (N.to_uint (Z.to_N z)).

Fixpoint zeros (n : nat) : string :=
  match n with O => EmptyString | S n' => String "0" (zeros n') end.

(** [x.toFixed(f)]: the integer [n] nearest to [x * 10^f] (the larger of
    two), printed with [f] digits after the point. *)
Definition toFixed (f : nat) (x : number) : string :=
  match x with
  | NaN => "NaN"
  | PosInf => "Infinity"
  | NegInf => "-Infinity"
  | Fin q =>
      let s := if Qlt_le_dec q 0 then "-" else EmptyString in
      let a := Qabs q in
      if Qle_bool (inject_Z (10 ^ 21)) a then s +:+ Number_toString (Fin a)
      else
        let n := Qfloor (a * inject_Z (10 ^ Z.of_nat f) + (1 # 2)) in
        let m := digits n in
        if decide (f = 0%nat) then s +:+ m
        else
          let k := String.length m in
          let m' := if decide (k <= f)%nat then zeros (f + 1 - k) +:+ m else m in
          let k' := String.length m' in
          s +:+ substring 0 (k' - f) m' +:+ "." +:+ substring (k' - f) f m'
  end.

End WithPlatform.

(** ** The file system and the console

    Files hold text.  A path can exist and still refuse to be read or
    written; writing below a missing directory is such a refusal. *)

Record filesystem : Type := {
  files : gmap string string;
  directories : gset string;
  unreadable : gset string;
  unwritable : gset string
}.

Definition existsSync (w : filesystem) (p : string) : bool :=
  bool_decide (is_Some (files w !! p) \/ p ∈ directories w).

Definition readFileSync (w : filesystem) (p : string) : result string :=
  match files w !! p with
  | Some content => if decide (p ∈ unreadable w) then Throw (IOError p) else Ok content
  | None => Throw (IOError p)
  end.

Definition with_file (w : filesystem) (p content : string) : filesystem :=
  {| files := <[p := content]> (files w);
     directories := directories w;
     unreadable := unreadable w;
     unwritable := unwritable w |}.

Definition writeFileSync (w : filesystem) (p content : string)
  : result filesystem :=
  if decide (p ∈ unwritable w) then Throw (IOError p)
  else Ok (with_file w p content).

(** How a script ends, and the exit status the runtime reports for it:
    a script that returns from its last statement ends with status 0. *)
Inductive completion : Type :=
| Returned
| Exited (code : Z)
| Uncaught (e : error).

Definition exit_status (c : completion) : Z :=
  match c with
  | Returned => 0
  | Exited code => code
  | Uncaught _ => 1
  end.

(** What a run leaves behind: the files, the lines written by
    [console.error] (less the pictograph that opens some of them), and how
    it ended.  What goes to [console.log] is not kept. *)
Record outcome : Type := {
  fs_after : filesystem;
  stderr : list string;
  ending : completion
}.

(** The index [Math.floor(n * p)] of the call sites that take a percentile
    by indexing the sorted array. *)
Definition floor_index (n : nat) (p : Q) : Z :=
  Qfloor (inject_Z (Z.of_nat n) * p).

Definition integral (x : Q) : bool := Qeq_bool (inject_Z (Qfloor x)) x.

(** The percentile policy as the specification words it: the element of
    the ascending sequence at index [ceil(k/100 * n) - 1], clamped to
    [[0, n-1]] (nearest rank).  It is compared below with what each tool
    computes. *)
Definition nearest_rank_index (k : Q) (n : nat) : Z :=
  Z.min (Z.of_nat n - 1)
    (Z.max 0 (Qceiling (k / 100 * inject_Z (Z.of_nat n)) - 1)).

Definition nearest_rank (sorted : list number) (k : Q) : option number :=
  at_index sorted (nearest_rank_index k (length sorted)).

(** ** The CSV exporter *)

Module Exporter.
Section WithPlatform.
Context {P : Platform}.

(** The objects pushed on the series of an endpoint:
    [{ value, time, tags }], and [{ value, time, check }] for checks. *)
Record point : Type := {
  value : jsval;
  time : jsval;
  tags : jsval;
  check : jsval
}.

Record bucket : Type := {
  requests : list point;
  durations : list point;
  checks : list point;
  blocked : list point;
  connecting : list point;
  sending : list point;
  waiting : list point;
  receiving : list point;
  dataReceived : list point;
  dataSent : list point;
  globalDataReceived : option number;
  globalDataSent : option number
}.

Definition empty_bucket : bucket :=
  {| requests := []; durations := []; checks := []; blocked := [];
     connecting := []; sending := []; waiting := []; receiving := [];
     dataReceived := []; dataSent := [];
     globalDataReceived := None; globalDataSent := None |}.

Inductive series : Type :=
| Requests | Durations | Checks | Blocked | Connecting | Sending
| Waiting | Receiving | DataReceived | DataSent.

(** [endpointData[endpoint].<series>.push(p)] *)
Definition push (s : series) (p : point) (b : bucket) : bucket :=
  let '{| requests := rq; durations := du; checks := ch; blocked := bl;
          connecting := co; sending := se; waiting := wa; receiving := re;
          dataReceived := dr; dataSent := ds;
          globalDataReceived := gr; globalDataSent := gs |} := b in
  match s with
  | Requests => Build_bucket (rq ++ [p]) du ch bl co se wa re dr ds gr gs
  | Durations => Build_bucket rq (du ++ [p]) ch bl co se wa re dr ds gr gs
  | Checks => Build_bucket rq du (ch ++ [p]) bl co se wa re dr ds gr gs
  | Blocked => Build_bucket rq du ch (bl ++ [p]) co se wa re dr ds gr gs
  | Connecting => Build_bucket rq du ch bl (co ++ [p]) se wa re dr ds gr gs
  | Sending => Build_bucket rq du ch bl co (se ++ [p]) wa re dr ds gr gs
  | Waiting => Build_bucket rq du ch bl co se (wa ++ [p]) re dr ds gr gs
  | Receiving => Build_bucket rq du ch bl co se wa (re ++ [p]) dr ds gr gs
  | DataReceived => Build_bucket rq du ch bl co se wa re (dr ++ [p]) ds gr gs
  | DataSent => Build_bucket rq du ch bl co se wa re dr (ds ++ [p]) gr gs
  end.

(** The [switch (metricType)] of the endpoint branch. *)
Definition series_of (metricType : jsval) : option series :=
  if is_str metricType "http_reqs" then Some Requests
  else if is_str metricType "http_req_duration" then Some Durations
  else if is_str metricType "http_req_blocked" then Some Blocked
  else if is_str metricType "http_req_connecting" then Some Connecting
  else if is_str metricType "http_req_sending" then Some Sending
  else if is_str metricType "http_req_waiting" then Some Waiting
  else if is_str metricType "http_req_receiving" then Some Receiving
  else if is_str metricType "data_received" then Some DataReceived
  else if is_str metricType "data_sent" then Some DataSent
  else None.

(** [if (!endpointData[k]) endpointData[k] = { requests: [], ... }] *)
Definition init_bucket (o : obj bucket) (k : string) : obj bucket :=
  if inherited k then o
  else match obj_get o k with
       | Some _ => o
       | None => obj_set o k empty_bucket
       end.

(** [endpointData[k].<series>.push(p)] on an initialised map; an
    inherited name has no series to push on. *)
Definition push_at (o : obj bucket) (k : string) (s : series) (p : point)
  : result (obj bucket) :=
  if inherited k then Throw TypeError
  else match obj_get o k with
       | Some b => Ok (obj_set o k (push s p b))
       | None => Throw TypeError
       end.

(** The endpoint a check belongs to, from the name of the check
    (e.g. "Device Information - status is 200"). *)
Definition checkEndpoint_of (checkName : jsval) : result string :=
  match checkName with
  | Str s => Ok (if includes " - " s then first_part " - " s else "Unknown")
  | Arr items =>
      if existsb (fun x => is_str x " - ") items then Throw TypeError
      else Ok "Unknown"
  | _ => Throw TypeError
  end.

(** The state of the [metrics.forEach] loop. *)
Record aggregation : Type := {
  endpointData : obj bucket;
  globalReceived : jsval;
  globalSent : jsval
}.

Definition with_data (st : aggregation) (o : obj bucket) : aggregation :=
  {| endpointData := o;
     globalReceived := globalReceived st;
     globalSent := globalSent st |}.

(** The body of [metrics.forEach(metric => ...)]; [metric] is not
    [null]. *)
Definition processMetric (st : aggregation) (metric : jsval)
  : result aggregation :=
  let metricType := get_opt metric "metric" in
  let data := get_opt metric "data" in
  let tags := and_get data "tags" in
  let checkName := and_get tags "check" in
  if is_str metricType "checks" && truthy checkName then
    checkEndpoint ← checkEndpoint_of checkName;
    let o := init_bucket (endpointData st) checkEndpoint in
    o' ← push_at o checkEndpoint Checks
           {| value := get_opt data "value"; time := get_opt data "time";
              tags := Undefined; check := checkName |};
    Ok (with_data st o')
  else
    let endpoint := and_get tags "endpoint" in
    if truthy endpoint then
      let key := ToString endpoint in
      let o := init_bucket (endpointData st) key in
      match series_of metricType with
      | Some s =>
          o' ← push_at o key s
                 {| value := get_opt data "value"; time := get_opt data "time";
                    tags := tags; check := Undefined |};
          Ok (with_data st o')
      | None => Ok (with_data st o)
      end
    else if is_str metricType "data_received" then
      v ← get data "value";
      Ok {| endpointData := endpointData st;
            globalReceived := v; globalSent := globalSent st |}
    else if is_str metricType "data_sent" then
      v ← get data "value";
      Ok {| endpointData := endpointData st;
            globalReceived := globalReceived st; globalSent := v |}
    else Ok st.

Fixpoint processMetrics (st : aggregation) (metrics : list jsval)
  : result aggregation :=
  match metrics with
  | [] => Ok st
  | metric :: rest => st' ← processMetric st metric; processMetrics st' rest
  end.

(** The line reader: [lines.map(...)] with the parse caught per line,
    then [.filter(metric => metric !== null)]. *)
Definition parse_line (line : string) : option jsval :=
  match JSON_parse line with
  | Some Null => None
  | Some v => Some v
  | None => None
  end.

Definition read_metrics (fileContent : string) : list jsval :=
  omap parse_line (split_lines (trim fileContent)).

(** Whether the reader keeps a line. *)
Definition kept (line : string) : bool :=
  match parse_line line with Some _ => true | None => false end.

(** The proportional share of the global data counters. *)
Definition total_requests (o : obj bucket) : nat :=
  fold_left (fun sum data => (sum + length (requests data))%nat)
    (Object_values o) 0%nat.

Definition share (global : jsval) (endpointRequests totalRequests : nat)
  : number :=
  Math_round
    (num_mul (value_number global)
       (num_div (num_of_nat endpointRequests) (num_of_nat totalRequests))).

Definition distribute (st : aggregation) : obj bucket :=
  let o := endpointData st in
  let totalRequests := total_requests o in
  if decide (0 < totalRequests)%nat then
    map (fun '(k, b) =>
           let n := length (requests b) in
           (k, {| requests := requests b; durations := durations b;
                  checks := checks b; blocked := blocked b;
                  connecting := connecting b; sending := sending b;
                  waiting := waiting b; receiving := receiving b;
                  dataReceived := dataReceived b; dataSent := dataSent b;
                  globalDataReceived :=
                    Some (share (globalReceived st) n totalRequests);
                  globalDataSent :=
                    Some (share (globalSent st) n totalRequests) |})) o
  else o.

Definition initial : aggregation :=
  {| endpointData := [];
     globalReceived := Num (Fin 0);
     globalSent := Num (Fin 0) |}.

(** The [try] block of [parseK6Results]. *)
Definition parse_content (fileContent : string) : result (obj bucket) :=
  st ← processMetrics initial (read_metrics fileContent);
  Ok (distribute st).

(** [parseK6Results]: the endpoint data, or [null] ([None]) with a
    line on the error console. *)
Definition parseK6Results (w : filesystem) (jsonFilePath : string)
  : option (obj bucket) * list string :=
  match fileContent ← readFileSync w jsonFilePath;
        parse_content fileContent with
  | Ok o => (Some o, [])
  | Throw e => (None, ["Error parsing k6 results: " +:+ error_message e])
  end.

(** *** Statistics of one endpoint *)

Definition values_of (ps : list point) : list number :=
  map (fun d => value_number (value d)) ps.

Record EndpointStats : Type := {
  endpoint : string;
  dateTime : string;
  totalRequests : nat;
  successRate : jsval;
  minResponseTime : number;
  maxResponseTime : number;
  avgResponseTime : number;
  medianResponseTime : number;
  p95ResponseTime : number;
  p99ResponseTime : number;
  avgBlockedTime : number;
  avgConnectingTime : number;
  avgSendingTime : number;
  avgWaitingTime : number;
  avgReceivingTime : number;
  totalDataReceivedKB : number;
  totalDataSentKB : number;
  requestsPerSecond : string;
  peakRequestRate : number;
  responseTimeAtPeak : number;
  maxLoadLevel : number
}.

(** [xs.length > 0 ? Math.round(sum / xs.length * 100) / 100 : 0] *)
Definition average_2dp (ps : list point) : number :=
  if decide (0 < length ps)%nat then
    num_div
      (Math_round
         (num_mul (num_div (sum_numbers (values_of ps)) (num_of_nat (length ps)))
            (Fin 100)))
      (Fin 100)
  else Fin 0.

(** [data.checks.length > 0 ? (passed / total * 100).toFixed(1) : 0] *)
Definition success_rate (cs : list point) : jsval :=
  if decide (0 < length cs)%nat then
    Str (toFixed 1
           (num_mul
              (num_div
                 (num_of_nat (length (filter (fun c => is_one (value c) = true) cs)))
                 (num_of_nat (length cs)))
              (Fin 100)))
  else Num (Fin 0).

(** The duration of the test in seconds, at least one second. *)
Definition test_duration (rs : list point) : number :=
  match rs, last rs with
  | first :: _, Some final =>
      num_max (Fin 1)
        (num_div (num_sub (Date_valueOf (time final)) (Date_valueOf (time first)))
           (Fin 1000))
  | _, _ => Fin 0
  end.

Definition defined (v : jsval) : bool :=
  match v with Undefined => false | _ => true end.

Definition load_levels (rs : list point) : list number :=
  map parseInt
    (List.filter defined (map (fun r => get_opt (tags r) "load_level") rs)).

Definition half_index (n : nat) : Z := Qfloor (inject_Z (Z.of_nat n) / 2).

(** [calculateEndpointStats]; [now] is the reading of the clock. *)
Definition calculateEndpointStats (now : string) (name : string) (data : bucket)
  : EndpointStats :=
  (* the sort is in place: [durations] and [sortedDurations] are one array *)
  let sortedDurations := sort_numbers (values_of (durations data)) in
  let durations_ := sortedDurations in
  let testDuration := test_duration (requests data) in
  let loadLevels := load_levels (requests data) in
  let maxLoad :=
    if decide (0 < length loadLevels)%nat then Math_max loadLevels else Fin 0 in
  let peakLoadDurations :=
    values_of
      (List.filter
         (fun d => is_str (get_opt (tags d) "load_level") (Number_toString maxLoad))
         (durations data)) in
  let atPeak :=
    if decide (0 < length loadLevels)%nat then
      if decide (0 < length peakLoadDurations)%nat then
        Math_round (num_div (sum_numbers peakLoadDurations)
                      (num_of_nat (length peakLoadDurations)))
      else Fin 0
    else Fin 0 in
  let rate := num_div (num_of_nat (length (requests data))) testDuration in
  let n := length sortedDurations in
  {| endpoint := name;
     dateTime := now;
     totalRequests := length (requests data);
     successRate := success_rate (checks data);
     minResponseTime := Math_round (num_or (Math_min durations_) (Fin 0));
     maxResponseTime := Math_round (num_or (Math_max durations_) (Fin 0));
     avgResponseTime :=
       Math_round
         (num_or (num_div (sum_numbers durations_) (num_of_nat (length durations_)))
            (Fin 0));
     medianResponseTime :=
       Math_round (num_or (to_num (at_index sortedDurations (half_index n))) (Fin 0));
     p95ResponseTime :=
       Math_round
         (num_or (to_num (at_index sortedDurations (floor_index n (95 # 100)))) (Fin 0));
     p99ResponseTime :=
       Math_round
         (num_or (to_num (at_index sortedDurations (floor_index n (99 # 100)))) (Fin 0));
     avgBlockedTime := average_2dp (blocked data);
     avgConnectingTime := average_2dp (connecting data);
     avgSendingTime := average_2dp (sending data);
     avgWaitingTime := average_2dp (waiting data);
     avgReceivingTime := average_2dp (receiving data);
     totalDataReceivedKB :=
       Math_round
         (num_div (num_or (to_num (globalDataReceived data)) (Fin 0)) (Fin 1024));
     totalDataSentKB :=
       Math_round
         (num_div (num_or (to_num (globalDataSent data)) (Fin 0)) (Fin 1024));
     requestsPerSecond := toFixed 2 rate;
     peakRequestRate := num_div (Math_round (num_mul rate (Fin 10))) (Fin 10);
     responseTimeAtPeak := atPeak;
     maxLoadLevel := maxLoad |}.

(** *** The report *)

Definition dquote : string := String (ascii_of_nat 34) EmptyString.
Definition nl : string := newline.

Definition headers : list jsval :=
  map Str
    [ "Endpoint"; "Date/Time"; "Total Requests"; "Success Rate (%)";
      "Min Response Time (ms)"; "Max Response Time (ms)";
      "Avg Response Time (ms)"; "Median Response Time (ms)";
      "P95 Response Time (ms)"; "P99 Response Time (ms)";
      "Avg Blocked Time (ms)"; "Avg Connecting Time (ms)";
      "Avg Sending Time (ms)"; "Avg Waiting Time (ms)";
      "Avg Receiving Time (ms)"; "Total Data Received (KB)";
      "Total Data Sent (KB)"; "Requests Per Second";
      "Peak Request Rate (RPS)"; "Response Time at Peak (ms)";
      "Max Load Level (VUs)" ].

Definition fields_of (stats : EndpointStats) : list jsval :=
  [ Str (endpoint stats); Str (dateTime stats);
    Num (num_of_nat (totalRequests stats)); successRate stats;
    Num (minResponseTime stats); Num (maxResponseTime stats);
    Num (avgResponseTime stats); Num (medianResponseTime stats);
    Num (p95ResponseTime stats); Num (p99ResponseTime stats);
    Num (avgBlockedTime stats); Num (avgConnectingTime stats);
    Num (avgSendingTime stats); Num (avgWaitingTime stats);
    Num (avgReceivingTime stats); Num (totalDataReceivedKB stats);
    Num (totalDataSentKB stats); Str (requestsPerSecond stats);
    Num (peakRequestRate stats); Num (responseTimeAtPeak stats);
    Num (maxLoadLevel stats) ].

(** [row.map(field => `"${field}"`).join(',')] *)
Definition render_row (row : list jsval) : string :=
  join "," (map (fun field => dquote +:+ ToString field +:+ dquote) row).

(** [createCSV] *)
Definition createCSV (endpointStats : obj EndpointStats) : string :=
  let rows := map fields_of (Object_values endpointStats) in
  join nl (map render_row (headers :: rows)).

(** [iso.replace(/[:.]/g, '-')] *)
Fixpoint dashed (iso : string) : string :=
  match iso with
  | EmptyString => EmptyString
  | String c rest =>
      String (if Ascii.eqb c ":" || Ascii.eqb c "." then "-"%char else c)
        (dashed rest)
  end.

Definition trendsFileName : string := "k6-api-metrics-trends.csv".

(** [endpointStats[endpoint] = calculateEndpointStats(endpoint, ...)] for
    each key.  [clock i] is the [i]-th reading of the clock in the run:
    one per endpoint, then one for the name of a new file. *)
Definition stats_of (clock : nat -> string) (endpointData : obj bucket)
  : obj EndpointStats :=
  imap (fun i '(name, data) =>
          (name, calculateEndpointStats (clock i) name data))
    endpointData.

(** The data rows, without the header row. *)
Definition rows_of (clock : nat -> string) (endpointData : obj bucket)
  : list string :=
  map (fun stats => render_row (fields_of stats))
    (Object_values (stats_of clock endpointData)).

Definition file_name (clock : nat -> string) (endpointData : obj bucket)
    (appendMode : bool) : string :=
  if appendMode then trendsFileName
  else "k6-api-metrics-" +:+ dashed (clock (length endpointData)) +:+ ".csv".

(** [exportToExcel] *)
Definition exportToExcel (clock : nat -> string) (w : filesystem)
    (jsonFilePath outputDir : string) (appendMode : bool)
  : filesystem * list string :=
  match parseK6Results w jsonFilePath with
  | (None, err) => (w, (err ++ ["Failed to parse k6 results"])%list)
  | (Some endpointData, err) =>
      let endpointStats := stats_of clock endpointData in
      let excelFileName := file_name clock endpointData appendMode in
      let excelFilePath := path_join outputDir excelFileName in
      match
        csvContent ←
          (if appendMode && existsSync w excelFilePath then
             existingContent ← readFileSync w excelFilePath;
             let newRows := rows_of clock endpointData in
             Ok (existingContent +:+ nl +:+ nl +:+ join nl newRows)
           else Ok (createCSV endpointStats));
        writeFileSync w excelFilePath csvContent
      with
      | Ok w' => (w', err)
      | Throw e => (w, (err ++ ["Error exporting to Excel: " +:+ error_message e])%list)
      end
  end.

(** [main], on the arguments after the script name. *)
Definition main (clock : nat -> string) (w : filesystem) (args : list string)
  : outcome :=
  match args with
  | [] => {| fs_after := w; stderr := []; ending := Returned |}
  | jsonFilePath :: rest =>
      let outputDir :=
        match rest with
        | dir :: _ =>
            if String.eqb dir EmptyString then path_dirname jsonFilePath else dir
        | [] => path_dirname jsonFilePath
        end in
      let appendMode := existsb (String.eqb "--append") args in
      if negb (existsSync w jsonFilePath) then
        {| fs_after := w;
           stderr := ["JSON file not found: " +:+ jsonFilePath];
           ending := Returned |}
      else if negb (existsSync w outputDir) then
        {| fs_after := w;
           stderr := ["Output directory not found: " +:+ outputDir];
           ending := Returned |}
      else
        let '(w', err) := exportToExcel clock w jsonFilePath outputDir appendMode in
        {| fs_after := w'; stderr := err; ending := Returned |}
  end.

End WithPlatform.
End Exporter.

(** ** The streaming analyzer *)

Module Streaming.
Section WithPlatform.
Context {P : Platform}.

(** [calculateAverage] *)
Definition calculateAverage (values : list number) : number :=
  if decide (length values = 0%nat) then Fin 0
  else num_div (sum_numbers values) (num_of_nat (length values)).

(** The index [Math.ceil((percentile / 100) * sorted.length) - 1]. *)
Definition rank_index (percentile : Q) (n : nat) : Z :=
  Qceiling ((percentile / 100) * inject_Z (Z.of_nat n)) - 1.

(** [calculatePercentile]; [None] is [undefined]. *)
Definition calculatePercentile (values : list number) (percentile : Q)
  : option number :=
  if decide (length values = 0%nat) then Some (Fin 0)
  else
    let sorted := sort_numbers values in
    let index := rank_index percentile (length sorted) in
    at_index sorted (Z.max 0 index).

(** *** Reading the lines *)

Record reading : Type := {
  metrics : obj jsval;
  checks : list jsval
}.

Definition set_field (fs : list (string * jsval)) (k : string) (v : jsval)
  : list (string * jsval) :=
  (List.filter (fun kv => negb (String.eqb k (fst kv))) fs ++ [(k, v)])%list.

Definition fresh_entry : jsval := Obj [("values", Arr [])].

(** [[
    if (!metrics[key]) metrics[key] = { values: [] };
    if (!metrics[key].values) metrics[key].values = [];
    metrics[key].values.push(item);
    ]]
    Metric names are assumed not to be names inherited from
    [Object.prototype]. *)
Definition store_value (ms : obj jsval) (key : string) (item : jsval)
  : result (obj jsval) :=
  let entry :=
    match obj_get ms key with
    | Some e => if truthy e then e else fresh_entry
    | None => fresh_entry
    end in
  match entry with
  | Obj fs =>
      let fs' :=
        if truthy (assoc_last "values" fs) then fs
        else set_field fs "values" (Arr []) in
      match assoc_last "values" fs' with
      | Arr items =>
          Ok (obj_set ms key (Obj (set_field fs' "values" (Arr (items ++ [item])))))
      | _ => Throw TypeError
      end
  | _ => Throw TypeError
  end.

(** The body of the [try] of [lines.forEach], after the parse. *)
Definition process_line (st : reading) (data : jsval) : result reading :=
  type ← get data "type";
  let metric := get_opt data "metric" in
  if is_str type "Metric" then
    Ok {| metrics := obj_set (metrics st) (ToString metric) (get_opt data "data");
          checks := checks st |}
  else if truthy metric || is_str type "Point" then
    ms ← store_value (metrics st) (ToString metric) (get_opt data "data");
    Ok {| metrics := ms; checks := checks st |}
  else if is_str type "Check" then
    Ok {| metrics := metrics st;
          checks := (checks st ++ [get_opt data "data"])%list |}
  else Ok st.

(** One line: a line that does not parse, or whose handling throws, is
    skipped. *)
Definition read_line (st : reading) (line : string) : reading :=
  match JSON_parse line with
  | None => st
  | Some data =>
      match process_line st data with
      | Ok st' => st'
      | Throw _ => st
      end
  end.

Definition read_lines (content : string) : reading :=
  fold_left read_line (split_lines (trim content))
    {| metrics := []; checks := [] |}.

(** [metrics[name]?.values || []], as the array the later [.map]
    needs. *)
Definition values_of (ms : obj jsval) (name : string) : result (list jsval) :=
  match obj_get ms name with
  | Some (Obj fs) =>
      match assoc_last "values" fs with
      | Arr items => Ok items
      | v => if truthy v then Throw TypeError else Ok []
      end
  | Some (Arr _) => Throw TypeError
  | _ => Ok []
  end.

(** *** Grouping by endpoint *)

Record entry : Type := {
  durations : list jsval;
  errors : nat
}.

(** [point.tags?.endpoint || point.tags?.name || 'Unknown'] as a
    property key. *)
Definition endpoint_of (point : jsval) : string :=
  let tags := get_opt point "tags" in
  let byTag := get_opt tags "endpoint" in
  if truthy byTag then ToString byTag
  else
    let byName := get_opt tags "name" in
    if truthy byName then ToString byName else "Unknown".

Definition group_point (stats : obj entry) (point : jsval)
  : result (obj entry) :=
  let endpoint := endpoint_of point in
  duration ← get point "value";
  if inherited endpoint then Throw TypeError
  else
    let e := default {| durations := []; errors := 0 |} (obj_get stats endpoint) in
    Ok (obj_set stats endpoint
          {| durations := (durations e ++ [duration])%list; errors := errors e |}).

Fixpoint group_points (stats : obj entry) (points : list jsval)
  : result (obj entry) :=
  match points with
  | [] => Ok stats
  | point :: rest => stats' ← group_point stats point; group_points stats' rest
  end.

Definition count_error (stats : obj entry) (point : jsval) : result (obj entry) :=
  v ← get point "value";
  if is_one v then
    let endpoint := endpoint_of point in
    match obj_get stats endpoint with
    | Some e =>
        Ok (obj_set stats endpoint
              {| durations := durations e; errors := S (errors e) |})
    | None => Ok stats
    end
  else Ok stats.

Fixpoint count_errors (stats : obj entry) (points : list jsval)
  : result (obj entry) :=
  match points with
  | [] => Ok stats
  | point :: rest => stats' ← count_error stats point; count_errors stats' rest
  end.

(** *** Statistics of one endpoint *)

Record Statistics : Type := {
  count : nat;
  avg : number;
  p50 : option number;
  p90 : option number;
  p95 : option number;
  p99 : option number;
  min : number;
  max : number;
  errorRate : string
}.

(** The body of [Object.keys(endpointStats).forEach]; [None] is the
    early [return] on an empty array. *)
Definition statistics (stats : entry) : option Statistics :=
  let sorted := sort_numbers (map value_number (durations stats)) in
  if decide (length sorted = 0%nat) then None
  else
    let n := num_of_nat (length sorted) in
    Some {| count := length sorted;
            avg := num_div (sum_numbers sorted) n;
            p50 := calculatePercentile sorted 50;
            p90 := calculatePercentile sorted 90;
            p95 := calculatePercentile sorted 95;
            p99 := calculatePercentile sorted 99;
            min := Math_min sorted;
            max := Math_max sorted;
            errorRate :=
              toFixed 2 (num_mul (num_div (num_of_nat (errors stats)) n) (Fin 100)) |}.

(** *** The detailed CSV *)

Definition nl : string := newline.

Definition csv_headers : list string :=
  [ "Endpoint"; "Requests"; "Avg (ms)"; "Min (ms)"; "Max (ms)"; "P50 (ms)";
    "P90 (ms)"; "P95 (ms)"; "P99 (ms)"; "Errors"; "Error Rate (%)" ].

(** [p.toFixed(2)] on a percentile; it throws on [undefined]. *)
Definition fixed2 (p : option number) : result string :=
  match p with
  | Some x => Ok (toFixed 2 x)
  | None => Throw TypeError
  end.

Definition csv_row (endpoint : string) (stats : entry) : result (option string) :=
  match statistics stats with
  | None => Ok None
  | Some s =>
      s50 ← fixed2 (p50 s);
      s90 ← fixed2 (p90 s);
      s95 ← fixed2 (p95 s);
      s99 ← fixed2 (p99 s);
      Ok (Some (join ","
                  [ endpoint; Number_toString (num_of_nat (count s));
                    toFixed 2 (avg s); toFixed 2 (min s); toFixed 2 (max s);
                    s50; s90; s95; s99;
                    Number_toString (num_of_nat (errors stats)); errorRate s ]))
  end.

Fixpoint csv_rows (stats : obj entry) : result (list string) :=
  match stats with
  | [] => Ok []
  | (endpoint, e) :: rest =>
      r ← csv_row endpoint e;
      rs ← csv_rows rest;
      Ok (match r with Some row => row :: rs | None => rs end)
  end.

(** [generateCSV] *)
Definition generateCSV (w : filesystem) (endpointStats : obj entry)
    (filename : string) : result filesystem :=
  rows ← csv_rows endpointStats;
  writeFileSync w filename (join nl (join "," csv_headers :: rows)).

Fixpoint values_at (points : list jsval) : result (list jsval) :=
  match points with
  | [] => Ok []
  | d :: rest => v ← get d "value"; vs ← values_at rest; Ok (v :: vs)
  end.

(** The [try] block of [analyzeK6StreamingResults]. *)
Definition analyze (w : filesystem) (jsonFile : string) : result filesystem :=
  content ← readFileSync w jsonFile;
  let st := read_lines content in
  httpReqDuration ← values_of (metrics st) "http_req_duration";
  httpReqFailed ← values_of (metrics st) "http_req_failed";
  vus ← values_of (metrics st) "vus";
  _ ← values_at httpReqDuration;
  _ ← values_at httpReqFailed;
  _ ← values_at vus;
  grouped ← group_points [] httpReqDuration;
  endpointStats ← count_errors grouped httpReqFailed;
  _ ← csv_rows endpointStats;
  generateCSV w endpointStats
    (replace_first ".json" "-detailed-analysis.csv" jsonFile).

(** [analyzeK6StreamingResults] *)
Definition analyzeK6StreamingResults (w : filesystem) (jsonFile : string)
  : filesystem * list string :=
  match analyze w jsonFile with
  | Ok w' => (w', [])
  | Throw e => (w, ["Error analyzing results: " +:+ error_message e])
  end.

(** [main]; the usage text lists the directory [./test-results]. *)
Definition main (w : filesystem) (args : list string) : outcome :=
  match args with
  | [] =>
      {| fs_after := w; stderr := [];
         ending := if decide ("./test-results" ∈ directories w) then Returned
                   else Uncaught (IOError "./test-results") |}
  | jsonFile :: _ =>
      if negb (existsSync w jsonFile) then
        {| fs_after := w; stderr := ["File not found: " +:+ jsonFile];
           ending := Returned |}
      else
        let '(w', err) := analyzeK6StreamingResults w jsonFile in
        {| fs_after := w'; stderr := err; ending := Returned |}
  end.

End WithPlatform.
End Streaming.

(** ** The console reporter *)

Module Parser.
Section WithPlatform.
Context {P : Platform}.

(** [{ value, time }], and [{ value, time, check }] for checks. *)
Record point : Type := {
  value : jsval;
  time : jsval;
  check : jsval
}.

Record bucket : Type := {
  requests : list point;
  durations : list point;
  checks : list point;
  blocked : list point;
  connecting : list point;
  sending : list point;
  waiting : list point;
  receiving : list point
}.

Definition empty_bucket : bucket :=
  {| requests := []; durations := []; checks := []; blocked := [];
     connecting := []; sending := []; waiting := []; receiving := [] |}.

Inductive series : Type :=
| Requests | Durations | Checks | Blocked | Connecting | Sending
| Waiting | Receiving.

Definition push (s : series) (p : point) (b : bucket) : bucket :=
  let '{| requests := rq; durations := du; checks := ch; blocked := bl;
          connecting := co; sending := se; waiting := wa; receiving := re |} := b in
  match s with
  | Requests => Build_bucket (rq ++ [p]) du ch bl co se wa re
  | Durations => Build_bucket rq (du ++ [p]) ch bl co se wa re
  | Checks => Build_bucket rq du (ch ++ [p]) bl co se wa re
  | Blocked => Build_bucket rq du ch (bl ++ [p]) co se wa re
  | Connecting => Build_bucket rq du ch bl (co ++ [p]) se wa re
  | Sending => Build_bucket rq du ch bl co (se ++ [p]) wa re
  | Waiting => Build_bucket rq du ch bl co se (wa ++ [p]) re
  | Receiving => Build_bucket rq du ch bl co se wa (re ++ [p])
  end.

Definition series_of (metricType : jsval) : option series :=
  if is_str metricType "http_reqs" then Some Requests
  else if is_str metricType "http_req_duration" then Some Durations
  else if is_str metricType "checks" then Some Checks
  else if is_str metricType "http_req_blocked" then Some Blocked
  else if is_str metricType "http_req_connecting" then Some Connecting
  else if is_str metricType "http_req_sending" then Some Sending
  else if is_str metricType "http_req_waiting" then Some Waiting
  else if is_str metricType "http_req_receiving" then Some Receiving
  else None.

(** [if (!endpointData[k]) endpointData[k] = { requests: [], ... }] *)
Definition init_bucket (o : obj bucket) (k : string) : obj bucket :=
  if inherited k then o
  else match obj_get o k with
       | Some _ => o
       | None => obj_set o k empty_bucket
       end.

(** [endpointData[k].<series>.push(p)] on an initialised map; an
    inherited name has no series to push on. *)
Definition push_at (o : obj bucket) (k : string) (s : series) (p : point)
  : result (obj bucket) :=
  if inherited k then Throw TypeError
  else match obj_get o k with
       | Some b => Ok (obj_set o k (push s p b))
       | None => Throw TypeError
       end.

(** The body of [metrics.forEach(metric => ...)]; [metric] can be
    [null]. *)
Definition processMetric (o : obj bucket) (metric : jsval) : result (obj bucket) :=
  data ← get metric "data";
  let tags := and_get data "tags" in
  let endpoint := and_get tags "endpoint" in
  if truthy endpoint then
    let key := ToString endpoint in
    let metricType := get_opt metric "metric" in
    let o1 := init_bucket o key in
    match series_of metricType with
    | Some s =>
        push_at o1 key s
          {| value := get_opt data "value";
             time := get_opt data "time";
             check := match s with
                      | Checks => get_opt tags "check"
                      | _ => Undefined
                      end |}
    | None => Ok o1
    end
  else Ok o.

Fixpoint processMetrics (o : obj bucket) (metrics : list jsval)
  : result (obj bucket) :=
  match metrics with
  | [] => Ok o
  | metric :: rest => o' ← processMetric o metric; processMetrics o' rest
  end.

(** [lines.map(line => JSON.parse(line))]: the first line that does not
    parse throws. *)
Fixpoint parse_lines (lines : list string) : result (list jsval) :=
  match lines with
  | [] => Ok []
  | line :: rest =>
      match JSON_parse line with
      | Some v => vs ← parse_lines rest; Ok (v :: vs)
      | None => Throw SyntaxError
      end
  end.

Record ResponseTimes : Type := {
  min : number;
  max : number;
  avg : number;
  median : number;
  p95 : number;
  p99 : number
}.

Record TimingBreakdown : Type := {
  blockedTime : number;
  connectingTime : number;
  sendingTime : number;
  waitingTime : number;
  receivingTime : number
}.

Record EndpointStats : Type := {
  totalRequests : nat;
  successRate : string;
  responseTimes : ResponseTimes;
  timingBreakdown : TimingBreakdown
}.

Definition values_of (ps : list point) : list number :=
  map (fun d => value_number (value d)) ps.

(** [Math.round(xs.reduce((sum, x) => sum + x.value, 0) / xs.length)] *)
Definition rounded_mean (ps : list point) : number :=
  Math_round (num_div (sum_numbers (values_of ps)) (num_of_nat (length ps))).

(** [(passed / data.checks.length * 100).toFixed(1)] *)
Definition success_rate (cs : list point) : string :=
  toFixed 1
    (num_mul
       (num_div
          (num_of_nat (length (filter (fun c => is_one (value c) = true) cs)))
          (num_of_nat (length cs)))
       (Fin 100)).

Definition half_index (n : nat) : Z := Qfloor (inject_Z (Z.of_nat n) / 2).

Definition response_times (ds : list point) : ResponseTimes :=
  (* the sort is in place: [durations] and [sortedDurations] are one array *)
  let sortedDurations := sort_numbers (values_of ds) in
  let durations_ := sortedDurations in
  let n := length sortedDurations in
  {| min := Math_round (Math_min durations_);
     max := Math_round (Math_max durations_);
     avg := Math_round (num_div (sum_numbers durations_) (num_of_nat (length durations_)));
     median := Math_round (to_num (at_index sortedDurations (half_index n)));
     p95 := Math_round (to_num (at_index sortedDurations (floor_index n (95 # 100))));
     p99 := Math_round (to_num (at_index sortedDurations (floor_index n (99 # 100)))) |}.

(** The body of [Object.keys(endpointData).forEach]. *)
Definition endpoint_stats (data : bucket) : EndpointStats :=
  {| totalRequests := length (requests data);
     successRate := success_rate (checks data);
     responseTimes := response_times (durations data);
     timingBreakdown :=
       {| blockedTime := rounded_mean (blocked data);
          connectingTime := rounded_mean (connecting data);
          sendingTime := rounded_mean (sending data);
          waitingTime := rounded_mean (waiting data);
          receivingTime := rounded_mean (receiving data) |} |}.

(** The [try] block of [parseK6Results]. *)
Definition parse_content (fileContent : string) : result (obj EndpointStats) :=
  metrics ← parse_lines (split_lines (trim fileContent));
  endpointData ← processMetrics [] metrics;
  Ok (map (fun '(name, data) => (name, endpoint_stats data)) endpointData).

(** [parseK6Results]: the statistics, or [null] ([None]) with a line on
    the error console. *)
Definition parseK6Results (w : filesystem) (jsonFilePath : string)
  : option (obj EndpointStats) * list string :=
  match fileContent ← readFileSync w jsonFilePath;
        parse_content fileContent with
  | Ok o => (Some o, [])
  | Throw e => (None, ["Error parsing k6 results: " +:+ error_message e])
  end.

End WithPlatform.
End Parser.

(** ** The summary analyzer: statistics of one endpoint *)

Module Analyzer.

Record entry : Type := {
  count : nat;
  totalDuration : number;
  durations : list number;
  errors : nat
}.

Record Statistics : Type := {
  avg : number;
  p50 : option number;
  p90 : option number;
  p95 : option number;
  p99 : option number;
  min : number;
  max : number
}.

(** The body of [Object.keys(endpointStats).forEach] in
    [analyzeK6Results]; [None] is [undefined]. *)
Definition statistics (stats : entry) : Statistics :=
  let sorted := sort_numbers (durations stats) in
  let n := length sorted in
  {| avg := num_div (totalDuration stats) (num_of_nat (count stats));
     p50 := at_index sorted (floor_index n (5 # 10));
     p90 := at_index sorted (floor_index n (9 # 10));
     p95 := at_index sorted (floor_index n (95 # 100));
     p99 := at_index sorted (floor_index n (99 # 100));
     min := Math_min sorted;
     max := Math_max sorted |}.

End Analyzer.

(** ** A reference platform

    An executable instance of [Platform], used to run the tools on
    concrete files.  [json_parse] reads the JSON grammar of RFC 8259,
    with numbers kept as exact rationals in lowest terms. *)

Module Reference.

Definition is_json_space (c : ascii) : bool :=
  let n := nat_of_ascii c in
  (n =? 32)%nat || (n =? 9)%nat || (n =? 10)%nat || (n =? 13)%nat.

Fixpoint skip_ws (s : string) : string :=
  match s with
  | String c s' => if is_json_space c then skip_ws s' else s
  | EmptyString => EmptyString
  end.

Definition code_is (c : ascii) (n : nat) : bool := (nat_of_ascii c =? n)%nat.

Definition digit_of (c : ascii) : option Z :=
  let n := nat_of_ascii c in
  if ((48 <=? n) && (n <=? 57))%nat then Some (Z.of_nat (n - 48)) else None.

Definition hex_of (c : ascii) : option Z :=
  let n := nat_of_ascii c in
  if ((48 <=? n) && (n <=? 57))%nat then Some (Z.of_nat (n - 48))
  else if ((65 <=? n) && (n <=? 70))%nat then Some (Z.of_nat (n - 55))
  else if ((97 <=? n) && (n <=? 102))%nat then Some (Z.of_nat (n - 87))
  else None.

(** A run of digits: its value, its length and the rest. *)
Fixpoint read_digits (acc : Z) (len : nat) (s : string) : Z * nat * string :=
  match s with
  | String c s' =>
      match digit_of c with
      | Some d => read_digits (10 * acc + d) (S len) s'
      | None => (acc, len, s)
      end
  | EmptyString => (acc, len, s)
  end.

Definition scale (m : Z) (e : Z) : Q :=
  if (0 <=? e)%Z then inject_Z (m * 10 ^ e)
  else Qred (Qmake m (Z.to_pos (10 ^ (- e)))).

(** [-? int frac? exp?] *)
Definition read_number (s : string) : option (Q * string) :=
  let '(negative, s1) :=
    match s with
    | String "-" r => (true, r)
    | _ => (false, s)
    end in
  let '(int, n, s2) := read_digits 0 0 s1 in
  let leading_zero :=
    match s1 with String "0" _ => (1 <? n)%nat | _ => false end in
  if (n =? 0)%nat || leading_zero then None
  else
    let frac :=
      match s2 with
      | String "." r =>
          let '(m, k, r') := read_digits int 0 r in
          if (k =? 0)%nat then None else Some (m, k, r')
      | _ => Some (int, 0%nat, s2)
      end in
    match frac with
    | None => None
    | Some (m, k, s3) =>
        let signed := if negative then - m else m in
        match s3 with
        | String c r =>
            if Ascii.eqb c "e" || Ascii.eqb c "E" then
              let '(eneg, r1) :=
                match r with
                | String "-" r' => (true, r')
                | String "+" r' => (false, r')
                | _ => (false, r)
                end in
              let '(e, ek, r2) := read_digits 0 0 r1 in
              if (ek =? 0)%nat then None
              else Some (scale signed ((if eneg then - e else e) - Z.of_nat k), r2)
            else Some (scale signed (- Z.of_nat k), s3)
        | EmptyString => Some (scale signed (- Z.of_nat k), s3)
        end
    end.

Definition byte (z : Z) : ascii := ascii_of_nat (Z.to_nat z).

(** The UTF-8 bytes of a code point of the basic plane. *)
Definition utf8 (cp : Z) : string :=
  if (cp <? 128)%Z then String (byte cp) EmptyString
  else if (cp <? 2048)%Z then
    String (byte (192 + cp / 64)) (String (byte (128 + cp mod 64)) EmptyString)
  else
    String (byte (224 + cp / 4096))
      (String (byte (128 + (cp / 64) mod 64))
         (String (byte (128 + cp mod 64)) EmptyString)).

(** The characters of a string literal after its opening quote. *)
Fixpoint read_string (s : string) : option (string * string) :=
  match s with
  | EmptyString => None
  | String c s' =>
      if code_is c 34 then Some (EmptyString, s')
      else if (nat_of_ascii c <? 32)%nat then None
      else if code_is c 92 then
        match s' with
        | String e s'' =>
            let plain (x : nat) :=
              match read_string s'' with
              | Some (t, r) => Some (String (ascii_of_nat x) t, r)
              | None => None
              end in
            if code_is e 34 then plain 34%nat
            else if code_is e 92 then plain 92%nat
            else if code_is e 47 then plain 47%nat
            else if code_is e 98 then plain 8%nat
            else if code_is e 102 then plain 12%nat
            else if code_is e 110 then plain 10%nat
            else if code_is e 114 then plain 13%nat
            else if code_is e 116 then plain 9%nat
            else if code_is e 117 then
              match s'' with
              | String h1 (String h2 (String h3 (String h4 s3))) =>
                  match hex_of h1, hex_of h2, hex_of h3, hex_of h4,
                        read_string s3 with
                  | Some a, Some b, Some c', Some d, Some (t, r) =>
                      Some (utf8 (4096 * a + 256 * b + 16 * c' + d) +:+ t, r)
                  | _, _, _, _, _ => None
                  end
              | _ => None
              end
            else None
        | EmptyString => None
        end
      else
        match read_string s' with
        | Some (t, r) => Some (String c t, r)
        | None => None
        end
  end.

Definition expect (lit : string) (v : jsval) (s : string)
  : option (jsval * string) :=
  if String.prefix lit s then Some (v, string_drop (String.length lit) s)
  else None.

Fixpoint read_value (fuel : nat) (s : string) {struct fuel}
  : option (jsval * string) :=
  match fuel with
  | O => None
  | S fuel' =>
      match skip_ws s with
      | EmptyString => None
      | String c rest as s0 =>
          if code_is c 123 then
            match skip_ws rest with
            | String "}" r => Some (Obj [], r)
            | _ => read_members fuel' rest []
            end
          else if code_is c 91 then
            match skip_ws rest with
            | String "]" r => Some (Arr [], r)
            | _ => read_elements fuel' rest []
            end
          else if code_is c 34 then
            match read_string rest with
            | Some (t, r) => Some (Str t, r)
            | None => None
            end
          else if code_is c 116 then expect "true" (Bool true) s0
          else if code_is c 102 then expect "false" (Bool false) s0
          else if code_is c 110 then expect "null" Null s0
          else
            match read_number s0 with
            | Some (q, r) => Some (Num (Fin q), r)
            | None => None
            end
      end
  end
with read_elements (fuel : nat) (s : string) (acc : list jsval) {struct fuel}
  : option (jsval * string) :=
  match fuel with
  | O => None
  | S fuel' =>
      match read_value fuel' s with
      | Some (v, r) =>
          match skip_ws r with
          | String "," r' => read_elements fuel' r' (acc ++ [v])
          | String "]" r' => Some (Arr (acc ++ [v]), r')
          | _ => None
          end
      | None => None
      end
  end
with read_members (fuel : nat) (s : string) (acc : list (string * jsval))
       {struct fuel} : option (jsval * string) :=
  match fuel with
  | O => None
  | S fuel' =>
      match skip_ws s with
      | String c r =>
          if code_is c 34 then
            match read_string r with
            | Some (k, r1) =>
                match skip_ws r1 with
                | String ":" r2 =>
                    match read_value fuel' r2 with
                    | Some (v, r3) =>
                        match skip_ws r3 with
                        | String "," r4 => read_members fuel' r4 (acc ++ [(k, v)])
                        | String "}" r4 => Some (Obj (acc ++ [(k, v)]), r4)
                        | _ => None
                        end
                    | None => None
                    end
                | _ => None
                end
            | None => None
            end
          else None
      | EmptyString => None
      end
  end.

(** [JSON.parse]: one value, with nothing but white space around it. *)
Definition json_parse (s : string) : option jsval :=
  match read_value (2 * String.length s + 2) s with
  | Some (v, r) =>
      match skip_ws r with
      | EmptyString => Some v
      | _ => None
      end
  | None => None
  end.

End Reference.

Module ReferencePlatform.
Import Reference.

(** Decimal rendering of a number: integers exactly, other finite
    values with up to sixteen digits after the point. *)
Fixpoint fraction_digits (n : nat) (num den : Z) : string :=
  match n with
  | O => EmptyString
  | S n' =>
      if (num =? 0)%Z then EmptyString
      else digits (10 * num / den) +:+ fraction_digits n' ((10 * num) mod den) den
  end.

Definition number_toString (x : number) : string :=
  match x with
  | NaN => "NaN"
  | PosInf => "Infinity"
  | NegInf => "-Infinity"
  | Fin q =>
      let s := if Qlt_le_dec q 0 then "-" else EmptyString in
      let a := Qabs q in
      let whole := Qfloor a in
      let rest := (Qnum a - whole * Zpos (Qden a))%Z in
      if (rest =? 0)%Z then s +:+ digits whole
      else s +:+ digits whole +:+ "." +:+ fraction_digits 16 rest (Zpos (Qden a))
  end.

(** The time value of [new Date(v)] for a number, [null] and
    [undefined]; date strings are not read. *)
Definition date_valueOf (v : jsval) : number :=
  match v with
  | Num n => n
  | Null => Fin 0
  | _ => NaN
  end.

(** [parseInt] of a string of decimal digits and of an integer. *)
Definition parse_int (v : jsval) : number :=
  match v with
  | Str s =>
      let '(negative, s1) :=
        match trim_start s with
        | String "-" r => (true, r)
        | String "+" r => (false, r)
        | r => (false, r)
        end in
      let '(m, n, _) := read_digits 0 0 s1 in
      if (n =? 0)%nat then NaN else num_of_Z (if negative then - m else m)
  | Num (Fin q) => num_of_Z (if Qlt_le_dec q 0 then Qceiling q else Qfloor q)
  | _ => NaN
  end.

Definition join_path (a b : string) : string := a +:+ "/" +:+ b.

Fixpoint dirname_rev (r : string) : string :=
  match r with
  | String c r' => if Ascii.eqb c "/" then r' else dirname_rev r'
  | EmptyString => EmptyString
  end.

Definition dirname (p : string) : string :=
  if includes "/" p then String.rev (dirname_rev (String.rev p)) else ".".

Definition message_of (e : error) : string :=
  match e with
  | SyntaxError => "Unexpected token in JSON"
  | TypeError => "Cannot read properties of undefined"
  | IOError p => "ENOENT: no such file or directory, open '" +:+ p +:+ "'"
  end.

Definition platform : Platform :=
  {| JSON_parse := json_parse;
     Number_toString := number_toString;
     Date_valueOf := date_valueOf;
     parseInt := parse_int;
     path_join := join_path;
     path_dirname := dirname;
     error_message := message_of |}.

Definition clock (i : nat) : string := "2025-09-12T15:32:09.000Z".

End ReferencePlatform.

(** ** Sample inputs *)

Module Samples.
Import ReferencePlatform.

(** One duration sample of endpoint [A], as a line and as a value. *)
Definition duration_line (v : string) : string :=
  dq "{'metric':'http_req_duration','data':{'value':" +:+ v
  +:+ dq ",'tags':{'endpoint':'A'}}}".

Definition duration_sample (v : Q) : jsval :=
  Obj [ ("metric", Str "http_req_duration");
        ("data", Obj [ ("value", Num (Fin v));
                       ("tags", Obj [("endpoint", Str "A")]) ]) ].

Definition two_samples : string :=
  duration_line "100" +:+ newline +:+ duration_line "200".

(** The bucket the exporter builds from [two_samples]. *)
Definition bucket_A : Exporter.bucket :=
  match Exporter.parse_content (P := platform) two_samples with
  | Ok [(_, data)] => data
  | _ => Exporter.empty_bucket
  end.


(** A duration sample of endpoint [Apps] with value 123.4. *)
Definition apps_line : string :=
  dq "{'metric':'http_req_duration','data':{'value':123.4,'tags':{'endpoint':'Apps'}}}".

Definition apps_sample : jsval :=
  Obj [ ("metric", Str "http_req_duration");
        ("data", Obj [ ("value", Num (Fin (617 # 5)));
                       ("tags", Obj [("endpoint", Str "Apps")]) ]) ].

(** One well-formed line followed by one that is not JSON. *)
Definition good_and_bad : string :=
  duration_line "100" +:+ newline +:+ "not json".

(** A file system holding one file. *)
Definition one_file (path content : string) : filesystem :=
  {| files := {[ path := content ]};
     directories := {[ "." ]};
     unreadable := ∅;
     unwritable := ∅ |}.

(** Results to export into a directory [out], with and without an
    earlier trends file. *)
Definition fresh_run : filesystem :=
  {| files := {[ "r.json" := two_samples ]};
     directories := {[ "out" ]};
     unreadable := ∅;
     unwritable := ∅ |}.

Definition earlier_report : string := "H" +:+ newline +:+ "earlier row".

Definition later_run : filesystem :=
  with_file fresh_run "out/k6-api-metrics-trends.csv" earlier_report.

End Samples.

(** * The rest of the tools

    The parts of the scripts that the properties of the second half of
    this file are about: the report and the entry point of the console
    reporter, the summary analyzer as a whole, the script that appends a
    row to the performance history, and the script that runs the whole
    workflow.

    What these models leave out, besides what is said at the head of the
    file:

    - [toUpperCase] changes the ASCII letters only;
    - a value printed in a template literal is printed by [ToString]; an
      object that carries a [toString] or a [valueOf] of its own is not
      told apart;
    - [mkdirSync] records the directory it is asked for, not its
      parents. *)

(** [a < b] on numbers. *)
Definition num_lt (a b : number) : bool :=
  match a, b with
  | NaN, _ | _, NaN => false
  | Fin x, Fin y => negb (Qle_bool y x)
  | NegInf, NegInf => false
  | NegInf, _ => true
  | _, NegInf => false
  | PosInf, _ => false
  | Fin _, PosInf => true
  end.

(** [s.repeat(n)] *)
Fixpoint repeat_string (s : string) (n : nat) : string :=
  match n with
  | O => EmptyString
  | S n' => s +:+ repeat_string s n'
  end.

(** [s.toUpperCase()], on the ASCII letters. *)
Definition upper (c : ascii) : ascii :=
  let n := nat_of_ascii c in
  if ((97 <=? n) && (n <=? 122))%nat then ascii_of_nat (n - 32) else c.

Fixpoint toUpperCase (s : string) : string :=
  match s with
  | EmptyString => EmptyString
  | String c s' => String (upper c) (toUpperCase s')
  end.

(** [fs.mkdirSync(p, { recursive: true })] and [fs.appendFileSync(p, s)];
    appending creates the file when there is none. *)
Definition mkdirSync (w : filesystem) (p : string) : result filesystem :=
  if decide (p ∈ unwritable w) then Throw (IOError p)
  else Ok {| files := files w;
             directories := directories w ∪ {[ p ]};
             unreadable := unreadable w;
             unwritable := unwritable w |}.

Definition appendFileSync (w : filesystem) (p s : string) : result filesystem :=
  if decide (p ∈ unwritable w) then Throw (IOError p)
  else Ok (with_file w p (default EmptyString (files w !! p) +:+ s)).

(** ** The report of the console reporter *)

Module Report.
Section WithPlatform.
Context {P : Platform}.

(** What a run prints, in full: the texts given to [console.log] and to
    [console.error], one for each call. *)
Record console : Type := {
  logged : list string;
  complaints : list string
}.

Definition rule : string := repeat_string "─" 40.

(** The body of [Object.keys(endpointStats).forEach] in
    [displayResults].  The line for the sending time reads
    [stats.sending], which the statistics do not have. *)
Definition endpoint_block (endpoint : string) (stats : Parser.EndpointStats)
  : list string :=
  let times := Parser.responseTimes stats in
  let timing := Parser.timingBreakdown stats in
  let ms (n : number) := Number_toString n +:+ "ms" in
  [ newline +:+ "🔍 " +:+ toUpperCase endpoint;
    rule;
    "   Total Requests: " +:+ Number_toString (num_of_nat (Parser.totalRequests stats));
    "   Success Rate: " +:+ Parser.successRate stats +:+ "%";
    newline +:+ "   ⏱️  Response Times:";
    "      Min: " +:+ ms (Parser.min times);
    "      Max: " +:+ ms (Parser.max times);
    "      Average: " +:+ ms (Parser.avg times);
    "      Median: " +:+ ms (Parser.median times);
    "      P95: " +:+ ms (Parser.p95 times);
    "      P99: " +:+ ms (Parser.p99 times);
    newline +:+ "   📊 Timing Breakdown:";
    "      Blocked: " +:+ ms (Parser.blockedTime timing);
    "      Connecting: " +:+ ms (Parser.connectingTime timing);
    "      Sending: " +:+ ToString Undefined +:+ "ms";
    "      Waiting: " +:+ ms (Parser.waitingTime timing);
    "      Receiving: " +:+ ms (Parser.receivingTime timing) ].

(** [endpointStats[k].responseTimes.avg] for a key [k] of the object. *)
Definition avg_at (endpointStats : obj Parser.EndpointStats) (k : string)
  : number :=
  match obj_get endpointStats k with
  | Some stats => Parser.avg (Parser.responseTimes stats)
  | None => NaN
  end.

(** [endpoints.reduce((best, current) => ... ? current : best)]: without
    an initial value the first key starts the reduction. *)
Definition fastest (endpointStats : obj Parser.EndpointStats)
    (first : string) (rest : list string) : string :=
  fold_left
    (fun fastest current =>
       if num_lt (avg_at endpointStats current) (avg_at endpointStats fastest)
       then current else fastest)
    rest first.

Definition slowest (endpointStats : obj Parser.EndpointStats)
    (first : string) (rest : list string) : string :=
  fold_left
    (fun slowest current =>
       if num_lt (avg_at endpointStats slowest) (avg_at endpointStats current)
       then current else slowest)
    rest first.

Definition comparison (endpointStats : obj Parser.EndpointStats) : list string :=
  match Object_keys endpointStats with
  | first :: (_ :: _) as rest =>
      let f := fastest endpointStats first rest in
      let s := slowest endpointStats first rest in
      [ "   🏆 Fastest: " +:+ f +:+ " ("
          +:+ Number_toString (avg_at endpointStats f) +:+ "ms avg)";
        "   🐌 Slowest: " +:+ s +:+ " ("
          +:+ Number_toString (avg_at endpointStats s) +:+ "ms avg)";
        "   📊 Difference: "
          +:+ Number_toString
                (num_sub (avg_at endpointStats s) (avg_at endpointStats f))
          +:+ "ms" ]
  | _ => []
  end.

(** [displayResults]: the texts it logs. *)
Definition displayResults (endpointStats : option (obj Parser.EndpointStats))
  : list string :=
  match endpointStats with
  | None => ["❌ No data to display"]
  | Some stats =>
      ([ newline +:+ "📊 K6 LOAD TEST RESULTS - PER-ENDPOINT BREAKDOWN";
         repeat_string "=" 60 ]
       ++ flat_map
            (fun endpoint =>
               match obj_get stats endpoint with
               | Some s => endpoint_block endpoint s
               | None => []
               end)
            (Object_keys stats)
       ++ [ newline +:+ "📈 PERFORMANCE COMPARISON"; rule ]
       ++ comparison stats)%list
  end.

Definition usage : list string :=
  [ "Usage: node parse_k6_results.js <path-to-k6-json-file>";
    dq "Example: node parse_k6_results.js '/Users/tim.maids/Desktop/API stuff/api-load-test-results.json'" ].

(** [main], on the arguments after the script name.  The script writes
    no file. *)
Definition main (w : filesystem) (args : list string) : console :=
  match args with
  | [] => {| logged := usage; complaints := [] |}
  | jsonFilePath :: _ =>
      if negb (existsSync w jsonFilePath) then
        {| logged := [];
           complaints := ["❌ File not found: " +:+ jsonFilePath] |}
      else
        let '(endpointStats, err) := Parser.parseK6Results w jsonFilePath in
        {| logged :=
             ("📁 Parsing k6 results from: " +:+ jsonFilePath)
             :: displayResults endpointStats;
           complaints := err |}
  end.

End WithPlatform.
End Report.

(** ** The summary analyzer as a whole *)

Module Summary.
Section WithPlatform.
Context {P : Platform}.

(** [v || d] *)
Definition or_else (v d : jsval) : jsval := if truthy v then v else d.

(** [v.toFixed(2)]: only a number has the method. *)
Definition fixed2_of (v : jsval) : result string :=
  match v with
  | Num n => Ok (toFixed 2 n)
  | _ => Throw TypeError
  end.

(** [check.tags.endpoint || check.tags.name || 'Unknown'], as a property
    key. *)
Definition endpoint_of (check : jsval) : result string :=
  tags ← get check "tags";
  byTag ← get tags "endpoint";
  if truthy byTag then Ok (ToString byTag)
  else
    let byName := get_opt tags "name" in
    Ok (if truthy byName then ToString byName else "Unknown").

Definition no_entry : Analyzer.entry :=
  {| Analyzer.count := 0; Analyzer.totalDuration := Fin 0;
     Analyzer.durations := []; Analyzer.errors := 0 |}.

(** The body of the first [data.root_group.checks.forEach]. *)
Definition group_check (stats : obj Analyzer.entry) (check : jsval)
  : result (obj Analyzer.entry) :=
  type ← get check "type";
  if is_str type "http_req_duration" then
    endpoint ← endpoint_of check;
    let duration := value_number (get_opt check "value") in
    if inherited endpoint then Throw TypeError
    else
      let e := default no_entry (obj_get stats endpoint) in
      Ok (obj_set stats endpoint
            {| Analyzer.count := S (Analyzer.count e);
               Analyzer.totalDuration := num_add (Analyzer.totalDuration e) duration;
               Analyzer.durations := (Analyzer.durations e ++ [duration])%list;
               Analyzer.errors := Analyzer.errors e |})
  else Ok stats.

Fixpoint group_checks (stats : obj Analyzer.entry) (checks : list jsval)
  : result (obj Analyzer.entry) :=
  match checks with
  | [] => Ok stats
  | check :: rest => stats' ← group_check stats check; group_checks stats' rest
  end.

(** The body of the second [forEach], which counts the failures.  The
    counts are only printed; what is kept here is whether reading the
    check throws. *)
Definition read_failure (check : jsval) : result unit :=
  type ← get check "type";
  if is_str type "http_req_failed" && is_one (get_opt check "value") then
    _ ← endpoint_of check; Ok ()
  else Ok ().

Fixpoint read_failures (checks : list jsval) : result unit :=
  match checks with
  | [] => Ok ()
  | check :: rest => _ ← read_failure check; read_failures rest
  end.

Definition nl : string := newline.

Definition csv_headers : list string :=
  [ "Endpoint"; "Requests"; "Avg (ms)"; "Min (ms)"; "Max (ms)"; "P50 (ms)";
    "P90 (ms)"; "P95 (ms)"; "P99 (ms)" ].

(** [p.toFixed(2)] on a percentile; it throws on [undefined]. *)
Definition fixed2 (p : option number) : result string :=
  match p with
  | Some x => Ok (toFixed 2 x)
  | None => Throw TypeError
  end.

Definition csv_row (endpoint : string) (stats : Analyzer.entry) : result string :=
  let s := Analyzer.statistics stats in
  s50 ← fixed2 (Analyzer.p50 s);
  s90 ← fixed2 (Analyzer.p90 s);
  s95 ← fixed2 (Analyzer.p95 s);
  s99 ← fixed2 (Analyzer.p99 s);
  Ok (join ","
        [ endpoint; Number_toString (num_of_nat (Analyzer.count stats));
          toFixed 2 (Analyzer.avg s); toFixed 2 (Analyzer.min s);
          toFixed 2 (Analyzer.max s); s50; s90; s95; s99 ]).

Fixpoint csv_rows (stats : obj Analyzer.entry) : result (list string) :=
  match stats with
  | [] => Ok []
  | (endpoint, e) :: rest =>
      r ← csv_row endpoint e;
      rs ← csv_rows rest;
      Ok (r :: rs)
  end.

(** [generateCSV] *)
Definition generateCSV (w : filesystem) (endpointStats : obj Analyzer.entry)
    (filename : string) : result filesystem :=
  rows ← csv_rows endpointStats;
  writeFileSync w filename (join nl (join "," csv_headers :: rows)).

(** The [try] block of [analyzeK6Results].  What it logs is not kept;
    the steps that can throw while logging are. *)
Definition analyze (w : filesystem) (jsonFile : string) : result filesystem :=
  content ← readFileSync w jsonFile;
  data ← match JSON_parse content with
         | Some v => Ok v
         | None => Throw SyntaxError
         end;
  metrics ← get data "metrics";
  reqs ← get metrics "http_reqs";
  let httpReqs := or_else reqs (Obj []) in
  let httpReqDuration := or_else (get_opt metrics "http_req_duration") (Obj []) in
  root_group ← get data "root_group";
  _ ← get root_group "duration";
  _ ← fixed2_of (or_else (get_opt httpReqs "rate") (Num (Fin 0)));
  _ ← fixed2_of (or_else (get_opt httpReqDuration "avg") (Num (Fin 0)));
  _ ← fixed2_of (or_else (get_opt httpReqDuration "p95") (Num (Fin 0)));
  _ ← fixed2_of (or_else (get_opt httpReqDuration "p99") (Num (Fin 0)));
  checks ← match get_opt root_group "checks" with
           | Arr items => Ok items
           | _ => Throw TypeError
           end;
  endpointStats ← group_checks [] checks;
  _ ← csv_rows endpointStats;
  _ ← read_failures checks;
  generateCSV w endpointStats (replace_first ".json" "-analysis.csv" jsonFile).

(** [analyzeK6Results] *)
Definition analyzeK6Results (w : filesystem) (jsonFile : string)
  : filesystem * list string :=
  match analyze w jsonFile with
  | Ok w' => (w', [])
  | Throw e => (w, ["Error analyzing results: " +:+ error_message e])
  end.

(** [main]; the usage text lists the directory [./test-results]. *)
Definition main (w : filesystem) (args : list string) : outcome :=
  match args with
  | [] =>
      {| fs_after := w; stderr := [];
         ending := if decide ("./test-results" ∈ directories w) then Returned
                   else Uncaught (IOError "./test-results") |}
  | jsonFile :: _ =>
      if negb (existsSync w jsonFile) then
        {| fs_after := w; stderr := ["File not found: " +:+ jsonFile];
           ending := Returned |}
      else
        let '(w', err) := analyzeK6Results w jsonFile in
        {| fs_after := w'; stderr := err; ending := Returned |}
  end.

End WithPlatform.
End Summary.

(** ** The performance history

    The script that appends one row to
    [k6-api-performance-history.csv].  [homedir] is the value of
    [os.homedir()]. *)

Module History.
Section WithPlatform.
Context {P : Platform}.
Variable homedir : string.

Definition performanceFolder : string :=
  (homedir +:+ "/Desktop") +:+ "/Performance Results".

Definition csvFilePath : string :=
  path_join performanceFolder "k6-api-performance-history.csv".

Definition headers : string :=
  "Timestamp,Flow Name,Test Type,Total Requests,Successful Requests,Failed Requests,Success Rate (%),Average Response Time (ms),Median Response Time (ms),P95 Response Time (ms),P99 Response Time (ms),Fastest Endpoint,Fastest Time (ms),Slowest Endpoint,Slowest Time (ms),Requests Per Second,Data Received (KB),Data Sent (KB),Performance Grade"
  +:+ newline.

Definition failed (w : filesystem) (e : error) : outcome :=
  {| fs_after := w;
     stderr := ["Failed to append to CSV: " +:+ error_message e];
     ending := Exited 1 |}.

(** The script, on the arguments after the script name: the row is the
    first of them.  What was done before a failure stays done. *)
Definition run (w : filesystem) (args : list string) : outcome :=
  let csvRow := default EmptyString (head args) in
  if String.eqb csvRow EmptyString then
    {| fs_after := w; stderr := ["No CSV row provided"]; ending := Exited 1 |}
  else
    match (if negb (existsSync w performanceFolder)
           then mkdirSync w performanceFolder else Ok w) with
    | Throw e => failed w e
    | Ok w1 =>
        match (if negb (existsSync w1 csvFilePath)
               then writeFileSync w1 csvFilePath headers else Ok w1) with
        | Throw e => failed w1 e
        | Ok w2 =>
            match appendFileSync w2 csvFilePath (csvRow +:+ newline) with
            | Throw e => failed w2 e
            | Ok w3 => {| fs_after := w3; stderr := []; ending := Returned |}
            end
        end
    end.

(** One run after another, each on the files the one before left. *)
Fixpoint runs (w : filesystem) (rows : list string) : filesystem :=
  match rows with
  | [] => w
  | row :: rest => runs (fs_after (run w [row])) rest
  end.

End WithPlatform.
End History.

(** ** The workflow runner

    [run_k6_complete_test.js] checks the environment, runs the load test,
    runs the exporter on its output and prints a summary.  The load test
    is an external program: [k6] gives, for the files before and the
    arguments, the files after and how the process ended.  The exporter is
    run as a process of its own; its effect is that of [Exporter.main]. *)

Module Workflow.
Section WithPlatform.
Context {P : Platform}.

(** How a spawned process ends: it closes with a code, it is killed by
    a signal and closes without one, or it cannot be started. *)
Inductive ended : Type :=
| Closed (code : Z)
| Killed
| NotStarted (message : string).

Variable k6 : filesystem -> list string -> filesystem * ended.
Variable clock : nat -> string.

Definition outputDir : string := "./test-results".
Definition k6Script : string := "k6_api_load_test.js".
Definition exportScript : string := "export_to_excel.js".
Definition trendsFile : string := "k6-api-metrics-trends.csv".

(** A step of the workflow: the files it leaves, and the message of the
    error it throws, if any. *)
Definition step (A : Type) : Type := filesystem * (A + string).

(** [runCommand]: the promise is fulfilled when the process closes with
    code 0, and rejected with a message otherwise. *)
Definition settled (e : ended) : unit + string :=
  match e with
  | Closed 0 => inl ()
  | Closed code =>
      inr ("Command failed with code " +:+ Number_toString (num_of_Z code))
  | Killed => inr "Command failed with code null"
  | NotStarted message => inr message
  end.

(** [ensureDirectoryExists] *)
Definition ensureDirectoryExists (w : filesystem) (dirPath : string)
  : step unit :=
  if negb (existsSync w dirPath) then
    match mkdirSync w dirPath with
    | Ok w' => (w', inl ())
    | Throw e => (w, inr (error_message e))
    end
  else (w, inl ()).

(** [step1_ValidateEnvironment]; [cwd] is [process.cwd()]. *)
Definition step1_ValidateEnvironment (w : filesystem) (cwd : string)
  : step unit :=
  if negb (includes "k6_tests" cwd) then
    (w, inr "Please run this script from the k6_tests directory")
  else if negb (existsSync w k6Script) then
    (w, inr ("Required file not found: " +:+ k6Script))
  else if negb (existsSync w exportScript) then
    (w, inr ("Required file not found: " +:+ exportScript))
  else ensureDirectoryExists w outputDir.

(** [step2_RunK6Test]; [now] is the time stamp of the run. *)
Definition step2_RunK6Test (w : filesystem) (now : string) : step string :=
  let jsonFileName :=
    "k6-api-test-results-" +:+ Exporter.dashed now +:+ ".json" in
  let jsonFilePath := path_join outputDir jsonFileName in
  let '(w', e) := k6 w ["run"; "--out"; "json=" +:+ jsonFilePath; k6Script] in
  match settled e with
  | inr msg => (w', inr msg)
  | inl _ =>
      if negb (existsSync w' jsonFilePath) then
        (w', inr "k6 JSON output file was not created")
      else (w', inl jsonFilePath)
  end.

(** [step3_ExportToExcel]: the exporter runs as a process, and the
    promise looks at nothing but the code it closes with. *)
Definition step3_ExportToExcel (w : filesystem) (jsonFilePath : string)
    (appendMode : bool) : step unit :=
  let args :=
    if appendMode then [jsonFilePath; outputDir; "--append"]
    else [jsonFilePath; outputDir] in
  let o := Exporter.main clock w args in
  match settled (Closed (exit_status (ending o))) with
  | inr msg => (fs_after o, inr msg)
  | inl _ => (fs_after o, inl ())
  end.

(** [main] with the check for [--help] that precedes it, on the
    arguments after the script name (the path of [node] and that of the
    script are taken to be neither [--help] nor [-h]); the fourth step
    only prints.  A step that throws ends the run with
    [process.exit(1)]. *)
Definition main (w : filesystem) (cwd now : string) (args : list string)
  : filesystem * completion :=
  if existsb (String.eqb "--help") args || existsb (String.eqb "-h") args then
    (w, Exited 0)
  else
    let appendMode := existsb (String.eqb "--append") args in
    match step1_ValidateEnvironment w cwd with
    | (w1, inr _) => (w1, Exited 1)
    | (w1, inl _) =>
        match step2_RunK6Test w1 now with
        | (w2, inr _) => (w2, Exited 1)
        | (w2, inl jsonFilePath) =>
            match step3_ExportToExcel w2 jsonFilePath appendMode with
            | (w3, inr _) => (w3, Exited 1)
            | (w3, inl _) => (w3, Returned)
            end
        end
    end.

End WithPlatform.
End Workflow.

(** ** More sample inputs *)

Module MoreSamples.
Import ReferencePlatform Samples.

(** A file system without files. *)
Definition no_files : filesystem :=
  {| files := ∅; directories := ∅; unreadable := ∅; unwritable := ∅ |}.

(** A check of the endpoint [Login], which has no other sample. *)
Definition check_line : string :=
  dq "{'metric':'checks','data':{'value':1,'tags':{'check':'Login - status is 200'}}}".

Definition bucket_Login : Exporter.bucket :=
  match Exporter.parse_content (P := platform) check_line with
  | Ok [(_, data)] => data
  | _ => Exporter.empty_bucket
  end.

(** Requests of an endpoint at the given times, in milliseconds. *)
Definition request_at (t : Q) : Exporter.point :=
  {| Exporter.value := Num (Fin 1); Exporter.time := Num (Fin t);
     Exporter.tags := Obj [("endpoint", Str "A")];
     Exporter.check := Undefined |}.

Definition requests_of (rs : list Exporter.point) : Exporter.bucket :=
  fold_left (fun b r => Exporter.push Exporter.Requests r b) rs
    Exporter.empty_bucket.

Definition busy_bucket : Exporter.bucket :=
  requests_of [request_at 0; request_at 500; request_at 4000].

(** A global count of received bytes. *)
Definition received (v : Q) : jsval :=
  Obj [ ("metric", Str "data_received");
        ("data", Obj [("value", Num (Fin v))]) ].

(** Two endpoints with one and with two requests, and 1000 bytes
    received in all. *)
Definition shared : Exporter.aggregation :=
  {| Exporter.endpointData :=
       [ ("A", requests_of [request_at 0]);
         ("B", requests_of [request_at 0; request_at 500]) ];
     Exporter.globalReceived := Num (Fin 1000);
     Exporter.globalSent := Num (Fin 0) |}.

(** A request of an endpoint named [constructor], before a duration of
    the endpoint [A]. *)
Definition constructor_first : string :=
  dq "{'metric':'http_reqs','data':{'value':1,'tags':{'endpoint':'constructor'}}}"
  +:+ newline +:+ duration_line "100".

(** Durations of the endpoints [A] and [B], as a file and as the
    statistics of the console reporter. *)
Definition two_endpoints : string :=
  two_samples +:+ newline
  +:+ dq "{'metric':'http_req_duration','data':{'value':50,'tags':{'endpoint':'B'}}}".

Definition report_stats : obj Parser.EndpointStats :=
  match Parser.parse_content (P := platform) two_endpoints with
  | Ok stats => stats
  | Throw _ => []
  end.

(** An endpoint with a request and no duration, listed before [A]. *)
Definition idle : Parser.bucket :=
  Parser.push Parser.Requests
    {| Parser.value := Num (Fin 1); Parser.time := Undefined;
       Parser.check := Undefined |}
    Parser.empty_bucket.

Definition idle_first : obj Parser.EndpointStats :=
  ("Idle", Parser.endpoint_stats (P := platform) idle) :: report_stats.

(** Two samples with a blank line between them, and a sample followed
    by a line that reads [null]. *)
Definition blank_between : string :=
  duration_line "100" +:+ newline +:+ newline +:+ duration_line "200".

Definition null_last : string :=
  duration_line "100" +:+ newline +:+ "null".




(** Documents for the summary analyzer: one without a root group, and
    one with two durations of the endpoint [A]. *)
Definition no_root_group : string := dq "{'metrics':{}}".

Definition summary_check (name : string) (v : Q) : jsval :=
  Obj [ ("type", Str "http_req_duration"); ("value", Num (Fin v));
        ("tags", Obj [("endpoint", Str name)]) ].

Definition summary_document : string :=
  dq "{'metrics':{'http_reqs':{'count':2,'rate':1.5}},'root_group':{'duration':1000,'checks':[{'type':'http_req_duration','value':100,'tags':{'endpoint':'A'}},{'type':'http_req_duration','value':200,'tags':{'endpoint':'A'}}]}}".

(** The output of a load test: the definition of a metric, two of its
    points and a point of another metric. *)
Definition definition_line : string :=
  dq "{'type':'Metric','data':{'name':'http_req_duration','type':'trend'},'metric':'http_req_duration'}".

Definition point_line (metric value : string) : string :=
  dq "{'type':'Point','data':{'value':" +:+ value
  +:+ dq ",'tags':{'endpoint':'A'}},'metric':'" +:+ metric +:+ dq "'}".

Definition test_output : string :=
  definition_line +:+ newline +:+ point_line "http_req_duration" "100"
  +:+ newline +:+ point_line "http_reqs" "1"
  +:+ newline +:+ point_line "http_req_duration" "200".

(** The directory of the workflow, and a load test that writes the given
    text to the file named after [json=], another that fails. *)
Definition workflow_directory : filesystem :=
  {| files := {[ "k6_api_load_test.js" := "script";
                 "export_to_excel.js" := "script" ]};
     directories := {[ "./test-results" ]};
     unreadable := ∅;
     unwritable := ∅ |}.

Definition k6_writes (content : string) (w : filesystem) (args : list string)
  : filesystem * Workflow.ended :=
  match args with
  | [_; _; out; _] => (with_file w (string_drop 5 out) content, Workflow.Closed 0)
  | _ => (w, Workflow.Closed 1)
  end.

Definition k6_fails (w : filesystem) (args : list string)
  : filesystem * Workflow.ended := (w, Workflow.Closed 99).

(** A load test that leaves a file nobody may read. *)
Definition k6_hides (w : filesystem) (args : list string)
  : filesystem * Workflow.ended :=
  match args with
  | [_; _; out; _] =>
      ({| files := <[string_drop 5 out := "hidden"]> (files w);
          directories := directories w;
          unreadable := unreadable w ∪ {[ string_drop 5 out ]};
          unwritable := unwritable w |}, Workflow.Closed 0)
  | _ => (w, Workflow.Closed 1)
  end.

End MoreSamples.

(** * Properties *)

Local Open Scope Z_scope.

(** ** Sorting *)

Section SortFacts.
Context {A : Type} (le : A -> A -> bool).

Lemma insert_by_Permutation x l : insert_by le x l ≡ₚ x :: l.
Proof.
  induction l as [|y l IH]; simpl; [done|].
  destruct (le x y); [done|].
  rewrite IH. apply Permutation_swap.
Qed.

Lemma sort_by_Permutation l : sort_by le l ≡ₚ l.
Proof.
  induction l as [|x l IH]; simpl; [done|].
  fold (sort_by le l). by rewrite insert_by_Permutation, IH.
Qed.

Lemma sort_by_length l : length (sort_by le l) = length l.
Proof. by rewrite sort_by_Permutation. Qed.

Lemma sort_by_elem_of x l : x ∈ sort_by le l <-> x ∈ l.
Proof. by rewrite sort_by_Permutation. Qed.

Lemma sort_by_nonempty l : l <> [] -> sort_by le l <> [].
Proof.
  intros Hne Hs. apply Hne, length_zero_iff_nil.
  by rewrite <- sort_by_length, Hs.
Qed.

Context {B : Type} (le' : B -> B -> bool) (f : A -> B).
Hypothesis le_f : forall a b, le' (f a) (f b) = le a b.

Lemma insert_by_map x l :
  insert_by le' (f x) (map f l) = map f (insert_by le x l).
Proof.
  induction l as [|y l IH]; simpl; [done|].
  rewrite le_f. destruct (le x y); simpl; [done|]. by rewrite IH.
Qed.

Lemma sort_by_map l : sort_by le' (map f l) = map f (sort_by le l).
Proof.
  induction l as [|x l IH]; simpl; [done|].
  fold (sort_by le' (map f l)) (sort_by le l).
  by rewrite IH, insert_by_map.
Qed.
End SortFacts.

(** On finite numbers the comparator [(a, b) => a - b] is the order of the
    rationals. *)
Lemma ascending_Fin a b : ascending (Fin a) (Fin b) = Qle_bool a b.
Proof.
  unfold ascending; simpl. apply eq_true_iff_eq.
  rewrite !Qle_bool_iff. split; intros; lra.
Qed.

Lemma sort_numbers_Fin qs :
  sort_numbers (map Fin qs) = map Fin (sort_by Qle_bool qs).
Proof. apply sort_by_map, ascending_Fin. Qed.

Lemma Qle_bool_false x y : Qle_bool x y = false -> (y <= x)%Q.
Proof.
  intros E. destruct (Qlt_le_dec y x) as [?|Hle]; [lra|].
  apply Qle_bool_iff in Hle. congruence.
Qed.

Lemma insert_sorted x l :
  StronglySorted Qle l -> StronglySorted Qle (insert_by Qle_bool x l).
Proof.
  induction 1 as [|y l Hs IH Hy]; simpl.
  - repeat constructor.
  - destruct (Qle_bool x y) eqn:E.
    + apply Qle_bool_iff in E. constructor; [by constructor|].
      constructor; [done|]. eapply Forall_impl; [exact Hy|].
      intros z Hz. simpl in Hz. lra.
    + apply Qle_bool_false in E. constructor; [done|].
      rewrite (insert_by_Permutation Qle_bool x l). by constructor.
Qed.

Lemma sort_sorted qs : StronglySorted Qle (sort_by Qle_bool qs).
Proof.
  induction qs as [|x qs IH]; simpl; [constructor|].
  by apply insert_sorted.
Qed.

Lemma sorted_lookup_le (s : list Q) i j a b :
  StronglySorted Qle s -> (i <= j)%nat ->
  s !! i = Some a -> s !! j = Some b -> (a <= b)%Q.
Proof.
  intros Hs. revert i j. induction Hs as [|x s Hs IH Hx]; intros i j Hij Hi Hj.
  - done.
  - destruct i as [|i], j as [|j]; simpl in *; simplify_eq.
    + lra.
    + rewrite Forall_forall in Hx. apply Hx.
      by eapply list_elem_of_lookup_2.
    + lia.
    + eapply IH; [|done..]. lia.
Qed.

(** ** Index arithmetic *)

Lemma inject_nat_nonneg n : (0 <= inject_Z (Z.of_nat n))%Q.
Proof. change 0%Q with (inject_Z 0). rewrite <- Zle_Qle. lia. Qed.

Lemma inject_nat_pos n : (0 < n)%nat -> (1 <= inject_Z (Z.of_nat n))%Q.
Proof. intros. change 1%Q with (inject_Z 1). rewrite <- Zle_Qle. lia. Qed.

Lemma floor_index_range n p :
  (0 < n)%nat -> (0 <= p)%Q -> (p < 1)%Q ->
  0 <= floor_index n p <= Z.of_nat n - 1.
Proof.
  intros Hn Hp0 Hp1. unfold floor_index.
  pose proof (inject_nat_pos n Hn) as Hx.
  split.
  - change 0 with (Qfloor 0). apply Qfloor_resp_le. nra.
  - assert (H : Qfloor (inject_Z (Z.of_nat n) * p) < Z.of_nat n); [|lia].
    rewrite Zlt_Qlt. eapply Qle_lt_trans; [apply Qfloor_le|]. nra.
Qed.

Lemma floor_index_mono n p p' :
  (p <= p')%Q -> floor_index n p <= floor_index n p'.
Proof.
  intros H. apply Qfloor_resp_le.
  pose proof (inject_nat_nonneg n). nra.
Qed.

Lemma rank_index_mono n k k' :
  (k <= k')%Q -> Streaming.rank_index k n <= Streaming.rank_index k' n.
Proof.
  intros H. unfold Streaming.rank_index.
  apply Z.sub_le_mono_r, Qceiling_resp_le.
  pose proof (inject_nat_nonneg n).
  apply Qmult_le_compat_r; [|done].
  by apply Qmult_le_compat_r.
Qed.

Lemma rank_index_range n k :
  (0 < n)%nat -> (0 < k)%Q -> (k <= 100)%Q ->
  0 <= Streaming.rank_index k n <= Z.of_nat n - 1.
Proof.
  intros Hn Hk0 Hk1. unfold Streaming.rank_index.
  pose proof (inject_nat_pos n Hn) as Hx.
  set (x := inject_Z (Z.of_nat n)) in *.
  assert (Hpos : (0 < k / 100 * x)%Q).
  { apply Qmult_lt_0_compat; [|lra]. apply Qlt_shift_div_l; lra. }
  assert (Hle : (k / 100 * x <= x)%Q).
  { assert (k / 100 <= 1)%Q by (apply Qle_shift_div_r; lra). nra. }
  split.
  - assert (0 < Qceiling (k / 100 * x)); [|lia].
    rewrite Zlt_Qlt. eapply Qlt_le_trans; [exact Hpos|]. apply Qle_ceiling.
  - assert (Qceiling (k / 100 * x) <= Z.of_nat n); [|lia].
    rewrite <- (Qceiling_Z (Z.of_nat n)). by apply Qceiling_resp_le.
Qed.

Lemma ceiling_floor x :
  Qceiling x = Qfloor x + (if integral x then 0 else 1).
Proof.
  unfold integral. destruct (Qeq_bool _ x) eqn:E.
  - apply Qeq_bool_iff in E. rewrite Z.add_0_r.
    rewrite <- (Qceiling_comp _ _ E). apply Qceiling_Z.
  - assert (Hne : ~ (inject_Z (Qfloor x) == x)%Q).
    { intros H. apply Qeq_bool_iff in H. congruence. }
    pose proof (Qfloor_le x) as H1. pose proof (Qlt_floor x) as H2.
    pose proof (Qle_ceiling x) as H3. pose proof (Qceiling_lt x) as H4.
    assert (Hlt : (inject_Z (Qfloor x) < x)%Q).
    { apply Qle_lteq in H1 as [?|?]; [done|by destruct Hne]. }
    assert (Qfloor x < Qceiling x) by (rewrite Zlt_Qlt; lra).
    assert (Qceiling x - 1 < Qfloor x + 1) by (rewrite Zlt_Qlt; lra).
    lia.
Qed.

(** [Math.floor(n * p)] against [Math.ceil(n * p) - 1]. *)
Lemma floor_index_rank n p :
  floor_index n p =
  Streaming.rank_index (100 * p) n
  + (if integral (inject_Z (Z.of_nat n) * p) then 1 else 0).
Proof.
  unfold floor_index, Streaming.rank_index.
  set (x := (inject_Z (Z.of_nat n) * p)%Q).
  assert (E : (100 * p / 100 * inject_Z (Z.of_nat n) == x)%Q).
  { unfold x. field. }
  rewrite (Qceiling_comp _ _ E), ceiling_floor.
  destruct (integral x); lia.
Qed.

Lemma half_index_floor n : Exporter.half_index n = floor_index n (1 # 2).
Proof.
  unfold Exporter.half_index, floor_index. apply Qfloor_comp.
  unfold Qdiv. apply Qmult_comp; reflexivity.
Qed.

Lemma parser_half_index_floor n : Parser.half_index n = floor_index n (1 # 2).
Proof. apply half_index_floor. Qed.

(** ** Arrays of finite numbers *)

Lemma at_index_Fin (s : list Q) i :
  at_index (map Fin s) i = Fin <$> at_index s i.
Proof. unfold at_index. destruct (i <? 0); [done|]. by rewrite list_lookup_fmap. Qed.

Lemma at_index_in_range {A} (s : list A) i :
  0 <= i <= Z.of_nat (length s) - 1 ->
  exists x, at_index s i = Some x /\ s !! Z.to_nat i = Some x.
Proof.
  intros Hi. unfold at_index.
  destruct (Z.ltb_spec i 0); [lia|].
  destruct (lookup_lt_is_Some_2 s (Z.to_nat i)) as [x Hx]; [lia|].
  exists x. by rewrite Hx.
Qed.

Lemma length_pos {A} (l : list A) : l <> [] -> (0 < length l)%nat.
Proof. destruct l; [done|simpl; lia]. Qed.

Lemma Math_min_Fin qs :
  qs <> [] ->
  exists m, Math_min (map Fin qs) = Fin m /\ Forall (fun q => (m <= q)%Q) qs.
Proof.
  induction qs as [|q qs IH]; [done|]. intros _.
  destruct qs as [|q' qs].
  - exists q. split; [done|]. constructor; [lra|constructor].
  - destruct IH as (m & Hm & Hall); [done|].
    unfold Math_min in *. simpl foldr in *. rewrite Hm. simpl.
    destruct (Qle_bool q m) eqn:E.
    + apply Qle_bool_iff in E. exists q. split; [done|].
      constructor; [lra|]. eapply Forall_impl; [exact Hall|].
      intros z Hz. simpl in Hz. lra.
    + apply Qle_bool_false in E. exists m. split; [done|]. by constructor.
Qed.

Lemma Math_max_Fin qs :
  qs <> [] ->
  exists m, Math_max (map Fin qs) = Fin m /\ Forall (fun q => (q <= m)%Q) qs.
Proof.
  induction qs as [|q qs IH]; [done|]. intros _.
  destruct qs as [|q' qs].
  - exists q. split; [done|]. constructor; [lra|constructor].
  - destruct IH as (m & Hm & Hall); [done|].
    unfold Math_max in *. simpl foldr in *. rewrite Hm. simpl.
    destruct (Qle_bool q m) eqn:E.
    + apply Qle_bool_iff in E. exists m. split; [done|]. by constructor.
    + apply Qle_bool_false in E. exists q. split; [done|].
      constructor; [lra|]. eapply Forall_impl; [exact Hall|].
      intros z Hz. simpl in Hz. lra.
Qed.

Lemma sum_numbers_from qs a :
  fold_left num_add (map Fin qs) (Fin a) = Fin (fold_left Qplus qs a).
Proof. revert a. induction qs as [|q qs IH]; intros a; simpl; [done|]. apply IH. Qed.

Lemma Math_round_or_Fin q :
  Math_round (num_or (Fin q) (Fin 0)) = num_of_Z (Qround_half_up q).
Proof.
  unfold num_or, num_truthy. destruct (Qeq_bool q 0) eqn:E; simpl; [|done].
  apply Qeq_bool_iff in E. unfold num_of_Z, Qround_half_up. do 2 f_equal.
  apply Qfloor_comp. rewrite E. reflexivity.
Qed.

Lemma Qround_half_up_mono a b :
  (a <= b)%Q -> Qround_half_up a <= Qround_half_up b.
Proof. intros. apply Qfloor_resp_le. lra. Qed.

Lemma num_le_of_Z a b : a <= b -> num_le (num_of_Z a) (num_of_Z b).
Proof. intros. simpl. by rewrite <- Zle_Qle. Qed.

Lemma num_le_round a b :
  (a <= b)%Q -> num_le (Math_round (Fin a)) (Math_round (Fin b)).
Proof. intros. by apply num_le_of_Z, Qround_half_up_mono. Qed.

Lemma average_Fin qs :
  qs <> [] -> exists q, Streaming.calculateAverage (map Fin qs) = Fin q.
Proof.
  intros Hne. unfold Streaming.calculateAverage, sum_numbers.
  rewrite length_map, sum_numbers_from.
  case_decide as Hlen; [by apply length_zero_iff_nil in Hlen|].
  unfold num_of_nat, num_of_Z, num_div, Qsign.
  destruct (Qcompare_spec (inject_Z (Z.of_nat (length qs))) 0) as [E|E|E];
    [|by eexists..].
  exfalso. apply Hlen.
  assert (Z.of_nat (length qs) = 0); [|lia].
  apply inject_Z_injective. by rewrite E.
Qed.

Lemma percentile_Fin qs k :
  qs <> [] -> (0 < k)%Q -> (k <= 100)%Q ->
  exists x,
    Streaming.calculatePercentile (map Fin qs) k = Some (Fin x) /\
    sort_by Qle_bool qs !! Z.to_nat (Streaming.rank_index k (length qs)) = Some x.
Proof.
  intros Hne Hk0 Hk1. unfold Streaming.calculatePercentile.
  pose proof (length_pos qs Hne) as Hlen.
  rewrite length_map. case_decide; [lia|].
  rewrite sort_numbers_Fin, length_map, sort_by_length.
  pose proof (rank_index_range (length qs) k Hlen Hk0 Hk1) as Hr.
  rewrite Z.max_r by lia.
  destruct (at_index_in_range (sort_by Qle_bool qs)
              (Streaming.rank_index k (length qs))) as (x & Hx & Hx').
  { by rewrite sort_by_length. }
  exists x. by rewrite at_index_Fin, Hx.
Qed.

Lemma floor_elements (s : list Q) p :
  s <> [] -> (0 <= p)%Q -> (p < 1)%Q ->
  exists x, at_index s (floor_index (length s) p) = Some x /\
            s !! Z.to_nat (floor_index (length s) p) = Some x.
Proof.
  intros Hne Hp0 Hp1. apply at_index_in_range, floor_index_range; [|done..].
  by apply length_pos.
Qed.

Lemma floor_lookup_le (s : list Q) p p' a b :
  StronglySorted Qle s -> s <> [] -> (0 <= p)%Q -> (p <= p')%Q -> (p' < 1)%Q ->
  s !! Z.to_nat (floor_index (length s) p) = Some a ->
  s !! Z.to_nat (floor_index (length s) p') = Some b -> (a <= b)%Q.
Proof.
  intros Hs Hne Hp0 Hpp Hp1. apply sorted_lookup_le; [done|].
  pose proof (floor_index_mono (length s) p p' Hpp).
  pose proof (length_pos s Hne).
  pose proof (floor_index_range (length s) p). lia.
Qed.

Lemma rank_lookup_le (s : list Q) k k' a b :
  StronglySorted Qle s -> s <> [] -> (0 < k)%Q -> (k <= k')%Q -> (k' <= 100)%Q ->
  s !! Z.to_nat (Streaming.rank_index k (length s)) = Some a ->
  s !! Z.to_nat (Streaming.rank_index k' (length s)) = Some b -> (a <= b)%Q.
Proof.
  intros Hs Hne Hk0 Hkk Hk1. apply sorted_lookup_le; [done|].
  pose proof (rank_index_mono (length s) k k' Hkk).
  pose proof (length_pos s Hne).
  pose proof (rank_index_range (length s) k). lia.
Qed.

(** ** Order of the statistics *)

Section Ordering.
Context {P : Platform}.
Variable qs : list Q.
Hypothesis nonempty : qs <> [].

Local Abbreviation s := (sort_by Qle_bool qs).

Lemma streaming_ordered e :
  exists st a b c d,
    Streaming.statistics
      {| Streaming.durations := map (fun q => Num (Fin q)) qs;
         Streaming.errors := e |} = Some st /\
    Streaming.p50 st = Some a /\ Streaming.p90 st = Some b /\
    Streaming.p95 st = Some c /\ Streaming.p99 st = Some d /\
    increasing [Streaming.min st; a; b; c; d; Streaming.max st].
Proof.
  unfold Streaming.statistics. cbn [Streaming.durations Streaming.errors].
  rewrite map_map. cbn [value_number].
  change (map (fun x => Fin x) qs) with (map Fin qs).
  rewrite sort_numbers_Fin.
  assert (Hs : s <> []) by by apply sort_by_nonempty.
  rewrite length_map. case_decide as Hlen.
  { by apply length_zero_iff_nil in Hlen. }
  destruct (percentile_Fin s 50 Hs) as (a & Ha & Ha'); [lra..|].
  destruct (percentile_Fin s 90 Hs) as (b & Hb & Hb'); [lra..|].
  destruct (percentile_Fin s 95 Hs) as (c & Hc & Hc'); [lra..|].
  destruct (percentile_Fin s 99 Hs) as (d & Hd & Hd'); [lra..|].
  destruct (Math_min_Fin s Hs) as (m & Hm & Hmin).
  destruct (Math_max_Fin s Hs) as (M & HM & Hmax).
  eexists _, (Fin a), (Fin b), (Fin c), (Fin d).
  split; [reflexivity|]. cbn [Streaming.p50 Streaming.p90 Streaming.p95
    Streaming.p99 Streaming.min Streaming.max].
  rewrite Ha, Hb, Hc, Hd, Hm, HM. do 4 (split; [done|]).
  pose proof (sort_sorted s) as Hsorted.
  rewrite <- (sort_by_length Qle_bool s) in Ha', Hb', Hc', Hd'.
  assert (Hs' : sort_by Qle_bool s <> []) by by apply sort_by_nonempty.
  rewrite Forall_forall in Hmin, Hmax.
  simpl. repeat split.
  - apply Hmin, (proj1 (sort_by_elem_of Qle_bool a s)).
    by eapply list_elem_of_lookup_2.
  - eapply (rank_lookup_le _ 50 90); [done..|lra|lra|lra|done|done].
  - eapply (rank_lookup_le _ 90 95); [done..|lra|lra|lra|done|done].
  - eapply (rank_lookup_le _ 95 99); [done..|lra|lra|lra|done|done].
  - apply Hmax, (proj1 (sort_by_elem_of Qle_bool d s)).
    by eapply list_elem_of_lookup_2.
Qed.

Lemma floor_Fin p :
  (0 <= p)%Q -> (p < 1)%Q ->
  exists x,
    at_index (map Fin s) (floor_index (length (map Fin s)) p) = Some (Fin x) /\
    s !! Z.to_nat (floor_index (length s) p) = Some x.
Proof.
  intros Hp0 Hp1. rewrite length_map, at_index_Fin.
  destruct (floor_elements s p) as (x & Hx & Hx'); [|done..|].
  { by apply sort_by_nonempty. }
  exists x. by rewrite Hx.
Qed.

Lemma analyzer_ordered n t e :
  let st := Analyzer.statistics
              {| Analyzer.count := n; Analyzer.totalDuration := t;
                 Analyzer.durations := map Fin qs; Analyzer.errors := e |} in
  exists a b c d,
    Analyzer.p50 st = Some a /\ Analyzer.p90 st = Some b /\
    Analyzer.p95 st = Some c /\ Analyzer.p99 st = Some d /\
    increasing [Analyzer.min st; a; b; c; d; Analyzer.max st].
Proof.
  unfold Analyzer.statistics. cbn [Analyzer.durations].
  rewrite sort_numbers_Fin.
  assert (Hs : s <> []) by by apply sort_by_nonempty.
  destruct (floor_Fin (5 # 10)) as (a & Ha & Ha'); [lra..|].
  destruct (floor_Fin (9 # 10)) as (b & Hb & Hb'); [lra..|].
  destruct (floor_Fin (95 # 100)) as (c & Hc & Hc'); [lra..|].
  destruct (floor_Fin (99 # 100)) as (d & Hd & Hd'); [lra..|].
  destruct (Math_min_Fin s Hs) as (m & Hm & Hmin).
  destruct (Math_max_Fin s Hs) as (M & HM & Hmax).
  exists (Fin a), (Fin b), (Fin c), (Fin d).
  cbn [Analyzer.p50 Analyzer.p90 Analyzer.p95 Analyzer.p99 Analyzer.min
         Analyzer.max].
  rewrite Ha, Hb, Hc, Hd, Hm, HM. do 4 (split; [done|]).
  pose proof (sort_sorted qs) as Hsorted.
  rewrite Forall_forall in Hmin, Hmax.
  simpl. repeat split.
  - apply Hmin. by eapply list_elem_of_lookup_2.
  - eapply (floor_lookup_le s (5 # 10) (9 # 10)); [done..|lra|lra|lra|done|done].
  - eapply (floor_lookup_le s (9 # 10) (95 # 100)); [done..|lra|lra|lra|done|done].
  - eapply (floor_lookup_le s (95 # 100) (99 # 100)); [done..|lra|lra|lra|done|done].
  - apply Hmax. by eapply list_elem_of_lookup_2.
Qed.

(** The rounded statistics of the exporter and of the console
    reporter share their shape. *)
Lemma rounded_ordered :
  exists m a b c M,
    Math_min (map Fin s) = Fin m /\
    at_index (map Fin s) (floor_index (length (map Fin s)) (1 # 2)) = Some (Fin a) /\
    at_index (map Fin s) (floor_index (length (map Fin s)) (95 # 100)) = Some (Fin b) /\
    at_index (map Fin s) (floor_index (length (map Fin s)) (99 # 100)) = Some (Fin c) /\
    Math_max (map Fin s) = Fin M /\
    (m <= a)%Q /\ (a <= b)%Q /\ (b <= c)%Q /\ (c <= M)%Q.
Proof.
  assert (Hs : s <> []) by by apply sort_by_nonempty.
  destruct (floor_Fin (1 # 2)) as (a & Ha & Ha'); [lra..|].
  destruct (floor_Fin (95 # 100)) as (b & Hb & Hb'); [lra..|].
  destruct (floor_Fin (99 # 100)) as (c & Hc & Hc'); [lra..|].
  destruct (Math_min_Fin s Hs) as (m & Hm & Hmin).
  destruct (Math_max_Fin s Hs) as (M & HM & Hmax).
  exists m, a, b, c, M. do 5 (split; [done|]).
  pose proof (sort_sorted qs) as Hsorted.
  rewrite Forall_forall in Hmin, Hmax.
  repeat split.
  - apply Hmin. by eapply list_elem_of_lookup_2.
  - eapply (floor_lookup_le s (1 # 2) (95 # 100)); [done..|lra|lra|lra|done|done].
  - eapply (floor_lookup_le s (95 # 100) (99 # 100)); [done..|lra|lra|lra|done|done].
  - apply Hmax. by eapply list_elem_of_lookup_2.
Qed.

Lemma exporter_ordered now name data :
  Exporter.values_of (Exporter.durations data) = map Fin qs ->
  let st := Exporter.calculateEndpointStats now name data in
  increasing
    [ Exporter.minResponseTime st; Exporter.medianResponseTime st;
      Exporter.p95ResponseTime st; Exporter.p99ResponseTime st;
      Exporter.maxResponseTime st ].
Proof.
  intros Hv. unfold Exporter.calculateEndpointStats.
  cbn [Exporter.minResponseTime Exporter.medianResponseTime
         Exporter.p95ResponseTime Exporter.p99ResponseTime
         Exporter.maxResponseTime].
  rewrite Hv, sort_numbers_Fin, half_index_floor.
  destruct rounded_ordered as (m & a & b & c & M & -> & -> & -> & -> & -> & ?).
  cbn [to_num]. rewrite !Math_round_or_Fin.
  simpl; rewrite <- !Zle_Qle.
  repeat split; apply Qround_half_up_mono; tauto.
Qed.

Lemma parser_ordered ds :
  Parser.values_of ds = map Fin qs ->
  let r := Parser.response_times ds in
  increasing
    [ Parser.min r; Parser.median r; Parser.p95 r; Parser.p99 r; Parser.max r ].
Proof.
  intros Hv. unfold Parser.response_times.
  cbn [Parser.min Parser.median Parser.p95 Parser.p99 Parser.max].
  rewrite Hv, sort_numbers_Fin, parser_half_index_floor.
  destruct rounded_ordered as (m & a & b & c & M & -> & -> & -> & -> & -> & ?).
  cbn [to_num increasing].
  repeat split; apply num_le_round; tauto.
Qed.
End Ordering.

(** C2.  For every non-empty sequence of durations the statistics of an
    endpoint come out in order.  The streaming analyzer and the summary
    analyzer give min <= p50 <= p90 <= p95 <= p99 <= max; the exporter and
    the console reporter, which compute no p90, give
    min <= median <= p95 <= p99 <= max on their rounded values. *)
Theorem percentiles_are_ordered `{P : Platform} (qs : list Q) :
  qs <> [] ->
  (forall e,
     exists st a b c d,
       Streaming.statistics
         {| Streaming.durations := map (fun q => Num (Fin q)) qs;
            Streaming.errors := e |} = Some st /\
       Streaming.p50 st = Some a /\ Streaming.p90 st = Some b /\
       Streaming.p95 st = Some c /\ Streaming.p99 st = Some d /\
       increasing [Streaming.min st; a; b; c; d; Streaming.max st]) /\
  (forall n t e,
     let st := Analyzer.statistics
                 {| Analyzer.count := n; Analyzer.totalDuration := t;
                    Analyzer.durations := map Fin qs; Analyzer.errors := e |} in
     exists a b c d,
       Analyzer.p50 st = Some a /\ Analyzer.p90 st = Some b /\
       Analyzer.p95 st = Some c /\ Analyzer.p99 st = Some d /\
       increasing [Analyzer.min st; a; b; c; d; Analyzer.max st]) /\
  (forall now name data,
     Exporter.values_of (Exporter.durations data) = map Fin qs ->
     let st := Exporter.calculateEndpointStats now name data in
     increasing
       [ Exporter.minResponseTime st; Exporter.medianResponseTime st;
         Exporter.p95ResponseTime st; Exporter.p99ResponseTime st;
         Exporter.maxResponseTime st ]) /\
  (forall ds,
     Parser.values_of ds = map Fin qs ->
     let r := Parser.response_times ds in
     increasing
       [ Parser.min r; Parser.median r; Parser.p95 r; Parser.p99 r; Parser.max r ]).
Proof.
  intros Hne. split; [|split; [|split]].
  - by apply streaming_ordered.
  - by apply analyzer_ordered.
  - by apply exporter_ordered.
  - by apply parser_ordered.
Qed.

(** The order holds on the durations 30, 10, 20 seen by the exporter. *)
Lemma percentiles_are_ordered_witness :
  [30; 10; 20]%Q <> [] /\
  forall now name data,
    Exporter.values_of (Exporter.durations data) = map Fin [30; 10; 20]%Q ->
    let st :=
      Exporter.calculateEndpointStats (P := ReferencePlatform.platform) now name data in
    increasing
      [ Exporter.minResponseTime st; Exporter.medianResponseTime st;
        Exporter.p95ResponseTime st; Exporter.p99ResponseTime st;
        Exporter.maxResponseTime st ].
Proof.
  split; [discriminate|].
  exact (proj1 (proj2 (proj2
           (percentiles_are_ordered (P := ReferencePlatform.platform)
              [30; 10; 20]%Q ltac:(discriminate))))).
Defined.

(** ** The two helpers of the streaming analyzer *)

(** C10.  [calculateAverage] and [calculatePercentile] return 0 on the
    empty list; the average of a non-empty list of finite numbers is a
    finite number; and on a non-empty list, for 0 < k <= 100, the index
    [ceil(k/100 * n) - 1] lies in [[0, n-1]], so that the percentile is the
    element of the sorted list at that index, an element of the list. *)
Theorem average_and_percentile_total :
  Streaming.calculateAverage [] = Fin 0 /\
  (forall k, Streaming.calculatePercentile [] k = Some (Fin 0)) /\
  (forall qs, qs <> [] ->
     exists q, Streaming.calculateAverage (map Fin qs) = Fin q) /\
  (forall (values : list number) (k : Q),
     values <> [] -> (0 < k)%Q -> (k <= 100)%Q ->
     let index := Streaming.rank_index k (length values) in
     0 <= index <= Z.of_nat (length values) - 1 /\
     exists x,
       Streaming.calculatePercentile values k = Some x /\
       sort_numbers values !! Z.to_nat (Z.max 0 index) = Some x /\
       x ∈ values).
Proof.
  split; [done|]. split; [done|]. split; [apply average_Fin|].
  intros values k Hne Hk0 Hk1 index.
  pose proof (length_pos values Hne) as Hlen.
  pose proof (rank_index_range (length values) k Hlen Hk0 Hk1) as Hr.
  split; [done|].
  unfold Streaming.calculatePercentile.
  case_decide; [lia|]. unfold sort_numbers. rewrite sort_by_length. fold index.
  destruct (at_index_in_range (sort_by ascending values) (Z.max 0 index))
    as (x & Hx & Hx').
  { rewrite sort_by_length. lia. }
  exists x. split; [done|]. split; [done|].
  apply (proj1 (sort_by_elem_of ascending x values)).
  by eapply list_elem_of_lookup_2.
Qed.

(** The median of 30, 10, 20 is one of the three. *)
Lemma average_and_percentile_total_witness :
  exists x,
    Streaming.calculatePercentile [Fin 30; Fin 10; Fin 20] 50 = Some x /\
    x ∈ [Fin 30; Fin 10; Fin 20].
Proof.
  destruct (proj2 (proj2 (proj2 average_and_percentile_total))
              [Fin 30; Fin 10; Fin 20] 50%Q) as (_ & x & Hx & _ & Hin);
    [discriminate | reflexivity | discriminate |].
  exists x. split; [exact Hx | exact Hin].
Defined.

(** ** The percentile rules of the call sites *)

(** C1, as amended.  For the percentiles the tools ask for, 50, 90, 95 and
    99, [calculatePercentile] of the streaming analyzer returns, on a
    non-empty sequence, the nearest-rank element: the element of the sorted
    sequence at index [ceil(k/100 * n) - 1], clamped to [[0, n-1]].  The
    indexing call sites (p50, p90, p95 and p99 of the summary analyzer;
    median, p95 and p99 of the exporter and of the console reporter) take
    the element at index [floor(n * p)] instead, for the fractions 0.5,
    0.9, 0.95 and 0.99: it lies in [[0, n-1]], equals the nearest-rank
    index when [n * p] is not an integer and is one above it when it is. *)
Theorem percentile_rules `{P : Platform} (values : list number) :
  values <> [] ->
  let n := length values in
  let sorted := sort_numbers values in
  (forall k, k ∈ [50; 90; 95; 99]%Q ->
     Streaming.calculatePercentile values k = nearest_rank sorted k) /\
  (forall p, (p == 1 # 2 \/ p == 9 # 10 \/ p == 95 # 100 \/ p == 99 # 100)%Q ->
     0 <= floor_index n p <= Z.of_nat n - 1 /\
     floor_index n p
     = nearest_rank_index (100 * p) n
       + (if integral (inject_Z (Z.of_nat n) * p) then 1 else 0)) /\
  (forall c t e,
     let st := Analyzer.statistics
                 {| Analyzer.count := c; Analyzer.totalDuration := t;
                    Analyzer.durations := values; Analyzer.errors := e |} in
     Analyzer.p50 st = at_index sorted (floor_index n (5 # 10)) /\
     Analyzer.p90 st = at_index sorted (floor_index n (9 # 10)) /\
     Analyzer.p95 st = at_index sorted (floor_index n (95 # 100)) /\
     Analyzer.p99 st = at_index sorted (floor_index n (99 # 100))) /\
  (forall now name data,
     Exporter.values_of (Exporter.durations data) = values ->
     let st := Exporter.calculateEndpointStats now name data in
     let pick p :=
       Math_round (num_or (to_num (at_index sorted (floor_index n p))) (Fin 0)) in
     Exporter.medianResponseTime st = pick (1 # 2) /\
     Exporter.p95ResponseTime st = pick (95 # 100) /\
     Exporter.p99ResponseTime st = pick (99 # 100)) /\
  (forall ds,
     Parser.values_of ds = values ->
     let r := Parser.response_times ds in
     let pick p := Math_round (to_num (at_index sorted (floor_index n p))) in
     Parser.median r = pick (1 # 2) /\
     Parser.p95 r = pick (95 # 100) /\
     Parser.p99 r = pick (99 # 100)).
Proof.
  intros Hne n sorted.
  pose proof (length_pos values Hne) as Hlen.
  assert (Hsl : length (sort_numbers values) = length values) by apply sort_by_length.
  assert (Hclamp : forall k, (0 < k)%Q -> (k <= 100)%Q ->
            nearest_rank_index k (length values)
            = Streaming.rank_index k (length values)).
  { intros k Hk0 Hk1. unfold nearest_rank_index.
    fold (Streaming.rank_index k (length values)).
    pose proof (rank_index_range (length values) k Hlen Hk0 Hk1). lia. }
  subst n sorted.
  split; [|split; [|split; [|split]]].
  - intros k Hk. unfold Streaming.calculatePercentile, nearest_rank.
    case_decide; [lia|]. rewrite Hsl.
    assert (Hr : (0 < k)%Q /\ (k <= 100)%Q).
    { repeat (apply elem_of_cons in Hk as [->|Hk]; [split; by vm_compute|]).
      by apply elem_of_nil in Hk. }
    rewrite (Hclamp k) by tauto.
    pose proof (rank_index_range (length values) k Hlen (proj1 Hr) (proj2 Hr)).
    f_equal. lia.
  - intros p Hp.
    assert (Hr : (0 < p)%Q /\ (p < 1)%Q).
    { destruct Hp as [E|[E|[E|E]]]; rewrite E; split; by vm_compute. }
    split; [apply floor_index_range; [done|lra|tauto]|].
    rewrite Hclamp by lra. apply floor_index_rank.
  - intros c t e. unfold Analyzer.statistics.
    cbn [Analyzer.durations Analyzer.p50 Analyzer.p90 Analyzer.p95 Analyzer.p99].
    by rewrite Hsl.
  - intros now name data Hv. unfold Exporter.calculateEndpointStats.
    cbn [Exporter.medianResponseTime Exporter.p95ResponseTime
           Exporter.p99ResponseTime].
    by rewrite Hv, half_index_floor, Hsl.
  - intros ds Hv. unfold Parser.response_times.
    cbn [Parser.median Parser.p95 Parser.p99].
    by rewrite Hv, parser_half_index_floor, Hsl.
Qed.

(** The two rules on the durations 1, 2, 3 and 4: the p50 of the streaming
    analyzer is the nearest-rank element, 2; the index of the summary
    analyzer is one above the nearest-rank index. *)
Lemma percentile_rules_witness :
  Streaming.calculatePercentile [Fin 1; Fin 2; Fin 3; Fin 4] 50
  = nearest_rank (sort_numbers [Fin 1; Fin 2; Fin 3; Fin 4]) 50 /\
  floor_index 4 (1 # 2) = nearest_rank_index (100 * (1 # 2)) 4 + 1.
Proof.
  destruct (percentile_rules (P := ReferencePlatform.platform)
              [Fin 1; Fin 2; Fin 3; Fin 4] ltac:(discriminate))
    as (Hk & Hp & _).
  split.
  - apply Hk. apply list_elem_of_In. left. reflexivity.
  - exact (proj2 (Hp (1 # 2) (or_introl (Qeq_refl _)))).
Defined.

(** C1 fails as stated: on the durations 1, 2, 3, 4 the p50 of the summary
    analyzer is the element at index [floor(4 * 0.5) = 2], which is 3, and
    the nearest-rank element, at index [ceil(0.5 * 4) - 1 = 1], is 2. *)
Lemma indexing_is_not_nearest_rank :
  Analyzer.p50
    (Analyzer.statistics
       {| Analyzer.count := 4; Analyzer.totalDuration := Fin 10;
          Analyzer.durations := [Fin 1; Fin 2; Fin 3; Fin 4];
          Analyzer.errors := 0 |})
  <> nearest_rank (sort_numbers [Fin 1; Fin 2; Fin 3; Fin 4]) 50.
Proof. vm_compute. discriminate. Qed.

(** ** The two-sample scenario *)

Lemma two_lines :
  split_lines (trim Samples.two_samples)
  = [Samples.duration_line "100"; Samples.duration_line "200"].
Proof. vm_compute. reflexivity. Qed.

(** C7, as amended.  From the two lines with durations 100 and 200 for
    endpoint [A] the exporter reports min 100, max 200, avg 150 and median
    200.  The median is the element at index [floor(2 / 2) = 1] of the
    sorted durations; the nearest-rank policy, with index 0, gives 100. *)
Theorem two_sample_summary `{P : Platform} (now : string) :
  JSON_parse (Samples.duration_line "100") = Some (Samples.duration_sample 100) ->
  JSON_parse (Samples.duration_line "200") = Some (Samples.duration_sample 200) ->
  exists data,
    Exporter.parse_content Samples.two_samples = Ok [("A", data)] /\
    let st := Exporter.calculateEndpointStats now "A" data in
    let sorted := sort_numbers (Exporter.values_of (Exporter.durations data)) in
    Exporter.minResponseTime st = Fin 100 /\
    Exporter.maxResponseTime st = Fin 200 /\
    Exporter.avgResponseTime st = Fin 150 /\
    Exporter.medianResponseTime st = Fin 200 /\
    at_index sorted (floor_index 2 (1 # 2)) = Some (Fin 200) /\
    nearest_rank sorted 50 = Some (Fin 100).
Proof.
  intros H1 H2. unfold Exporter.parse_content, Exporter.read_metrics.
  rewrite two_lines. cbn [omap list_omap]. unfold Exporter.parse_line.
  rewrite H1, H2. cbn [Samples.duration_sample].
  eexists. split; [vm_compute; reflexivity|].
  vm_compute. repeat split.
Qed.

(** The scenario on the reference platform. *)
Lemma two_sample_summary_witness :
  exists data,
    Exporter.parse_content (P := ReferencePlatform.platform) Samples.two_samples
    = Ok [("A", data)] /\
    Exporter.medianResponseTime
      (Exporter.calculateEndpointStats (P := ReferencePlatform.platform) "t" "A" data)
    = Fin 200.
Proof.
  destruct (two_sample_summary (P := ReferencePlatform.platform) "t")
    as (data & Hd & _ & _ & _ & Hm & _);
    [vm_compute; reflexivity | vm_compute; reflexivity |].
  exists data. split; [exact Hd | exact Hm].
Defined.

(** C7 fails as stated: the reported median, 200, is not the value of the
    documented nearest-rank policy on the two samples. *)
Lemma median_off_the_documented_policy :
  ~ (Exporter.medianResponseTime
       (Exporter.calculateEndpointStats (P := ReferencePlatform.platform)
          "t" "A" Samples.bucket_A) = Fin 200 /\
     Some (Exporter.medianResponseTime
             (Exporter.calculateEndpointStats (P := ReferencePlatform.platform)
                "t" "A" Samples.bucket_A))
     = nearest_rank
         (sort_numbers (Exporter.values_of (Exporter.durations Samples.bucket_A)))
         50).
Proof. vm_compute. intros [_ H]. discriminate H. Qed.

(** ** Success rate without checks *)

Lemma parser_success_rate_unguarded `{P : Platform} :
  Parser.success_rate [] = "NaN".
Proof. reflexivity. Qed.

Lemma exporter_success_rate_guarded `{P : Platform} :
  Exporter.success_rate [] = Num (Fin 0).
Proof. reflexivity. Qed.

(** C3.  On one duration sample of endpoint [A] and no check, the console
    reporter divides zero by zero and reports the success rate [NaN]; the
    exporter, which tests the number of checks first, reports 0. *)
Theorem success_rate_without_checks :
  (exists st,
     Parser.parse_content (P := ReferencePlatform.platform)
       (Samples.duration_line "100") = Ok [("A", st)] /\
     Parser.successRate st = "NaN") /\
  (exists data,
     Exporter.parse_content (P := ReferencePlatform.platform)
       (Samples.duration_line "100") = Ok [("A", data)] /\
     Exporter.successRate
       (Exporter.calculateEndpointStats (P := ReferencePlatform.platform)
          "t" "A" data)
     = Num (Fin 0)).
Proof.
  split; eexists; (split; [vm_compute; reflexivity|]); vm_compute; reflexivity.
Qed.

(** ** Objects used as maps *)

Section ObjFacts.
Context {A : Type}.
Implicit Types (o : obj A) (k : string) (a : A).

Lemma obj_get_set o k a : obj_get (obj_set o k a) k = Some a.
Proof.
  induction o as [|[k' a'] o IH]; simpl.
  - by rewrite String.eqb_refl.
  - destruct (String.eqb k k') eqn:E; simpl; rewrite E; [done|apply IH].
Qed.

Lemma obj_get_set_ne o k k' a :
  k <> k' -> obj_get (obj_set o k a) k' = obj_get o k'.
Proof.
  intros Hne. induction o as [|[k0 a0] o IH]; simpl.
  - destruct (String.eqb_spec k' k); [congruence|done].
  - destruct (String.eqb_spec k k0); simpl.
    + subst. destruct (String.eqb_spec k' k0); [congruence|done].
    + destruct (String.eqb_spec k' k0); [done|apply IH].
Qed.
End ObjFacts.

(** ** Routing of samples *)

Section Routing.
Context {P : Platform}.

Lemma get_opt_truthy v k s : get_opt v k = Str s -> truthy v = true.
Proof. by destruct v. Qed.

Lemma and_get_defined v k s : get_opt v k = Str s -> and_get v k = Str s.
Proof. intros H. unfold and_get. by rewrite (get_opt_truthy _ _ _ H). Qed.

Lemma truthy_Str s : s <> EmptyString -> truthy (Str s) = true.
Proof. intros. simpl. by destruct (String.eqb_spec s EmptyString). Qed.









End Routing.

(** The sample of the claim, as the reference platform parses it. *)
Lemma apps_line_parses :
  Reference.json_parse Samples.apps_line = Some Samples.apps_sample.
Proof. vm_compute. reflexivity. Qed.



(** ** The line readers *)

Section Readers.
Context {P : Platform}.

Lemma filter_split_length {A} (f : A -> bool) l :
  (length (List.filter f l) + length (List.filter (fun x => negb (f x)) l)
   = length l)%nat.
Proof.
  induction l as [|x l IH]; [done|]. simpl. destruct (f x); simpl; lia.
Qed.

Lemma parse_line_bad bad : JSON_parse bad = None -> Exporter.parse_line bad = None.
Proof. intros H. unfold Exporter.parse_line. by rewrite H. Qed.

Lemma get_throws v k e : get v k = Throw e -> e = TypeError.
Proof. destruct v; simpl; congruence. Qed.

Lemma checkEndpoint_of_throws v e :
  Exporter.checkEndpoint_of v = Throw e -> e = TypeError.
Proof.
  destruct v; simpl; try congruence.
  destruct (existsb _ _); congruence.
Qed.

Lemma push_at_throws o k s p e :
  Exporter.push_at o k s p = Throw e -> e = TypeError.
Proof.
  unfold Exporter.push_at. destruct (inherited k); [congruence|].
  destruct (obj_get o k); congruence.
Qed.

Lemma processMetric_throws st metric e :
  Exporter.processMetric st metric = Throw e -> e = TypeError.
Proof.
  unfold Exporter.processMetric.
  destruct (_ && _).
  { destruct (Exporter.checkEndpoint_of _) eqn:E1; cbn [mbind result_bind].
    - destruct (Exporter.push_at _ _ _ _) eqn:E2; cbn [mbind result_bind]; [done|].
      intros [= <-]. by eapply push_at_throws.
    - intros [= <-]. by eapply checkEndpoint_of_throws. }
  destruct (truthy _).
  { destruct (Exporter.series_of _); [|done].
    destruct (Exporter.push_at _ _ _ _) eqn:E2; cbn [mbind result_bind]; [done|].
    intros [= <-]. by eapply push_at_throws. }
  destruct (is_str _ "data_received").
  { destruct (get _ _) eqn:E; cbn [mbind result_bind]; [done|].
    intros [= <-]. by eapply get_throws. }
  destruct (is_str _ "data_sent"); [|done].
  destruct (get _ _) eqn:E; cbn [mbind result_bind]; [done|].
  intros [= <-]. by eapply get_throws.
Qed.

Lemma processMetrics_throws metrics st e :
  Exporter.processMetrics st metrics = Throw e -> e = TypeError.
Proof.
  revert st. induction metrics as [|m ms IH]; intros st; simpl; [done|].
  destruct (Exporter.processMetric st m) eqn:E; cbn [mbind result_bind].
  - apply IH.
  - intros [= <-]. by eapply processMetric_throws.
Qed.

(** No line makes the exporter fail with a parse error. *)
Lemma parse_content_throws content e :
  Exporter.parse_content content = Throw e -> e <> SyntaxError.
Proof.
  unfold Exporter.parse_content.
  destruct (Exporter.processMetrics _ _) eqn:E; cbn [mbind result_bind]; [done|].
  intros [= <-]. by rewrite (processMetrics_throws _ _ _ E).
Qed.

Lemma read_line_bad st bad : JSON_parse bad = None -> Streaming.read_line st bad = st.
Proof. intros H. unfold Streaming.read_line. by rewrite H. Qed.

Lemma kept_values ls :
  Forall2 (fun line v => JSON_parse line = Some v)
    (List.filter
       (fun line =>
          match JSON_parse line with
          | Some Null | None => false
          | Some _ => true
          end) ls)
    (omap Exporter.parse_line ls).
Proof.
  induction ls as [|l ls IH]; [constructor|].
  cbn [omap list_omap List.filter]. fold (omap Exporter.parse_line ls).
  unfold Exporter.parse_line at 1.
  destruct (JSON_parse l) as [v|] eqn:E; [|done].
  destruct v; try done; by constructor.
Qed.

(** C4, as amended.  The lines of a file of ASCII text are those of its
    trimmed content.  The reader of the exporter yields, in the order of
    the file, the parsed values of the [N] lines that parse to a value
    other than [null], and drops the other [M] lines without a word; a
    line that does not parse changes nothing in what the exporter or the
    streaming analyzer reads, and never makes the exporter fail with a
    parse error.  No count of skipped lines is kept. *)
Theorem readers_skip_bad_lines :
  (forall content,
     forallb (fun c => (nat_of_ascii c <? 128)%nat)
       (list_ascii_of_string content) = true ->
     let lines := split_lines (trim content) in
     let good line :=
       match JSON_parse line with
       | Some Null | None => false
       | Some _ => true
       end in
     let N := length (List.filter good lines) in
     let M := length (List.filter (fun line => negb (good line)) lines) in
     Forall2 (fun line v => JSON_parse line = Some v)
       (List.filter good lines) (Exporter.read_metrics content) /\
     length (Exporter.read_metrics content) = N /\
     (N + M = length lines)%nat) /\
  (forall before bad after,
     JSON_parse bad = None ->
     omap Exporter.parse_line (before ++ bad :: after)%list
     = omap Exporter.parse_line (before ++ after)%list) /\
  (forall content e,
     Exporter.parse_content content = Throw e -> e <> SyntaxError) /\
  (forall before bad after st,
     JSON_parse bad = None ->
     fold_left Streaming.read_line (before ++ bad :: after)%list st
     = fold_left Streaming.read_line (before ++ after)%list st).
Proof.
  split; [|split; [|split]].
  - intros content _ lines good N M.
    pose proof (kept_values lines) as Hvalues. fold good in Hvalues.
    split; [exact Hvalues|]. split.
    + symmetry. exact (Forall2_length _ _ _ Hvalues).
    + apply filter_split_length.
  - intros before bad after Hbad.
    rewrite !omap_app. cbn [omap list_omap].
    by rewrite (parse_line_bad _ Hbad).
  - apply parse_content_throws.
  - intros before bad after st Hbad.
    rewrite !fold_left_app. simpl. by rewrite (read_line_bad _ _ Hbad).
Qed.
End Readers.

(** One good line and one bad line: the value of the good line is read,
    the bad line is dropped. *)
Lemma readers_skip_bad_lines_witness :
  Forall2
    (fun line v => JSON_parse (Platform := ReferencePlatform.platform) line = Some v)
    [Samples.duration_line "100"]
    (Exporter.read_metrics (P := ReferencePlatform.platform) Samples.good_and_bad) /\
  length (Exporter.read_metrics (P := ReferencePlatform.platform)
            Samples.good_and_bad) = 1%nat /\
  (1 + 1 = length (split_lines (trim Samples.good_and_bad)))%nat.
Proof.
  exact (proj1 (readers_skip_bad_lines (P := ReferencePlatform.platform))
           Samples.good_and_bad eq_refl).
Defined.

(** C4 fails as stated: the caller of [parseK6Results] gets the same
    answer for a file with no bad line and for the same file with one bad
    line added, so nothing tells it how many lines were skipped. *)
Lemma skipped_lines_are_not_reported :
  ~ exists report : option (obj Exporter.bucket) * list string -> nat,
      report (Exporter.parseK6Results (P := ReferencePlatform.platform)
                (Samples.one_file "r.json" (Samples.duration_line "100")) "r.json")
      = 0%nat /\
      report (Exporter.parseK6Results (P := ReferencePlatform.platform)
                (Samples.one_file "r.json" Samples.good_and_bad) "r.json")
      = 1%nat.
Proof.
  intros (report & H0 & H1).
  assert (E : Exporter.parseK6Results (P := ReferencePlatform.platform)
                (Samples.one_file "r.json" (Samples.duration_line "100")) "r.json"
              = Exporter.parseK6Results (P := ReferencePlatform.platform)
                  (Samples.one_file "r.json" Samples.good_and_bad) "r.json").
  { vm_compute. reflexivity. }
  rewrite E in H0. congruence.
Qed.

(** ** Text *)

Lemma append_cons x (a b : string) : String x a +:+ b = String x (a +:+ b).
Proof. reflexivity. Qed.

Lemma append_nil_l (a : string) : EmptyString +:+ a = a.
Proof. reflexivity. Qed.

Lemma append_nil_r (a : string) : a +:+ EmptyString = a.
Proof. induction a as [|x a IH]; [done|]. by rewrite append_cons, IH. Qed.

Lemma append_assoc (a b c : string) : (a +:+ b) +:+ c = a +:+ b +:+ c.
Proof.
  induction a as [|x a IH]; [done|]. by rewrite !append_cons, IH.
Qed.

Lemma prefix_append (a b : string) : String.prefix a (a +:+ b) = true.
Proof.
  induction a as [|x a IH]; [by destruct b|].
  rewrite append_cons. simpl. destruct (ascii_dec x x); [done|congruence].
Qed.

Lemma join_cons sep x xs :
  xs <> [] -> join sep (x :: xs) = x +:+ sep +:+ join sep xs.
Proof. by destruct xs. Qed.






(** ** The report writer *)

Section ReportWriter.
Context {P : Platform}.
Variable clock : nat -> string.




Lemma write_refused w p content :
  p ∈ unwritable w -> writeFileSync w p content = Throw (IOError p).
Proof. intros H. unfold writeFileSync. by case_decide. Qed.


Lemma read_throws w p e : readFileSync w p = Throw e -> e = IOError p.
Proof.
  unfold readFileSync. destruct (files w !! p); [|congruence].
  case_decide; congruence.
Qed.






End ReportWriter.




(** ** Failures of input and output *)

Section Failures.
Context {P : Platform}.
Variable clock : nat -> string.

Lemma export_read_failure w json out appendMode e :
  readFileSync w json = Throw e ->
  Exporter.exportToExcel clock w json out appendMode
  = (w, [ "Error parsing k6 results: " +:+ error_message e;
          "Failed to parse k6 results" ]).
Proof.
  intros H. unfold Exporter.exportToExcel, Exporter.parseK6Results.
  by rewrite H.
Qed.

Lemma export_write_failure w json out (appendMode : bool) endpointData :
  let path := path_join out (Exporter.file_name clock endpointData appendMode) in
  Exporter.parseK6Results w json = (Some endpointData, []) ->
  path ∈ unwritable w ->
  Exporter.exportToExcel clock w json out appendMode
  = (w, ["Error exporting to Excel: " +:+ error_message (IOError path)]).
Proof.
  intros path Hp Hw. unfold Exporter.exportToExcel. rewrite Hp.
  fold path.
  destruct (appendMode && existsSync w path).
  - destruct (readFileSync w path) eqn:E; cbn [mbind result_bind].
    + by rewrite write_refused.
    + by rewrite (read_throws _ _ _ E).
  - cbn [mbind result_bind]. by rewrite write_refused.
Qed.

Lemma exporter_main_returns w args :
  ending (Exporter.main clock w args) = Returned.
Proof.
  unfold Exporter.main. destruct args as [|json rest]; [done|].
  destruct (negb (existsSync w json)); [done|].
  destruct (negb (existsSync w _)); [done|].
  by destruct (Exporter.exportToExcel _ _ _ _ _).
Qed.

Lemma analyze_read_failure w json e :
  readFileSync w json = Throw e ->
  Streaming.analyzeK6StreamingResults w json
  = (w, ["Error analyzing results: " +:+ error_message e]).
Proof.
  intros H. unfold Streaming.analyzeK6StreamingResults, Streaming.analyze.
  by rewrite H.
Qed.

Lemma analyze_write_failure w json :
  replace_first ".json" "-detailed-analysis.csv" json ∈ unwritable w ->
  exists e,
    Streaming.analyzeK6StreamingResults w json
    = (w, ["Error analyzing results: " +:+ error_message e]).
Proof.
  intros Hw. unfold Streaming.analyzeK6StreamingResults, Streaming.analyze.
  repeat match goal with
         | |- context [mbind _ ?r] =>
             destruct r; cbn [mbind result_bind]; [|by eexists]
         end.
  unfold Streaming.generateCSV.
  destruct (Streaming.csv_rows _); cbn [mbind result_bind]; [|by eexists].
  rewrite write_refused by done. by eexists.
Qed.

Lemma streaming_main_returns w json rest :
  ending (Streaming.main w (json :: rest)) = Returned.
Proof.
  unfold Streaming.main. destruct (negb (existsSync w json)); [done|].
  by destruct (Streaming.analyzeK6StreamingResults _ _).
Qed.

(** C9, as amended.  When the input file is missing or cannot be read,
    when the output directory is missing, or when the report cannot be
    written, the exporter and the streaming analyzer write a message that
    names the failure on the error console, leave the files as they were
    and return: the run ends with exit status 0, not with a non-zero one.
    A line that does not parse is skipped and stops neither tool. *)
Theorem io_errors_are_reported_and_the_run_returns w :
  (forall args, exit_status (ending (Exporter.main clock w args)) = 0) /\
  (forall json rest,
     existsSync w json = false ->
     Exporter.main clock w (json :: rest)
     = {| fs_after := w; stderr := ["JSON file not found: " +:+ json];
          ending := Returned |}) /\
  (forall json out rest,
     existsSync w json = true -> out <> EmptyString -> existsSync w out = false ->
     Exporter.main clock w (json :: out :: rest)
     = {| fs_after := w; stderr := ["Output directory not found: " +:+ out];
          ending := Returned |}) /\
  (forall json out appendMode e,
     readFileSync w json = Throw e ->
     Exporter.exportToExcel clock w json out appendMode
     = (w, [ "Error parsing k6 results: " +:+ error_message e;
             "Failed to parse k6 results" ])) /\
  (forall json out (appendMode : bool) endpointData,
     let path := path_join out (Exporter.file_name clock endpointData appendMode) in
     Exporter.parseK6Results w json = (Some endpointData, []) ->
     path ∈ unwritable w ->
     Exporter.exportToExcel clock w json out appendMode
     = (w, ["Error exporting to Excel: " +:+ error_message (IOError path)])) /\
  (forall content e,
     Exporter.parse_content content = Throw e -> e <> SyntaxError) /\
  (forall json rest,
     exit_status (ending (Streaming.main w (json :: rest))) = 0) /\
  (forall json rest,
     existsSync w json = false ->
     Streaming.main w (json :: rest)
     = {| fs_after := w; stderr := ["File not found: " +:+ json];
          ending := Returned |}) /\
  (forall json e,
     readFileSync w json = Throw e ->
     Streaming.analyzeK6StreamingResults w json
     = (w, ["Error analyzing results: " +:+ error_message e])) /\
  (forall json,
     replace_first ".json" "-detailed-analysis.csv" json ∈ unwritable w ->
     exists e,
       Streaming.analyzeK6StreamingResults w json
       = (w, ["Error analyzing results: " +:+ error_message e])) /\
  (forall st bad, JSON_parse bad = None -> Streaming.read_line st bad = st).
Proof.
  repeat split.
  - intros args. by rewrite exporter_main_returns.
  - intros json rest He. unfold Exporter.main. by rewrite He.
  - intros json out rest Hj Ho He. unfold Exporter.main. rewrite Hj.
    destruct (String.eqb_spec out EmptyString); [done|]. by rewrite He.
  - intros. by apply export_read_failure.
  - intros. by apply export_write_failure.
  - apply parse_content_throws.
  - intros json rest. by rewrite streaming_main_returns.
  - intros json rest He. unfold Streaming.main. by rewrite He.
  - intros. by apply analyze_read_failure.
  - intros. by apply analyze_write_failure.
  - intros. by apply read_line_bad.
Qed.
End Failures.

(** The exporter asked for a file that does not exist. *)
Lemma io_errors_are_reported_and_the_run_returns_witness :
  Exporter.main (P := ReferencePlatform.platform) ReferencePlatform.clock
    (Samples.one_file "results.json" EmptyString) ["missing.json"]
  = {| fs_after := Samples.one_file "results.json" EmptyString;
       stderr := ["JSON file not found: missing.json"];
       ending := Returned |}.
Proof.
  exact (proj1 (proj2
           (io_errors_are_reported_and_the_run_returns
              (P := ReferencePlatform.platform) ReferencePlatform.clock
              (Samples.one_file "results.json" EmptyString)))
           "missing.json" [] ltac:(vm_compute; reflexivity)).
Defined.

(** C9 fails as stated: asked for a file that does not exist, the exporter
    ends with exit status 0. *)
Lemma missing_input_ends_with_status_zero :
  ~ (exit_status
       (ending (Exporter.main (P := ReferencePlatform.platform)
                  ReferencePlatform.clock
                  (Samples.one_file "results.json" EmptyString) ["missing.json"]))
     <> 0).
Proof. intros H. apply H. vm_compute. reflexivity. Qed.

(** * Further properties of the tools *)

(** ** The average and the percentiles of the streaming analyzer *)

Lemma sum_from_bounds (lo hi : Q) qs a :
  Forall (fun q => (lo <= q)%Q /\ (q <= hi)%Q) qs ->
  (lo * inject_Z (Z.of_nat (length qs)) + a <= fold_left Qplus qs a)%Q /\
  (fold_left Qplus qs a <= hi * inject_Z (Z.of_nat (length qs)) + a)%Q.
Proof.
  intros H. revert a. induction H as [|q qs [Hlo Hhi] _ IH]; intros a.
  - simpl. split; ring_simplify; lra.
  - cbn [fold_left length]. destruct (IH (a + q)%Q) as [IH1 IH2].
    rewrite Nat2Z.inj_succ, <- Z.add_1_r, inject_Z_plus.
    change (inject_Z 1) with 1%Q.
    split; [eapply Qle_trans; [|exact IH1] | eapply Qle_trans; [exact IH2|]];
      ring_simplify; lra.
Qed.

Lemma average_value qs :
  qs <> [] ->
  Streaming.calculateAverage (map Fin qs)
  = Fin (fold_left Qplus qs 0%Q / inject_Z (Z.of_nat (length qs))).
Proof.
  intros Hne. unfold Streaming.calculateAverage, sum_numbers.
  rewrite length_map, sum_numbers_from.
  case_decide as Hlen; [by apply length_zero_iff_nil in Hlen|].
  unfold num_of_nat, num_of_Z, num_div, Qsign.
  destruct (Qcompare_spec (inject_Z (Z.of_nat (length qs))) 0) as [E|E|E];
    [|done..].
  exfalso. apply Hlen.
  assert (Z.of_nat (length qs) = 0); [|lia].
  apply inject_Z_injective. by rewrite E.
Qed.

Lemma average_within_bounds (qs : list Q) :
  qs <> [] ->
  exists lo a hi,
    Math_min (map Fin qs) = Fin lo /\
    Streaming.calculateAverage (map Fin qs) = Fin a /\
    Math_max (map Fin qs) = Fin hi /\
    (lo <= a)%Q /\ (a <= hi)%Q.
Proof.
  intros Hne.
  destruct (Math_min_Fin qs Hne) as (lo & Hlo & Hmin).
  destruct (Math_max_Fin qs Hne) as (hi & Hhi & Hmax).
  eexists lo, _, hi. split; [done|]. split; [by apply average_value|].
  split; [done|].
  assert (Hall : Forall (fun q => (lo <= q)%Q /\ (q <= hi)%Q) qs).
  { rewrite Forall_forall in *. intros q Hq. split; [by apply Hmin|by apply Hmax]. }
  destruct (sum_from_bounds lo hi qs 0%Q Hall) as [H1 H2].
  pose proof (inject_nat_pos (length qs) (length_pos qs Hne)) as Hn.
  split.
  - apply Qle_shift_div_l; [lra|]. lra.
  - apply Qle_shift_div_r; [lra|]. lra.
Qed.

(** X1.  The average of whole numbers lies between the least and the
    greatest of them, as [Math.min] and [Math.max] give them.  The numbers
    are whole and their magnitudes add up to at most 2^53, so that every
    sum the reduction forms is a whole number the arithmetic of the
    runtime holds exactly; with fractions the rounding of the sums can
    carry the average past the greatest value. *)
Theorem average_between_min_and_max (zs : list Z) :
  zs <> [] ->
  foldr (fun z total => Z.abs z + total) 0 zs <= 2 ^ 53 ->
  let values := map (fun z => Fin (inject_Z z)) zs in
  exists lo a hi,
    Math_min values = Fin lo /\
    Streaming.calculateAverage values = Fin a /\
    Math_max values = Fin hi /\
    (lo <= a)%Q /\ (a <= hi)%Q.
Proof.
  intros Hne _ values.
  assert (E : values = map Fin (map inject_Z zs)) by (unfold values; by rewrite map_map).
  rewrite E. apply average_within_bounds. by destruct zs.
Qed.

Lemma average_between_min_and_max_witness :
  exists lo a hi,
    Math_min (map (fun z => Fin (inject_Z z)) [30; 10; 20]) = Fin lo /\
    Streaming.calculateAverage (map (fun z => Fin (inject_Z z)) [30; 10; 20])
    = Fin a /\
    Math_max (map (fun z => Fin (inject_Z z)) [30; 10; 20]) = Fin hi /\
    (lo <= a)%Q /\ (a <= hi)%Q.
Proof.
  apply (average_between_min_and_max [30; 10; 20]); [discriminate|].
  vm_compute. discriminate.
Defined.

Lemma rank_index_upper n k :
  (k <= 100)%Q -> Streaming.rank_index k n <= Z.of_nat n - 1.
Proof.
  intros Hk. unfold Streaming.rank_index.
  pose proof (inject_nat_nonneg n) as Hx.
  assert (H : Qceiling (k / 100 * inject_Z (Z.of_nat n))
              <= Qceiling (inject_Z (Z.of_nat n))).
  { apply Qceiling_resp_le.
    assert (k / 100 <= 1)%Q by (apply Qle_shift_div_r; lra). nra. }
  rewrite Qceiling_Z in H. lia.
Qed.

Lemma rank_index_above n k :
  (0 < n)%nat -> (100 < k)%Q -> Z.of_nat n <= Streaming.rank_index k n.
Proof.
  intros Hn Hk. unfold Streaming.rank_index.
  pose proof (inject_nat_pos n Hn) as Hx.
  assert (Z.of_nat n < Qceiling (k / 100 * inject_Z (Z.of_nat n))); [|lia].
  rewrite Zlt_Qlt. eapply Qlt_le_trans; [|apply Qle_ceiling].
  assert (1 < k / 100)%Q by (apply Qlt_shift_div_l; lra). nra.
Qed.

Lemma rank_index_hundred n : Streaming.rank_index 100%Q n = Z.of_nat n - 1.
Proof.
  unfold Streaming.rank_index.
  assert (E : (100 / 100 * inject_Z (Z.of_nat n) == inject_Z (Z.of_nat n))%Q)
    by field.
  by rewrite (Qceiling_comp _ _ E), Qceiling_Z.
Qed.

Lemma rank_index_low n k : (k <= 0)%Q -> Streaming.rank_index k n <= 0.
Proof.
  intros Hk. unfold Streaming.rank_index.
  pose proof (inject_nat_nonneg n) as Hx.
  assert (Qceiling (k / 100 * inject_Z (Z.of_nat n)) <= 0); [|lia].
  change 0 with (Qceiling 0). apply Qceiling_resp_le.
  assert (k / 100 <= 0)%Q by (apply Qle_shift_div_r; lra). nra.
Qed.

(** The percentile of finite numbers, for every [k] up to 100: the element
    of the sorted list at the clamped index. *)
Lemma percentile_at qs k :
  qs <> [] -> (k <= 100)%Q ->
  exists x,
    Streaming.calculatePercentile (map Fin qs) k = Some (Fin x) /\
    sort_by Qle_bool qs !! Z.to_nat (Z.max 0 (Streaming.rank_index k (length qs)))
    = Some x.
Proof.
  intros Hne Hk. unfold Streaming.calculatePercentile.
  pose proof (length_pos qs Hne) as Hlen.
  rewrite length_map. case_decide; [lia|].
  rewrite sort_numbers_Fin, length_map, sort_by_length.
  pose proof (rank_index_upper (length qs) k Hk) as Hr.
  destruct (at_index_in_range (sort_by Qle_bool qs)
              (Z.max 0 (Streaming.rank_index k (length qs)))) as (x & Hx & Hx').
  { rewrite sort_by_length. lia. }
  exists x. by rewrite at_index_Fin, Hx.
Qed.

(** X2.  [calculatePercentile] never decreases when the percentile grows,
    for every pair of percentiles up to 100, zero and negative ones
    included. *)
Theorem percentile_grows_with_k (qs : list Q) (k k' : Q) :
  qs <> [] -> (k <= k')%Q -> (k' <= 100)%Q ->
  exists a b,
    Streaming.calculatePercentile (map Fin qs) k = Some (Fin a) /\
    Streaming.calculatePercentile (map Fin qs) k' = Some (Fin b) /\
    (a <= b)%Q.
Proof.
  intros Hne Hkk Hk'.
  destruct (percentile_at qs k Hne) as (a & Ha & Ha'); [lra|].
  destruct (percentile_at qs k' Hne Hk') as (b & Hb & Hb').
  exists a, b. split; [done|]. split; [done|].
  eapply (sorted_lookup_le _ _ _ a b (sort_sorted qs)); [|done..].
  pose proof (rank_index_mono (length qs) k k' Hkk). lia.
Qed.

Lemma percentile_grows_with_k_witness :
  exists a b,
    Streaming.calculatePercentile (map Fin [30; 10; 20]%Q) (-5)%Q = Some (Fin a) /\
    Streaming.calculatePercentile (map Fin [30; 10; 20]%Q) 75%Q = Some (Fin b) /\
    (a <= b)%Q.
Proof.
  apply (percentile_grows_with_k [30; 10; 20]%Q (-5)%Q 75%Q);
    [discriminate | discriminate | discriminate].
Defined.

Lemma sorted_head_least (s : list Q) x y :
  StronglySorted Qle s -> s !! 0%nat = Some x -> y ∈ s -> (x <= y)%Q.
Proof.
  intros Hs Hx Hy. apply list_elem_of_lookup_1 in Hy as [j Hj].
  eapply (sorted_lookup_le s 0 j); [done|lia|done..].
Qed.

Lemma sorted_last_greatest (s : list Q) x y :
  StronglySorted Qle s -> s !! (length s - 1)%nat = Some x -> y ∈ s -> (y <= x)%Q.
Proof.
  intros Hs Hx Hy. apply list_elem_of_lookup_1 in Hy as [j Hj].
  pose proof (lookup_lt_Some _ _ _ Hj).
  eapply (sorted_lookup_le s j (length s - 1)); [done|lia|done..].
Qed.

Lemma Math_min_elem qs m : Math_min (map Fin qs) = Fin m -> m ∈ qs.
Proof.
  revert m. induction qs as [|q qs IH]; intros m; [done|].
  unfold Math_min in *. simpl foldr.
  destruct (foldr num_min PosInf (map Fin qs)) as [r| | |] eqn:E; simpl; try done.
  - destruct (Qle_bool q r); intros [= <-]; [left|right; by apply IH].
  - intros [= <-]. left.
Qed.

Lemma Math_max_elem qs m : Math_max (map Fin qs) = Fin m -> m ∈ qs.
Proof.
  revert m. induction qs as [|q qs IH]; intros m; [done|].
  unfold Math_max in *. simpl foldr.
  destruct (foldr num_max NegInf (map Fin qs)) as [r| | |] eqn:E; simpl; try done.
  - destruct (Qle_bool q r); intros [= <-]; [right; by apply IH|left].
  - intros [= <-]. left.
Qed.

(** X3.  The ends of the percentile scale.  On a non-empty list of finite
    numbers the percentile 100 is the greatest element and every percentile
    at or below 0 is the least one; above 100 the index leaves the array and
    the result is [undefined]. *)
Theorem percentile_ends (qs : list Q) :
  qs <> [] ->
  (exists x hi,
     Streaming.calculatePercentile (map Fin qs) 100%Q = Some (Fin x) /\
     Math_max (map Fin qs) = Fin hi /\ (x == hi)%Q) /\
  (forall k, (k <= 0)%Q ->
     exists x lo,
       Streaming.calculatePercentile (map Fin qs) k = Some (Fin x) /\
       Math_min (map Fin qs) = Fin lo /\ (x == lo)%Q) /\
  (forall k, (100 < k)%Q ->
     Streaming.calculatePercentile (map Fin qs) k = None).
Proof.
  intros Hne. pose proof (length_pos qs Hne) as Hlen.
  pose proof (sort_sorted qs) as Hs.
  destruct (Math_min_Fin qs Hne) as (lo & Hlo & Hmin).
  destruct (Math_max_Fin qs Hne) as (hi & Hhi & Hmax).
  rewrite Forall_forall in Hmin, Hmax.
  split; [|split].
  - destruct (percentile_at qs 100%Q Hne) as (x & Hx & Hx'); [lra|].
    exists x, hi. split; [done|]. split; [done|].
    rewrite rank_index_hundred in Hx'.
    replace (Z.to_nat (Z.max 0 (Z.of_nat (length qs) - 1)))
      with (length (sort_by Qle_bool qs) - 1)%nat in Hx'
      by (rewrite sort_by_length; lia).
    apply Qle_antisym.
    + apply Hmax. apply (proj1 (sort_by_elem_of Qle_bool x qs)).
      by eapply list_elem_of_lookup_2.
    + eapply sorted_last_greatest; [done..|].
      apply sort_by_elem_of. by apply Math_max_elem.
  - intros k Hk.
    destruct (percentile_at qs k Hne) as (x & Hx & Hx'); [lra|].
    exists x, lo. split; [done|]. split; [done|].
    pose proof (rank_index_low (length qs) k Hk).
    rewrite Z.max_l in Hx' by lia.
    apply Qle_antisym.
    + eapply sorted_head_least; [done..|].
      apply sort_by_elem_of. by apply Math_min_elem.
    + apply Hmin. apply (proj1 (sort_by_elem_of Qle_bool x qs)).
      by eapply list_elem_of_lookup_2.
  - intros k Hk. unfold Streaming.calculatePercentile.
    rewrite length_map. case_decide; [lia|].
    rewrite sort_numbers_Fin, length_map, sort_by_length.
    pose proof (rank_index_above (length qs) k Hlen Hk).
    unfold at_index. destruct (Z.ltb_spec (Z.max 0 (Streaming.rank_index k (length qs))) 0);
      [done|].
    apply lookup_ge_None_2. rewrite length_map, sort_by_length. lia.
Qed.

Lemma percentile_ends_witness :
  (exists x hi,
     Streaming.calculatePercentile (map Fin [30; 10; 20]%Q) 100%Q = Some (Fin x) /\
     Math_max (map Fin [30; 10; 20]%Q) = Fin hi /\ (x == hi)%Q) /\
  (exists x lo,
     Streaming.calculatePercentile (map Fin [30; 10; 20]%Q) 0%Q = Some (Fin x) /\
     Math_min (map Fin [30; 10; 20]%Q) = Fin lo /\ (x == lo)%Q) /\
  Streaming.calculatePercentile (map Fin [30; 10; 20]%Q) 101%Q = None.
Proof.
  destruct (percentile_ends [30; 10; 20]%Q) as (H100 & H0 & Habove);
    [discriminate|].
  split; [exact H100|]. split.
  - apply (H0 0%Q). discriminate.
  - apply (Habove 101%Q). reflexivity.
Defined.

(** ** Grouping by endpoint in the streaming analyzer *)

Section ObjKeys.
Context {A : Type}.
Implicit Types (o : obj A) (k : string) (a : A).

Lemma obj_get_keys o k : is_Some (obj_get o k) <-> k ∈ Object_keys o.
Proof.
  induction o as [|[k' a'] o IH]; simpl.
  - split; [by intros [? ?]|by intros ?%elem_of_nil].
  - destruct (String.eqb_spec k k') as [->|Hne].
    + split; [intros _; left|by eexists].
    + rewrite IH. split; [by right|].
      intros [?|?]%elem_of_cons; [congruence|done].
Qed.

Lemma keys_set_present o k a :
  is_Some (obj_get o k) -> Object_keys (obj_set o k a) = Object_keys o.
Proof.
  induction o as [|[k' a'] o IH]; simpl; [by intros [? ?]|].
  destruct (String.eqb_spec k k'); simpl; [done|].
  intros H. f_equal. by apply IH.
Qed.

Lemma keys_set_absent o k a :
  obj_get o k = None -> Object_keys (obj_set o k a) = (Object_keys o ++ [k])%list.
Proof.
  induction o as [|[k' a'] o IH]; simpl; [done|].
  destruct (String.eqb_spec k k'); simpl; [done|].
  intros H. f_equal. by apply IH.
Qed.

Lemma keys_set_NoDup o k a :
  NoDup (Object_keys o) -> NoDup (Object_keys (obj_set o k a)).
Proof.
  intros Hnd. destruct (obj_get o k) eqn:E.
  - by rewrite keys_set_present.
  - rewrite keys_set_absent by done.
    apply NoDup_app. split; [done|]. split; [|apply NoDup_singleton].
    intros x Hx ->%list_elem_of_singleton.
    apply obj_get_keys in Hx as [? ?]. congruence.
Qed.

Lemma obj_get_set_cases o k k' a :
  obj_get (obj_set o k a) k' = if decide (k = k') then Some a else obj_get o k'.
Proof.
  case_decide as E; [subst; apply obj_get_set|by apply obj_get_set_ne].
Qed.
End ObjKeys.

Lemma get_defined (v : jsval) k :
  v <> Undefined -> v <> Null -> get v k = Ok (get_opt v k).
Proof. by destruct v. Qed.

Lemma get_undefined (v : jsval) k :
  v = Undefined \/ v = Null -> get v k = Throw TypeError.
Proof. by intros [-> | ->]. Qed.

Section StreamingGroups.
Context {P : Platform}.
Implicit Types (stats : obj Streaming.entry) (point : jsval).

(** What the analyzer can group: a point that is an object (or any value
    but [null] and [undefined]) whose endpoint is no inherited name. *)
Local Abbreviation groupable point :=
  (point <> Undefined /\ point <> Null /\
   inherited (Streaming.endpoint_of point) = false).

Local Abbreviation durations_of o :=
  (default [] (Streaming.durations <$> o)).
Local Abbreviation errors_of o :=
  (default 0%nat (Streaming.errors <$> o)).

Lemma group_point_get stats point :
  groupable point ->
  exists stats',
    Streaming.group_point stats point = Ok stats' /\
    (NoDup (Object_keys stats) -> NoDup (Object_keys stats')) /\
    forall e,
      obj_get stats' e
      = if decide (Streaming.endpoint_of point = e) then
          Some {| Streaming.durations :=
                    (durations_of (obj_get stats e)
                     ++ [get_opt point "value"])%list;
                  Streaming.errors := errors_of (obj_get stats e) |}
        else obj_get stats e.
Proof.
  intros (Hu & Hn & Hin). unfold Streaming.group_point.
  rewrite (get_defined _ _ Hu Hn). cbn [mbind result_bind]. rewrite Hin.
  eexists. split; [reflexivity|]. split; [apply keys_set_NoDup|].
  intros e. rewrite obj_get_set_cases. case_decide as E; [|done].
  subst e. by destruct (obj_get stats _).
Qed.

Lemma group_points_get points : forall stats,
  Forall (fun point => groupable point) points ->
  exists stats',
    Streaming.group_points stats points = Ok stats' /\
    (NoDup (Object_keys stats) -> NoDup (Object_keys stats')) /\
    forall e,
      obj_get stats' e
      = match filter (fun p => Streaming.endpoint_of p = e) points,
              obj_get stats e with
        | [], o => o
        | ps, o =>
            Some {| Streaming.durations :=
                      (durations_of o
                       ++ map (fun p => get_opt p "value") ps)%list;
                    Streaming.errors := errors_of o |}
        end.
Proof.
  induction points as [|p points IH]; intros stats Hall.
  - exists stats. split; [done|]. split; [done|]. intros e.
    by destruct (obj_get stats e).
  - apply Forall_cons in Hall as [Hp Hall].
    destruct (group_point_get stats p Hp) as (s1 & H1 & Hnd1 & Hget1).
    destruct (IH s1 Hall) as (s2 & H2 & Hnd2 & Hget2).
    exists s2. cbn [Streaming.group_points]. rewrite H1.
    cbn [mbind result_bind]. split; [done|]. split; [tauto|].
    intros e. rewrite Hget2, Hget1.
    destruct (decide (Streaming.endpoint_of p = e)) as [E|E].
    + rewrite filter_cons_True by done.
      destruct (filter _ points) as [|q qs]; simpl; [done|].
      by rewrite <- app_assoc.
    + by rewrite filter_cons_False by done.
Qed.

(** X4.  Every duration point is filed under exactly one endpoint.  When
    the points are objects and no endpoint is a name inherited from
    [Object.prototype], the grouping succeeds; the map has one entry for
    each endpoint that occurs and no other; the durations of an endpoint
    are the values of its points, in the order of the file; and the error
    counts start at zero. *)
Theorem durations_grouped_by_endpoint (points : list jsval) :
  Forall (fun point => groupable point) points ->
  exists stats,
    Streaming.group_points [] points = Ok stats /\
    NoDup (Object_keys stats) /\
    forall e,
      obj_get stats e
      = match filter (fun p => Streaming.endpoint_of p = e) points with
        | [] => None
        | ps =>
            Some {| Streaming.durations := map (fun p => get_opt p "value") ps;
                    Streaming.errors := 0 |}
        end.
Proof.
  intros Hall. destruct (group_points_get points [] Hall) as (s & Hs & Hnd & Hget).
  exists s. split; [done|]. split; [apply Hnd, NoDup_nil_2|].
  intros e. rewrite Hget. cbn [obj_get].
  by destruct (filter _ points).
Qed.

(** A point that is [null], or whose endpoint is an inherited name such
    as [constructor], stops the grouping with a [TypeError]. *)
Lemma group_points_stop stats pre point post stats1 :
  Streaming.group_points stats pre = Ok stats1 ->
  point = Undefined \/ point = Null \/
    inherited (Streaming.endpoint_of point) = true ->
  Streaming.group_points stats (pre ++ point :: post) = Throw TypeError.
Proof.
  revert stats. induction pre as [|p pre IH]; intros stats Hpre Hbad.
  - cbn [app Streaming.group_points]. simpl in Hpre. simplify_eq.
    unfold Streaming.group_point.
    destruct Hbad as [-> | [-> | Hin]]; [done..|].
    destruct (get point "value") as [v|e] eqn:E; cbn [mbind result_bind].
    + by rewrite Hin.
    + destruct point; simpl in E; congruence.
  - cbn [app Streaming.group_points] in *.
    destruct (Streaming.group_point stats p); cbn [mbind result_bind] in *;
      [by apply IH|done].
Qed.

Lemma count_error_get stats point :
  point <> Undefined -> point <> Null ->
  exists stats',
    Streaming.count_error stats point = Ok stats' /\
    Object_keys stats' = Object_keys stats /\
    forall e,
      obj_get stats' e
      = (fun en =>
           {| Streaming.durations := Streaming.durations en;
              Streaming.errors :=
                (Streaming.errors en
                 + if decide (is_one (get_opt point "value") = true /\
                              Streaming.endpoint_of point = e)
                   then 1 else 0)%nat |}) <$> obj_get stats e.
Proof.
  intros Hu Hn. unfold Streaming.count_error.
  rewrite (get_defined _ _ Hu Hn). cbn [mbind result_bind].
  assert (Hsame : forall e,
    obj_get stats e
    = (fun en => {| Streaming.durations := Streaming.durations en;
                    Streaming.errors := (Streaming.errors en + 0)%nat |})
        <$> obj_get stats e).
  { intros e. destruct (obj_get stats e) as [[d n]|]; [|done].
    simpl. by rewrite Nat.add_0_r. }
  destruct (is_one (get_opt point "value")) eqn:Hone.
  - destruct (obj_get stats (Streaming.endpoint_of point)) as [en|] eqn:Hen.
    + eexists. split; [reflexivity|]. split; [by apply keys_set_present|].
      intros e. rewrite obj_get_set_cases.
      destruct (decide (Streaming.endpoint_of point = e)) as [<-|Hne].
      * rewrite Hen. cbn [fmap option_fmap option_map].
        case_decide; [|tauto]. by rewrite Nat.add_1_r.
      * rewrite (Hsame e) at 1. destruct (obj_get stats e); [|done].
        cbn [fmap option_fmap option_map]. case_decide; [tauto|done].
    + exists stats. split; [done|]. split; [done|]. intros e.
      rewrite (Hsame e) at 1. destruct (obj_get stats e) eqn:E; [|done].
      cbn [fmap option_fmap option_map]. case_decide as H; [|done].
      destruct H as [_ <-]. congruence.
  - exists stats. split; [done|]. split; [done|]. intros e.
    rewrite (Hsame e) at 1. destruct (obj_get stats e); [|done].
    cbn [fmap option_fmap option_map]. case_decide as H; [|done].
    destruct H as [? _]. congruence.
Qed.

(** X5.  Failures are counted only for the endpoints that have durations.
    Counting changes neither the keys nor the durations; it adds to the
    errors of an endpoint the number of failure points of that endpoint
    whose value is 1; and a failure of an endpoint without an entry is
    dropped, no entry being made for it. *)
Theorem failures_counted_for_known_endpoints (points : list jsval) :
  forall stats,
  Forall (fun point => point <> Undefined /\ point <> Null) points ->
  exists stats',
    Streaming.count_errors stats points = Ok stats' /\
    Object_keys stats' = Object_keys stats /\
    forall e,
      obj_get stats' e
      = (fun en =>
           {| Streaming.durations := Streaming.durations en;
              Streaming.errors :=
                (Streaming.errors en
                 + length (filter
                             (fun p => is_one (get_opt p "value") = true /\
                                       Streaming.endpoint_of p = e)
                             points))%nat |}) <$> obj_get stats e.
Proof.
  induction points as [|p points IH]; intros stats Hall.
  - exists stats. split; [done|]. split; [done|]. intros e.
    destruct (obj_get stats e) as [[d n]|]; [|done].
    simpl. by rewrite Nat.add_0_r.
  - apply Forall_cons in Hall as [[Hu Hn] Hall].
    destruct (count_error_get stats p Hu Hn) as (s1 & H1 & Hk1 & Hget1).
    destruct (IH s1 Hall) as (s2 & H2 & Hk2 & Hget2).
    exists s2. cbn [Streaming.count_errors]. rewrite H1.
    cbn [mbind result_bind]. split; [done|]. split; [congruence|].
    intros e. rewrite Hget2, Hget1.
    destruct (obj_get stats e) as [[d n]|]; [|done].
    cbn [fmap option_fmap option_map Streaming.durations Streaming.errors].
    do 2 f_equal.
    destruct (decide (is_one (get_opt p "value") = true /\
                      Streaming.endpoint_of p = e)) as [E|E].
    + rewrite filter_cons_True by done. cbn [length]. lia.
    + rewrite filter_cons_False by done. lia.
Qed.
End StreamingGroups.

(** Two durations of endpoint [A]; an endpoint [B] without a point has no
    entry. *)
Lemma durations_grouped_by_endpoint_witness :
  let point v := Obj [("value", Num (Fin v)); ("tags", Obj [("endpoint", Str "A")])] in
  exists stats,
    Streaming.group_points (P := ReferencePlatform.platform) []
      [point 100%Q; point 200%Q] = Ok stats /\
    obj_get stats "A"
    = Some {| Streaming.durations := [Num (Fin 100); Num (Fin 200)];
              Streaming.errors := 0 |} /\
    obj_get stats "B" = None.
Proof.
  intros point.
  destruct (durations_grouped_by_endpoint (P := ReferencePlatform.platform)
              [point 100%Q; point 200%Q])
    as (stats & Hs & _ & Hget).
  { repeat constructor; discriminate. }
  exists stats. split; [exact Hs|].
  split; [exact (Hget "A")|exact (Hget "B")].
Defined.

(** One failure of [A] is added to its count; one of [B], which has no
    entry, is dropped. *)
Lemma failures_counted_for_known_endpoints_witness :
  let failure name :=
    Obj [("value", Num (Fin 1)); ("tags", Obj [("endpoint", Str name)])] in
  let known :=
    [("A", {| Streaming.durations := [Num (Fin 100)]; Streaming.errors := 0 |})] in
  exists stats,
    Streaming.count_errors (P := ReferencePlatform.platform) known
      [failure "A"; failure "B"] = Ok stats /\
    Object_keys stats = ["A"] /\
    obj_get stats "A"
    = Some {| Streaming.durations := [Num (Fin 100)]; Streaming.errors := 1 |} /\
    obj_get stats "B" = None.
Proof.
  intros failure known.
  destruct (failures_counted_for_known_endpoints (P := ReferencePlatform.platform)
              [failure "A"; failure "B"] known)
    as (stats & Hs & Hk & Hget).
  { repeat constructor; discriminate. }
  exists stats. split; [exact Hs|]. split; [exact Hk|].
  split; [exact (Hget "A")|exact (Hget "B")].
Defined.

(** ** The detailed CSV of the streaming analyzer *)

Lemma percentile_defined (values : list number) (k : Q) :
  values <> [] -> (0 < k)%Q -> (k <= 100)%Q ->
  exists x, Streaming.calculatePercentile values k = Some x.
Proof.
  intros Hne Hk0 Hk1. unfold Streaming.calculatePercentile.
  pose proof (length_pos values Hne) as Hlen.
  case_decide; [lia|]. unfold sort_numbers. rewrite sort_by_length.
  pose proof (rank_index_range (length values) k Hlen Hk0 Hk1) as Hr.
  destruct (at_index_in_range (sort_by ascending values)
              (Z.max 0 (Streaming.rank_index k (length values)))) as (x & Hx & _).
  { rewrite sort_by_length. lia. }
  by exists x.
Qed.

Lemma prefix_join2 (a b : string) (rest : list string) :
  rest <> [] ->
  String.prefix (a +:+ "," +:+ b +:+ ",") (join "," (a :: b :: rest)) = true.
Proof.
  intros Hne. rewrite join_cons by done. rewrite join_cons by done.
  rewrite <- !append_assoc. apply prefix_append.
Qed.

Lemma replace_first_absent a b s :
  includes a s = false -> replace_first a b s = s.
Proof. unfold includes, replace_first. by destruct (cut a s) as [[? ?]|]. Qed.

Lemma includes_cons a c s :
  includes a (String c s) = false ->
  String.prefix a (String c s) = false /\ includes a s = false.
Proof.
  unfold includes. cbn [cut].
  destruct (String.prefix a (String c s)); [done|].
  by destruct (cut a s) as [[? ?]|].
Qed.

(** [.json] does not overlap itself: where it does not start a text, it
    does not start the text followed by [.json] either. *)
Lemma prefix_json_straddle (b rest : string) :
  b <> EmptyString -> String.prefix ".json" b = false ->
  String.prefix ".json" (b +:+ ".json" +:+ rest) = false.
Proof.
  intros Hne H.
  repeat (destruct b as [|?c b];
          [first [done | reflexivity]|
           rewrite append_cons; cbn [String.prefix] in *;
           match goal with
           | |- context [ascii_dec ?x ?y] => destruct (ascii_dec x y); [|done]
           end]).
  by destruct b.
Qed.

(** The first [.json] of [base.json...] is the one after [base] when
    [base] holds none. *)
Lemma cut_json base rest :
  includes ".json" base = false ->
  cut ".json" (base +:+ ".json" +:+ rest) = Some (base, rest).
Proof.
  intros H. induction base as [|c base IH].
  - by destruct rest.
  - apply includes_cons in H as [Hc H].
    pose proof (prefix_json_straddle (String c base) rest ltac:(done) Hc) as Hp.
    rewrite append_cons in Hp |- *. cbn [cut]. by rewrite Hp, (IH H).
Qed.

Lemma replace_first_json b base rest :
  includes ".json" base = false ->
  replace_first ".json" b (base +:+ ".json" +:+ rest) = base +:+ b +:+ rest.
Proof. intros H. unfold replace_first. by rewrite cut_json. Qed.

Section StreamingOutput.
Context {P : Platform}.

Lemma statistics_of_durations stats :
  Streaming.durations stats <> [] ->
  exists s a b c d,
    Streaming.statistics stats = Some s /\
    Streaming.count s = length (Streaming.durations stats) /\
    Streaming.p50 s = Some a /\ Streaming.p90 s = Some b /\
    Streaming.p95 s = Some c /\ Streaming.p99 s = Some d.
Proof.
  intros Hne. unfold Streaming.statistics.
  set (sorted := sort_numbers (map value_number (Streaming.durations stats))).
  assert (Hlen : length sorted = length (Streaming.durations stats)).
  { unfold sorted, sort_numbers. by rewrite sort_by_length, length_map. }
  assert (Hs : sorted <> []).
  { intros E. rewrite E in Hlen. simpl in Hlen.
    symmetry in Hlen. by apply length_zero_iff_nil in Hlen. }
  case_decide as Hz; [by apply length_zero_iff_nil in Hz|].
  destruct (percentile_defined sorted 50 Hs) as [a Ha]; [done..|].
  destruct (percentile_defined sorted 90 Hs) as [b Hb]; [done..|].
  destruct (percentile_defined sorted 95 Hs) as [c Hc]; [done..|].
  destruct (percentile_defined sorted 99 Hs) as [d Hd]; [done..|].
  by eexists _, a, b, c, d.
Qed.

Lemma statistics_of_none stats :
  Streaming.durations stats = [] -> Streaming.statistics stats = None.
Proof. intros E. unfold Streaming.statistics. by rewrite E. Qed.

Lemma csv_row_total endpoint stats :
  exists r,
    Streaming.csv_row endpoint stats = Ok r /\
    (Streaming.durations stats = [] -> r = None) /\
    (Streaming.durations stats <> [] ->
     exists row,
       r = Some row /\
       String.prefix
         (endpoint +:+ ","
          +:+ Number_toString (num_of_nat (length (Streaming.durations stats)))
          +:+ ",") row = true).
Proof.
  unfold Streaming.csv_row.
  destruct (Streaming.durations stats) as [|x xs] eqn:E.
  - rewrite statistics_of_none by done. by exists None.
  - destruct (statistics_of_durations stats) as (s & a & b & c & d & Hs & Hc & Ha & Hb & Hcc & Hd).
    { by rewrite E. }
    rewrite Hs, Ha, Hb, Hcc, Hd. cbn [Streaming.fixed2 mbind result_bind].
    eexists. split; [reflexivity|]. split; [done|]. intros _.
    eexists. split; [reflexivity|]. rewrite Hc, E. by apply prefix_join2.
Qed.

Lemma csv_rows_total (stats : obj Streaming.entry) :
  exists rows,
    Streaming.csv_rows stats = Ok rows /\
    Forall2
      (fun row kv =>
         String.prefix
           (kv.1 +:+ ","
            +:+ Number_toString (num_of_nat (length (Streaming.durations kv.2)))
            +:+ ",") row = true)
      rows (filter (fun kv => Streaming.durations kv.2 <> []) stats).
Proof.
  unfold obj in *.
  induction stats as [|[endpoint e] stats (rows & IH & Hall)].
  - exists []. split; [done|]. constructor.
  - destruct (csv_row_total endpoint e) as (r & Hr & Hnone & Hsome).
    cbn [Streaming.csv_rows]. rewrite Hr, IH. cbn [mbind result_bind].
    eexists. split; [reflexivity|].
    destruct (decide (Streaming.durations e = [])) as [E|E].
    + rewrite (Hnone E). rewrite filter_cons_False by (simpl; tauto). done.
    + destruct (Hsome E) as (row & -> & Hrow).
      rewrite filter_cons_True by done. by constructor.
Qed.

(** X6.  The detailed CSV has the header line and then one line for each
    endpoint that has durations, in the order of the keys; the line of an
    endpoint starts with its name and the number of its durations. With
    numbers for durations, building the lines never fails, so that
    [generateCSV] fails only when the file cannot be written. *)
Theorem detailed_csv_has_a_row_per_endpoint
    (w : filesystem) (stats : obj Streaming.entry) (filename : string) :
  Forall (fun kv => Forall (fun d => exists n, d = Num n) (Streaming.durations kv.2))
    stats ->
  exists rows,
    Streaming.csv_rows stats = Ok rows /\
    Forall2
      (fun row kv =>
         String.prefix
           (kv.1 +:+ ","
            +:+ Number_toString (num_of_nat (length (Streaming.durations kv.2)))
            +:+ ",") row = true)
      rows (filter (fun kv => Streaming.durations kv.2 <> []) stats) /\
    Streaming.generateCSV w stats filename
    = writeFileSync w filename
        (join Streaming.nl (join "," Streaming.csv_headers :: rows)).
Proof.
  intros _. destruct (csv_rows_total stats) as (rows & Hrows & Hall).
  exists rows. split; [done|]. split; [done|].
  unfold Streaming.generateCSV. by rewrite Hrows.
Qed.

Lemma analyze_writes w jsonFile w' :
  Streaming.analyze w jsonFile = Ok w' ->
  exists rows,
    w' = with_file w (replace_first ".json" "-detailed-analysis.csv" jsonFile)
           (join Streaming.nl (join "," Streaming.csv_headers :: rows)).
Proof.
  unfold Streaming.analyze.
  repeat match goal with
         | |- context [mbind _ ?r] =>
             destruct r; cbn [mbind result_bind]; [|done]
         end.
  unfold Streaming.generateCSV.
  destruct (Streaming.csv_rows _) as [rows|]; cbn [mbind result_bind]; [|done].
  unfold writeFileSync. case_decide; [done|]. intros [= <-]. by exists rows.
Qed.

(** X7.  Where the analysis goes.  A run of [analyzeK6StreamingResults]
    either reports an error and leaves the files alone, or writes one
    file, the CSV, at the input path with its first [.json] replaced by
    [-detailed-analysis.csv].  For [base.json] that is
    [base-detailed-analysis.csv]; for an input path without [.json] it is
    the input path itself, and the CSV takes the place of the input. *)
Theorem analysis_output_file (w : filesystem) (jsonFile : string) :
  let out := replace_first ".json" "-detailed-analysis.csv" jsonFile in
  (includes ".json" jsonFile = false -> out = jsonFile) /\
  (forall base rest,
     includes ".json" base = false -> jsonFile = base +:+ ".json" +:+ rest ->
     out = base +:+ "-detailed-analysis.csv" +:+ rest) /\
  ((exists e,
      Streaming.analyzeK6StreamingResults w jsonFile
      = (w, ["Error analyzing results: " +:+ error_message e])) \/
   (exists rows,
      Streaming.analyzeK6StreamingResults w jsonFile
      = (with_file w out
           (join Streaming.nl (join "," Streaming.csv_headers :: rows)), []))).
Proof.
  intros out. split; [apply replace_first_absent|]. split.
  - intros base rest Hb ->. by apply replace_first_json.
  - unfold Streaming.analyzeK6StreamingResults.
    destruct (Streaming.analyze w jsonFile) as [w'|e] eqn:E.
    + right. destruct (analyze_writes _ _ _ E) as [rows ->]. by exists rows.
    + left. by exists e.
Qed.
End StreamingOutput.

(** The endpoint [A] with two durations and one failure, and the endpoint
    [B] without durations: one line, for [A]. *)
Lemma detailed_csv_has_a_row_per_endpoint_witness :
  let stats :=
    [ ("A", {| Streaming.durations := [Num (Fin 100); Num (Fin 200)];
               Streaming.errors := 1 |});
      ("B", {| Streaming.durations := []; Streaming.errors := 0 |}) ] in
  exists rows,
    Streaming.csv_rows (P := ReferencePlatform.platform) stats = Ok rows /\
    length rows = 1%nat /\
    Streaming.generateCSV (P := ReferencePlatform.platform)
      (Samples.one_file "r.json" Samples.two_samples) stats "out.csv"
    = writeFileSync (Samples.one_file "r.json" Samples.two_samples) "out.csv"
        (join Streaming.nl (join "," Streaming.csv_headers :: rows)).
Proof.
  intros stats.
  destruct (detailed_csv_has_a_row_per_endpoint (P := ReferencePlatform.platform)
              (Samples.one_file "r.json" Samples.two_samples) stats "out.csv")
    as (rows & Hr & Hall & Hw).
  { repeat (apply Forall_cons; split); try apply Forall_nil_2;
      eexists; reflexivity. }
  exists rows. split; [exact Hr|]. split; [|exact Hw].
  exact (Forall2_length _ _ _ Hall).
Defined.

(** An input named [results.txt] is replaced by its own analysis; one
    named [r.json] is analysed into [r-detailed-analysis.csv]. *)
Lemma analysis_output_file_witness :
  let w := Samples.one_file "results.txt" Samples.two_samples in
  (exists rows,
     Streaming.analyzeK6StreamingResults (P := ReferencePlatform.platform)
       w "results.txt"
     = (with_file w "results.txt"
          (join Streaming.nl (join "," Streaming.csv_headers :: rows)), [])) /\
  replace_first ".json" "-detailed-analysis.csv" "r.json"
  = "r-detailed-analysis.csv".
Proof.
  intros w.
  destruct (analysis_output_file (P := ReferencePlatform.platform) w "results.txt")
    as (Hsame & _ & Hrun).
  destruct (analysis_output_file (P := ReferencePlatform.platform) w "r.json")
    as (_ & Hjson & _).
  split.
  - rewrite (Hsame eq_refl) in Hrun. destruct Hrun as [[e He]|Hrows]; [|exact Hrows].
    vm_compute in He. discriminate He.
  - exact (Hjson "r" EmptyString eq_refl eq_refl).
Defined.

(** ** Edge cases of the exporter *)

Section ExporterEdges.
Context {P : Platform}.
Variable clock : nat -> string.

(** X8.  An endpoint without durations, such as one known only from the
    names of its checks, gets the least and the greatest of no numbers as
    its minimum and maximum, that is [Infinity] and [-Infinity]; its
    average, median, p95 and p99 fall back to 0.  An endpoint without
    requests has a test duration of 0: its request rates are 0/0, the text
    [NaN] and the number [NaN]. *)
Theorem statistics_of_an_empty_series (now name : string) (data : Exporter.bucket) :
  let st := Exporter.calculateEndpointStats now name data in
  (Exporter.durations data = [] ->
     Exporter.minResponseTime st = PosInf /\
     Exporter.maxResponseTime st = NegInf /\
     Exporter.avgResponseTime st = Fin 0 /\
     Exporter.medianResponseTime st = Fin 0 /\
     Exporter.p95ResponseTime st = Fin 0 /\
     Exporter.p99ResponseTime st = Fin 0) /\
  (Exporter.requests data = [] ->
     Exporter.totalRequests st = 0%nat /\
     Exporter.requestsPerSecond st = "NaN" /\
     Exporter.peakRequestRate st = NaN /\
     Exporter.responseTimeAtPeak st = Fin 0 /\
     Exporter.maxLoadLevel st = Fin 0).
Proof.
  intros st. subst st. unfold Exporter.calculateEndpointStats. split.
  - intros E. rewrite E. by vm_compute.
  - intros E. rewrite E. by vm_compute.
Qed.

Lemma test_duration_finite rs first final a b :
  head rs = Some first -> last rs = Some final ->
  Date_valueOf (Exporter.time first) = Fin a ->
  Date_valueOf (Exporter.time final) = Fin b ->
  exists d, Exporter.test_duration rs = Fin d /\ (1 <= d)%Q.
Proof.
  intros Hh Hl Ha Hb. unfold Exporter.test_duration.
  destruct rs as [|r rs]; [done|]. simpl in Hh. simplify_eq.
  rewrite Hl, Ha, Hb. cbn [num_sub num_neg num_add num_div].
  change (Qsign 1000) with Gt. cbn [num_max].
  destruct (Qle_bool 1 _) eqn:E.
  - apply Qle_bool_iff in E. by eexists.
  - exists 1%Q. split; [done|]. lra.
Qed.

(** X9.  The test lasts at least one second.  When the endpoint has
    requests and the times of the first and of the last are valid dates,
    the test duration is a finite number of seconds not below 1; the
    request rate that is printed is the text, with two decimals, of a
    number between 0 and the number of requests; and the peak request
    rate is a finite number between 0 and the number of requests. *)
Theorem request_rate_is_bounded (now name : string) (data : Exporter.bucket)
    (first final : Exporter.point) (a b : Q) :
  head (Exporter.requests data) = Some first ->
  last (Exporter.requests data) = Some final ->
  Date_valueOf (Exporter.time first) = Fin a ->
  Date_valueOf (Exporter.time final) = Fin b ->
  let n := inject_Z (Z.of_nat (length (Exporter.requests data))) in
  exists d q r,
    Exporter.test_duration (Exporter.requests data) = Fin d /\ (1 <= d)%Q /\
    Exporter.requestsPerSecond (Exporter.calculateEndpointStats now name data)
    = toFixed 2 (Fin q) /\
    (0 <= q)%Q /\ (q <= n)%Q /\
    Exporter.peakRequestRate (Exporter.calculateEndpointStats now name data)
    = Fin r /\
    (0 <= r)%Q /\ (r <= n)%Q.
Proof.
  intros Hh Hl Ha Hb n.
  destruct (test_duration_finite _ _ _ _ _ Hh Hl Ha Hb) as (d & Hd & Hd1).
  pose proof (inject_nat_nonneg (length (Exporter.requests data))) as Hn.
  fold n in Hn.
  assert (Hrate : num_div (num_of_nat (length (Exporter.requests data))) (Fin d)
                  = Fin (n / d)).
  { unfold num_div, num_of_nat, num_of_Z, Qsign.
    destruct (Qcompare_spec d 0) as [E|E|E]; [lra|lra|done]. }
  assert (H0 : (0 <= n / d)%Q) by (apply Qle_shift_div_l; lra).
  assert (H1 : (n / d <= n)%Q) by (apply Qle_shift_div_r; [lra|nra]).
  exists d, (n / d)%Q, (inject_Z (Qround_half_up (n / d * 10)) / 10)%Q.
  split; [done|]. split; [done|].
  unfold Exporter.calculateEndpointStats.
  cbn [Exporter.requestsPerSecond Exporter.peakRequestRate].
  rewrite Hd, Hrate. split; [done|]. split; [done|]. split; [done|]. split.
  { cbn [num_mul Math_round]. unfold num_of_Z, num_div.
    change (Qsign 10) with Gt. done. }
  unfold Qround_half_up.
  split.
  - apply Qle_shift_div_l; [lra|]. ring_simplify.
    change 0%Q with (inject_Z 0). rewrite <- Zle_Qle.
    change 0 with (Qfloor 0). apply Qfloor_resp_le. lra.
  - apply Qle_shift_div_r; [lra|].
    assert (E : (n * 10 == inject_Z (Z.of_nat (length (Exporter.requests data)) * 10))%Q).
    { unfold n. rewrite inject_Z_mult. reflexivity. }
    rewrite E. rewrite <- Zle_Qle.
    assert (Hf : Qfloor (n / d * 10 + (1 # 2))
                 <= Qfloor (inject_Z (Z.of_nat (length (Exporter.requests data)) * 10)
                            + (1 # 2))).
    { apply Qfloor_resp_le. rewrite <- E. lra. }
    eapply Z.le_trans; [exact Hf|].
    assert (Hlt : Qfloor (inject_Z (Z.of_nat (length (Exporter.requests data)) * 10)
                          + (1 # 2))
                  < Z.of_nat (length (Exporter.requests data)) * 10 + 1); [|lia].
    rewrite Zlt_Qlt. eapply Qle_lt_trans; [apply Qfloor_le|].
    rewrite inject_Z_plus. change (inject_Z 1) with 1%Q. lra.
Qed.

Lemma processMetrics_app st ms1 ms2 :
  Exporter.processMetrics st (ms1 ++ ms2)
  = st' ← Exporter.processMetrics st ms1; Exporter.processMetrics st' ms2.
Proof.
  revert st. induction ms1 as [|m ms1 IH]; intros st; [done|].
  cbn [app Exporter.processMetrics].
  destruct (Exporter.processMetric st m); cbn [mbind result_bind]; [apply IH|done].
Qed.

(** X10.  The global counters are overwritten, not summed.  A
    [data_received] sample without an endpoint tag replaces the global
    count of received bytes by its value, whatever was counted before, and
    touches no bucket; [data_sent] does the same for the bytes sent.
    After the loop each counter holds the value of the last such sample. *)
Theorem global_counters_keep_the_last_sample
    (st st1 : Exporter.aggregation) (metrics : list jsval) (m v : jsval)
    (name : string) :
  let data := get_opt m "data" in
  Exporter.processMetrics st metrics = Ok st1 ->
  get_opt m "metric" = Str name ->
  name = "data_received" \/ name = "data_sent" ->
  truthy (and_get (and_get data "tags") "endpoint") = false ->
  get data "value" = Ok v ->
  Exporter.processMetrics st (metrics ++ [m])
  = Ok {| Exporter.endpointData := Exporter.endpointData st1;
          Exporter.globalReceived :=
            if String.eqb name "data_received" then v
            else Exporter.globalReceived st1;
          Exporter.globalSent :=
            if String.eqb name "data_sent" then v
            else Exporter.globalSent st1 |}.
Proof.
  intros data Hpre Hm Hname He Hv.
  rewrite processMetrics_app, Hpre. cbn [mbind result_bind Exporter.processMetrics].
  unfold Exporter.processMetric. fold data. rewrite Hm, He.
  destruct Hname as [-> | ->]; cbn [is_str]; simpl String.eqb;
    cbn [andb]; rewrite Hv; by cbn [mbind result_bind].
Qed.

(** X11.  The output directory is the second argument, whatever it is.
    With [--append] in the second place the flag is taken for the
    directory too: when no directory of that name exists the run stops
    with a message and writes nothing. *)
Theorem append_flag_is_taken_for_the_directory
    (w : filesystem) (jsonFilePath : string) (rest : list string) :
  existsSync w jsonFilePath = true ->
  existsSync w "--append" = false ->
  Exporter.main clock w (jsonFilePath :: "--append" :: rest)
  = {| fs_after := w;
       stderr := ["Output directory not found: --append"];
       ending := Returned |}.
Proof.
  intros Hj Hd. unfold Exporter.main.
  change (String.eqb "--append" EmptyString) with false. cbn iota.
  by rewrite Hj, Hd.
Qed.

Lemma series_of_not_checks metricType s :
  Exporter.series_of metricType = Some s -> is_str metricType "checks" = false.
Proof.
  destruct metricType as [| | | |t| |]; try done. cbn [is_str].
  destruct (String.eqb_spec t "checks") as [->|]; [|done]. by vm_compute.
Qed.

(** X12.  An endpoint named like a member of [Object.prototype] stops the
    parse.  [endpointData[endpoint]] is then truthy before any bucket is
    made, none is made, and the push on its series throws: the samples
    read so far are lost, [parseK6Results] returns [null] and the exporter
    writes nothing. *)
Theorem inherited_endpoint_name_stops_the_parse
    (w : filesystem) (jsonFilePath outputDir content name : string)
    (appendMode : bool) (pre post : list jsval) (m : jsval)
    (s : Exporter.series) (st1 : Exporter.aggregation) :
  let tags := get_opt (get_opt m "data") "tags" in
  readFileSync w jsonFilePath = Ok content ->
  Exporter.read_metrics content = (pre ++ m :: post)%list ->
  Exporter.processMetrics Exporter.initial pre = Ok st1 ->
  get_opt tags "endpoint" = Str name -> inherited name = true ->
  Exporter.series_of (get_opt m "metric") = Some s ->
  Exporter.parseK6Results w jsonFilePath
  = (None, ["Error parsing k6 results: " +:+ error_message TypeError]) /\
  Exporter.exportToExcel clock w jsonFilePath outputDir appendMode
  = (w, [ "Error parsing k6 results: " +:+ error_message TypeError;
          "Failed to parse k6 results" ]).
Proof.
  intros tags Hread Hms Hpre Hep Hin Hs.
  assert (Hne : name <> EmptyString) by (intros ->; done).
  assert (Hm : Exporter.processMetric st1 m = Throw TypeError).
  { unfold Exporter.processMetric.
    assert (Ht : truthy tags = true) by by eapply get_opt_truthy.
    assert (Hd : truthy (get_opt m "data") = true).
    { unfold tags in *. destruct (get_opt m "data"); try done. }
    assert (Etags : and_get (get_opt m "data") "tags" = tags)
      by (unfold and_get; by rewrite Hd).
    rewrite Etags, (series_of_not_checks _ _ Hs). cbn [andb].
    rewrite (and_get_defined _ _ _ Hep), (truthy_Str _ Hne), Hs.
    cbn [ToString]. unfold Exporter.push_at. by rewrite Hin. }
  assert (Hc : Exporter.parse_content content = Throw TypeError).
  { unfold Exporter.parse_content. rewrite Hms, processMetrics_app, Hpre.
    cbn [mbind result_bind Exporter.processMetrics]. by rewrite Hm. }
  assert (Hp : Exporter.parseK6Results w jsonFilePath
               = (None, ["Error parsing k6 results: " +:+ error_message TypeError])).
  { unfold Exporter.parseK6Results. rewrite Hread. cbn [mbind result_bind].
    by rewrite Hc. }
  split; [done|]. unfold Exporter.exportToExcel. by rewrite Hp.
Qed.
End ExporterEdges.

(** ** Empty input *)

Section EmptyInput.
Context {P : Platform}.
Variable clock : nat -> string.

(** X13.  A results file that is empty, or holds white space only.  Its
    one line, the empty text, is no JSON.  The exporter skips it, finds no
    endpoint and writes a report that is the header row alone; the
    streaming analyzer writes a CSV that is the header line alone; the
    console reporter, which parses every line, fails with a syntax error. *)
Theorem empty_results_file
    (w : filesystem) (jsonFilePath outputDir content : string) :
  JSON_parse EmptyString = None ->
  readFileSync w jsonFilePath = Ok content ->
  trim content = EmptyString ->
  Exporter.parseK6Results w jsonFilePath = (Some [], []) /\
  (let path := path_join outputDir (Exporter.file_name clock [] false) in
   path ∉ unwritable w ->
   Exporter.exportToExcel clock w jsonFilePath outputDir false
   = (with_file w path (Exporter.render_row Exporter.headers), [])) /\
  (let out := replace_first ".json" "-detailed-analysis.csv" jsonFilePath in
   out ∉ unwritable w ->
   Streaming.analyzeK6StreamingResults w jsonFilePath
   = (with_file w out (join "," Streaming.csv_headers), [])) /\
  Parser.parseK6Results w jsonFilePath
  = (None, ["Error parsing k6 results: " +:+ error_message SyntaxError]).
Proof.
  intros Hj Hread Ht.
  assert (Hp : Exporter.parseK6Results w jsonFilePath = (Some [], [])).
  { unfold Exporter.parseK6Results, Exporter.parse_content, Exporter.read_metrics.
    rewrite Hread. cbn [mbind result_bind]. rewrite Ht.
    cbn [split_lines omap list_omap]. unfold Exporter.parse_line.
    by rewrite Hj. }
  split; [done|]. split; [|split].
  - intros path Hw. unfold Exporter.exportToExcel. rewrite Hp.
    fold path. cbn [andb mbind result_bind].
    unfold writeFileSync. by rewrite decide_False by done.
  - intros out Hw.
    unfold Streaming.analyzeK6StreamingResults, Streaming.analyze.
    rewrite Hread. cbn [mbind result_bind].
    unfold Streaming.read_lines. rewrite Ht.
    cbn [split_lines fold_left]. unfold Streaming.read_line. rewrite Hj.
    cbn. fold out. unfold Streaming.generateCSV. cbn.
    unfold writeFileSync. by rewrite decide_False by done.
  - unfold Parser.parseK6Results, Parser.parse_content.
    rewrite Hread. cbn [mbind result_bind]. rewrite Ht.
    cbn [split_lines Parser.parse_lines]. by rewrite Hj.
Qed.
End EmptyInput.

(** The endpoint [Login], known from a check only, has neither durations
    nor requests. *)
Lemma statistics_of_an_empty_series_witness :
  let st :=
    Exporter.calculateEndpointStats (P := ReferencePlatform.platform)
      "now" "Login" MoreSamples.bucket_Login in
  length (Exporter.checks MoreSamples.bucket_Login) = 1%nat /\
  Exporter.minResponseTime st = PosInf /\
  Exporter.maxResponseTime st = NegInf /\
  Exporter.requestsPerSecond st = "NaN" /\
  Exporter.peakRequestRate st = NaN.
Proof.
  intros st.
  destruct (statistics_of_an_empty_series (P := ReferencePlatform.platform)
              "now" "Login" MoreSamples.bucket_Login) as [Hd Hr].
  destruct (Hd eq_refl) as (Hmin & Hmax & _).
  destruct (Hr eq_refl) as (_ & Hrps & Hpeak & _).
  split; [reflexivity|]. split; [exact Hmin|]. split; [exact Hmax|].
  split; [exact Hrps|exact Hpeak].
Defined.

(** Three requests in four seconds. *)
Lemma request_rate_is_bounded_witness :
  exists d q r,
    Exporter.test_duration (P := ReferencePlatform.platform)
      (Exporter.requests MoreSamples.busy_bucket) = Fin d /\ (1 <= d)%Q /\
    Exporter.requestsPerSecond
      (Exporter.calculateEndpointStats (P := ReferencePlatform.platform)
         "now" "A" MoreSamples.busy_bucket)
    = toFixed (P := ReferencePlatform.platform) 2 (Fin q) /\
    (0 <= q)%Q /\ (q <= 3)%Q /\
    Exporter.peakRequestRate
      (Exporter.calculateEndpointStats (P := ReferencePlatform.platform)
         "now" "A" MoreSamples.busy_bucket)
    = Fin r /\
    (0 <= r)%Q /\ (r <= 3)%Q.
Proof.
  exact (request_rate_is_bounded (P := ReferencePlatform.platform)
           "now" "A" MoreSamples.busy_bucket
           (MoreSamples.request_at 0) (MoreSamples.request_at 4000) 0 4000
           eq_refl eq_refl eq_refl eq_refl).
Defined.

(** After 1000 bytes, a sample of 24 bytes leaves a count of 24. *)
Lemma global_counters_keep_the_last_sample_witness :
  Exporter.processMetrics (P := ReferencePlatform.platform) Exporter.initial
    [MoreSamples.received 1000; MoreSamples.received 24]
  = Ok {| Exporter.endpointData := [];
          Exporter.globalReceived := Num (Fin 24);
          Exporter.globalSent := Num (Fin 0) |}.
Proof.
  exact (global_counters_keep_the_last_sample (P := ReferencePlatform.platform)
           Exporter.initial
           {| Exporter.endpointData := [];
              Exporter.globalReceived := Num (Fin 1000);
              Exporter.globalSent := Num (Fin 0) |}
           [MoreSamples.received 1000] (MoreSamples.received 24)
           (Num (Fin 24)) "data_received"
           eq_refl eq_refl (or_introl eq_refl) eq_refl eq_refl).
Defined.

(** [node export_to_excel.js r.json --append], where [r.json] exists. *)
Lemma append_flag_is_taken_for_the_directory_witness :
  let w := Samples.one_file "r.json" Samples.two_samples in
  Exporter.main (P := ReferencePlatform.platform) ReferencePlatform.clock w
    ["r.json"; "--append"]
  = {| fs_after := w;
       stderr := ["Output directory not found: --append"];
       ending := Returned |}.
Proof.
  intros w.
  exact (append_flag_is_taken_for_the_directory (P := ReferencePlatform.platform)
           ReferencePlatform.clock w "r.json" [] eq_refl eq_refl).
Defined.

(** A request of the endpoint [constructor] on the first line. *)
Lemma inherited_endpoint_name_stops_the_parse_witness :
  let w := Samples.one_file "r.json" MoreSamples.constructor_first in
  Exporter.parseK6Results (P := ReferencePlatform.platform) w "r.json"
  = (None, ["Error parsing k6 results: "
            +:+ error_message (Platform := ReferencePlatform.platform) TypeError]) /\
  Exporter.exportToExcel (P := ReferencePlatform.platform)
    ReferencePlatform.clock w "r.json" "." false
  = (w, [ "Error parsing k6 results: "
          +:+ error_message (Platform := ReferencePlatform.platform) TypeError;
          "Failed to parse k6 results" ]).
Proof.
  intros w.
  destruct (Exporter.read_metrics (P := ReferencePlatform.platform)
              MoreSamples.constructor_first) as [|m post] eqn:E;
    [vm_compute in E; discriminate E|].
  apply (inherited_endpoint_name_stops_the_parse (P := ReferencePlatform.platform)
           ReferencePlatform.clock w "r.json" "." MoreSamples.constructor_first
           "constructor" false [] post m Exporter.Requests Exporter.initial).
  - reflexivity.
  - exact E.
  - reflexivity.
  - vm_compute in E. injection E as <- _. reflexivity.
  - reflexivity.
  - vm_compute in E. injection E as <- _. reflexivity.
Defined.

(** A results file of two blanks. *)
Lemma empty_results_file_witness :
  let w := Samples.one_file "r.json" "  " in
  Exporter.parseK6Results (P := ReferencePlatform.platform) w "r.json"
  = (Some [], []) /\
  Streaming.analyzeK6StreamingResults (P := ReferencePlatform.platform) w "r.json"
  = (with_file w "r-detailed-analysis.csv" (join "," Streaming.csv_headers), []) /\
  Parser.parseK6Results (P := ReferencePlatform.platform) w "r.json"
  = (None, ["Error parsing k6 results: "
            +:+ error_message (Platform := ReferencePlatform.platform) SyntaxError]).
Proof.
  intros w.
  destruct (empty_results_file (P := ReferencePlatform.platform)
              ReferencePlatform.clock w "r.json" "." "  "
              eq_refl eq_refl eq_refl)
    as (Hp & _ & Hs & Hr).
  split; [exact Hp|]. split; [|exact Hr].
  apply Hs. vm_compute. intros H. inversion H.
Defined.

(** ** The shares of the global data counters *)

Lemma round_half_up_near (x : Q) :
  (x - (1 # 2) <= inject_Z (Qround_half_up x))%Q /\
  (inject_Z (Qround_half_up x) <= x + (1 # 2))%Q.
Proof.
  unfold Qround_half_up.
  pose proof (Qfloor_le (x + (1 # 2))) as H1.
  pose proof (Qlt_floor (x + (1 # 2))) as H2.
  rewrite inject_Z_plus in H2. change (inject_Z 1) with 1%Q in H2.
  split; lra.
Qed.

Lemma rounded_sum_near (xs : list Q) :
  let total := foldr Qplus 0%Q xs in
  let rounded := inject_Z (foldr Z.add 0 (map Qround_half_up xs)) in
  let slack := (inject_Z (Z.of_nat (length xs)) / 2)%Q in
  (total - slack <= rounded)%Q /\ (rounded <= total + slack)%Q.
Proof.
  induction xs as [|x xs IH]; cbn zeta in *.
  - split; by vm_compute.
  - cbn [foldr map length]. destruct IH as [IH1 IH2].
    destruct (round_half_up_near x) as [Hx1 Hx2].
    rewrite inject_Z_plus, Nat2Z.inj_succ, <- Z.add_1_r, inject_Z_plus.
    change (inject_Z 1) with 1%Q.
    set (n := inject_Z (Z.of_nat (length xs))) in *.
    assert (E : ((n + 1) / 2 == n / 2 + (1 # 2))%Q) by field.
    rewrite E. split; lra.
Qed.

Lemma shares_total (g t : Q) (ns : list nat) :
  (foldr Qplus 0 (map (fun n => g * (inject_Z (Z.of_nat n) / t)) ns)
   == g * (inject_Z (Z.of_nat (sum_list ns)) / t))%Q.
Proof.
  induction ns as [|n ns IH].
  - cbn [map foldr sum_list sum_list_with].
    change (inject_Z (Z.of_nat 0)) with 0%Q. unfold Qdiv. ring.
  - cbn [map foldr sum_list sum_list_with]. rewrite IH.
    rewrite Nat2Z.inj_add, inject_Z_plus. unfold Qdiv, id. ring.
Qed.

Section Shares.
Context {P : Platform}.

Lemma total_requests_sum (o : obj Exporter.bucket) :
  Exporter.total_requests o
  = sum_list (map (fun kv => length (Exporter.requests kv.2)) o).
Proof.
  unfold Exporter.total_requests, Object_values.
  assert (H : forall a,
    fold_left (fun sum data => (sum + length (Exporter.requests data))%nat)
      (map snd o) a
    = (a + sum_list (map (fun kv => length (Exporter.requests kv.2)) o))%nat).
  { induction o as [|[k b] o IH]; intros a; cbn; [lia|]. rewrite IH. lia. }
  by rewrite H.
Qed.

(** X14.  The received bytes counted for the whole test are shared out
    among the endpoints in proportion to their requests.  Let the
    global count [g] be at most 2^40 bytes, so that the rounding of the
    arithmetic stays far below a byte.  When some endpoint has requests,
    each bucket gets a whole number of bytes within one byte of its
    proportional share [g * requests / totalRequests], the keys stay as
    they are, and the shares add up to [g] within one byte for each
    endpoint.  When no endpoint has any request nothing is shared out
    and the buckets stay as they were. *)
Theorem global_data_is_shared_out (st : Exporter.aggregation) (g : Q) :
  let o := Exporter.endpointData st in
  let t := Exporter.total_requests o in
  Exporter.globalReceived st = Num (Fin g) ->
  (0 <= g)%Q -> (g <= inject_Z (2 ^ 40))%Q ->
  (t = 0%nat -> Exporter.distribute st = o) /\
  ((0 < t)%nat ->
   exists shares : list Z,
     Object_keys (Exporter.distribute st) = Object_keys o /\
     map (fun kv => Exporter.globalDataReceived kv.2) (Exporter.distribute st)
     = map (fun z => Some (num_of_Z z)) shares /\
     Forall2
       (fun z kv =>
          (Qabs (inject_Z z
                 - g * (inject_Z (Z.of_nat (length (Exporter.requests kv.2)))
                        / inject_Z (Z.of_nat t)))
           <= 1)%Q)
       shares o /\
     (Qabs (inject_Z (foldr Z.add 0%Z shares) - g)
      <= inject_Z (Z.of_nat (length o)))%Q).
Proof.
  intros o t Hg _ _. split.
  - intros Ht. unfold Exporter.distribute. fold o t. rewrite Ht.
    by rewrite decide_False by lia.
  - intros Ht.
    exists (map (fun kv =>
              Qround_half_up
                (g * (inject_Z (Z.of_nat (length (Exporter.requests kv.2)))
                      / inject_Z (Z.of_nat t)))) o).
    unfold Exporter.distribute. fold o t.
    rewrite decide_True by done.
    assert (Htq : (0 < inject_Z (Z.of_nat t))%Q).
    { change 0%Q with (inject_Z 0). rewrite <- Zlt_Qlt. lia. }
    split; [|split; [|split]].
    + unfold Object_keys. rewrite map_map. apply map_ext. by intros [k b].
    + rewrite !map_map. apply map_ext. intros [k b].
      cbn [snd Exporter.globalDataReceived]. f_equal.
      unfold Exporter.share. rewrite Hg. cbn [value_number].
      unfold num_div, num_of_nat, num_of_Z, Qsign.
      destruct (Qcompare_spec (inject_Z (Z.of_nat t)) 0) as [E|E|E]; [lra|lra|].
      done.
    + apply Forall2_fmap_l, Forall_Forall2_diag, Forall_forall.
      intros kv _. apply Qabs_Qle_condition.
      destruct (round_half_up_near
                  (g * (inject_Z (Z.of_nat (length (Exporter.requests kv.2)))
                        / inject_Z (Z.of_nat t)))) as [H1 H2].
      split; lra.
    + set (ns := map (fun kv => length (Exporter.requests kv.2)) o).
      set (xs := map (fun n => (g * (inject_Z (Z.of_nat n) / inject_Z (Z.of_nat t)))%Q) ns).
      assert (Hmap :
        map (fun kv =>
               Qround_half_up
                 (g * (inject_Z (Z.of_nat (length (Exporter.requests kv.2)))
                       / inject_Z (Z.of_nat t)))) o
        = map Qround_half_up xs).
      { unfold xs, ns. by rewrite !map_map. }
      rewrite Hmap.
      destruct (rounded_sum_near xs) as [H1 H2].
      assert (Hlen : length xs = length o).
      { unfold xs, ns. by rewrite !length_map. }
      rewrite Hlen in H1, H2.
      assert (Htotal : (foldr Qplus 0 xs == g)%Q).
      { unfold xs. rewrite shares_total.
        unfold ns. rewrite <- total_requests_sum. fold t.
        unfold Qdiv. rewrite Qmult_inv_r by lra. ring. }
      rewrite Htotal in H1, H2.
      pose proof (inject_nat_nonneg (length o)) as Hn.
      assert (Hhalf : (inject_Z (Z.of_nat (length o)) / 2
                       <= inject_Z (Z.of_nat (length o)))%Q).
      { apply Qle_shift_div_r; lra. }
      apply Qabs_Qle_condition. split; lra.
Qed.
End Shares.

(** 1000 bytes among the endpoints [A], with one request, and [B], with
    two: 333 and 667 bytes. *)
Lemma global_data_is_shared_out_witness :
  exists shares : list Z,
    map (fun kv => Exporter.globalDataReceived kv.2)
      (Exporter.distribute MoreSamples.shared)
    = map (fun z => Some (num_of_Z z)) shares /\
    (Qabs (inject_Z (foldr Z.add 0%Z shares) - 1000) <= 2)%Q.
Proof.
  destruct (global_data_is_shared_out MoreSamples.shared 1000 eq_refl) as [_ H];
    [by vm_compute..|].
  destruct H as (shares & _ & Hs & _ & Hsum); [vm_compute; lia|].
  exists shares. split; [exact Hs|exact Hsum].
Defined.

(** ** The console reporter: reading and reporting *)

Section ReporterReads.
Context {P : Platform}.

Lemma parse_lines_bad lines :
  (exists line, line ∈ lines /\ JSON_parse line = None) ->
  Parser.parse_lines lines = Throw SyntaxError.
Proof.
  intros (bad & Hin & Hbad). induction lines as [|l lines IH].
  - by apply elem_of_nil in Hin.
  - cbn [Parser.parse_lines]. destruct (JSON_parse l) eqn:E; [|done].
    apply elem_of_cons in Hin as [->|Hin]; [congruence|].
    by rewrite (IH Hin).
Qed.

Lemma parse_lines_good lines :
  Forall (fun line => is_Some (JSON_parse line)) lines ->
  exists vs,
    Parser.parse_lines lines = Ok vs /\
    Forall2 (fun line v => JSON_parse line = Some v) lines vs.
Proof.
  induction 1 as [|l lines [v Hv] _ (vs & IH & Hall)].
  - exists []. split; [done|constructor].
  - exists (v :: vs). cbn [Parser.parse_lines]. rewrite Hv, IH.
    split; [done|by constructor].
Qed.

Lemma parser_push_at_throws o k s p e :
  Parser.push_at o k s p = Throw e -> e = TypeError.
Proof.
  unfold Parser.push_at. destruct (inherited k); [congruence|].
  destruct (obj_get o k); congruence.
Qed.

Lemma parser_processMetric_throws o metric e :
  Parser.processMetric o metric = Throw e -> e = TypeError.
Proof.
  unfold Parser.processMetric.
  destruct (get metric "data") as [data|e'] eqn:E; cbn [mbind result_bind].
  - destruct (truthy _); [|done].
    destruct (Parser.series_of _); [|done]. apply parser_push_at_throws.
  - intros [= <-]. by apply get_throws in E.
Qed.

Lemma parser_processMetrics_null metrics : forall o,
  Null ∈ metrics -> Parser.processMetrics o metrics = Throw TypeError.
Proof.
  induction metrics as [|m metrics IH]; intros o Hin.
  - by apply elem_of_nil in Hin.
  - cbn [Parser.processMetrics].
    destruct (Parser.processMetric o m) as [o'|e] eqn:E; cbn [mbind result_bind].
    + apply elem_of_cons in Hin as [<-|Hin]; [done|by apply IH].
    + by rewrite (parser_processMetric_throws _ _ _ E).
Qed.

(** X15.  The console reporter reads all or nothing.  One line that is no
    JSON, a blank line between two samples for one, makes [parseK6Results]
    fail with a syntax error, and one line that reads [null] makes it fail
    with a type error: the samples of the other lines are lost, the result
    is [null], and [main] reports that there is no data to display. *)
Theorem console_reporter_reads_all_or_nothing
    (w : filesystem) (jsonFilePath content : string) :
  readFileSync w jsonFilePath = Ok content ->
  let lines := split_lines (trim content) in
  let failure e :=
    Parser.parseK6Results w jsonFilePath
    = (None, ["Error parsing k6 results: " +:+ error_message e]) /\
    Report.main w [jsonFilePath]
    = {| Report.logged :=
           [ "📁 Parsing k6 results from: " +:+ jsonFilePath;
             "❌ No data to display" ];
         Report.complaints :=
           ["Error parsing k6 results: " +:+ error_message e] |} in
  ((exists line, line ∈ lines /\ JSON_parse line = None) ->
   failure SyntaxError) /\
  (Forall (fun line => is_Some (JSON_parse line)) lines ->
   (exists line, line ∈ lines /\ JSON_parse line = Some Null) ->
   failure TypeError).
Proof.
  intros Hread lines failure.
  assert (Hex : existsSync w jsonFilePath = true).
  { unfold readFileSync in Hread. apply bool_decide_eq_true_2. left.
    destruct (files w !! jsonFilePath); [by eexists|done]. }
  assert (Hmain : forall e,
    Parser.parse_content content = Throw e -> failure e).
  { intros e He.
    assert (Hp : Parser.parseK6Results w jsonFilePath
                 = (None, ["Error parsing k6 results: " +:+ error_message e])).
    { unfold Parser.parseK6Results. rewrite Hread. cbn [mbind result_bind].
      by rewrite He. }
    split; [done|]. unfold Report.main. rewrite Hex. cbn [negb].
    by rewrite Hp. }
  split.
  - intros Hbad. apply Hmain. unfold Parser.parse_content. fold lines.
    by rewrite parse_lines_bad.
  - intros Hgood (line & Hin & Hnull). apply Hmain.
    unfold Parser.parse_content. fold lines.
    destruct (parse_lines_good lines Hgood) as (vs & Hvs & Hall).
    rewrite Hvs. cbn [mbind result_bind].
    rewrite parser_processMetrics_null; [done|].
    apply list_elem_of_lookup_1 in Hin as [i Hi].
    destruct (Forall2_lookup_l _ _ _ _ _ Hall Hi) as (v & Hv & Hpv).
    rewrite Hnull in Hpv. simplify_eq. by eapply list_elem_of_lookup_2.
Qed.
End ReporterReads.

Section ReporterCompares.
Context {P : Platform}.
Implicit Types (stats : obj Parser.EndpointStats).

Lemma num_lt_Fin a b : num_lt (Fin a) (Fin b) = true <-> (a < b)%Q.
Proof.
  cbn [num_lt]. rewrite negb_true_iff. split.
  - intros E. destruct (Qlt_le_dec a b) as [?|Hle]; [done|].
    apply Qle_bool_iff in Hle. congruence.
  - intros Hlt. destruct (Qle_bool b a) eqn:E; [|done].
    apply Qle_bool_iff in E. lra.
Qed.

Lemma num_le_trans a b c : num_le a b -> num_le b c -> num_le a c.
Proof. destruct a, b, c; simpl; try tauto. intros. lra. Qed.

Lemma fastest_least stats rest : forall first,
  (forall k, k ∈ first :: rest -> exists q, Report.avg_at stats k = Fin q) ->
  let f := Report.fastest stats first rest in
  f ∈ first :: rest /\
  num_le (Report.avg_at stats f) (Report.avg_at stats first) /\
  forall k, k ∈ rest -> num_le (Report.avg_at stats f) (Report.avg_at stats k).
Proof.
  unfold Report.fastest.
  induction rest as [|c rest IH]; intros first Hfin; cbn zeta.
  - cbn [fold_left]. split; [left|].
    destruct (Hfin first) as [q ->]; [left|].
    split; [simpl; lra|]. by intros k ?%elem_of_nil.
  - cbn [fold_left].
    destruct (Hfin first) as [qf Hqf]; [left|].
    destruct (Hfin c) as [qc Hqc]; [right; left|].
    set (b := if num_lt (Report.avg_at stats c) (Report.avg_at stats first)
              then c else first).
    assert (Hb : (b = c \/ b = first) /\
                 num_le (Report.avg_at stats b) (Report.avg_at stats first) /\
                 num_le (Report.avg_at stats b) (Report.avg_at stats c)).
    { unfold b. rewrite Hqc, Hqf.
      destruct (num_lt (Fin qc) (Fin qf)) eqn:E; rewrite ?Hqc, ?Hqf; simpl.
      - apply num_lt_Fin in E. split; [auto|]. lra.
      - assert (~ (qc < qf)%Q) by (rewrite <- num_lt_Fin; congruence).
        split; [auto|]. lra. }
    destruct Hb as (Hb & Hb1 & Hb2).
    destruct (IH b) as (Hin & Hle1 & Hle).
    { intros k Hk. apply Hfin. apply elem_of_cons in Hk as [->|Hk].
      - destruct Hb as [-> | ->]; [right; left|left].
      - right; by right. }
    cbn zeta in Hin, Hle1, Hle. split; [|split].
    + apply elem_of_cons in Hin as [Hin|Hin].
      * rewrite Hin. destruct Hb as [-> | ->]; [right; left|left].
      * right; by right.
    + by eapply num_le_trans.
    + intros k [->|Hk]%elem_of_cons; [by eapply num_le_trans|by apply Hle].
Qed.

Lemma slowest_greatest stats rest : forall first,
  (forall k, k ∈ first :: rest -> exists q, Report.avg_at stats k = Fin q) ->
  let s := Report.slowest stats first rest in
  s ∈ first :: rest /\
  num_le (Report.avg_at stats first) (Report.avg_at stats s) /\
  forall k, k ∈ rest -> num_le (Report.avg_at stats k) (Report.avg_at stats s).
Proof.
  unfold Report.slowest.
  induction rest as [|c rest IH]; intros first Hfin; cbn zeta.
  - cbn [fold_left]. split; [left|].
    destruct (Hfin first) as [q ->]; [left|].
    split; [simpl; lra|]. by intros k ?%elem_of_nil.
  - cbn [fold_left].
    destruct (Hfin first) as [qf Hqf]; [left|].
    destruct (Hfin c) as [qc Hqc]; [right; left|].
    set (b := if num_lt (Report.avg_at stats first) (Report.avg_at stats c)
              then c else first).
    assert (Hb : (b = c \/ b = first) /\
                 num_le (Report.avg_at stats first) (Report.avg_at stats b) /\
                 num_le (Report.avg_at stats c) (Report.avg_at stats b)).
    { unfold b. rewrite Hqc, Hqf.
      destruct (num_lt (Fin qf) (Fin qc)) eqn:E; rewrite ?Hqc, ?Hqf; simpl.
      - apply num_lt_Fin in E. split; [auto|]. lra.
      - assert (~ (qf < qc)%Q) by (rewrite <- num_lt_Fin; congruence).
        split; [auto|]. lra. }
    destruct Hb as (Hb & Hb1 & Hb2).
    destruct (IH b) as (Hin & Hle1 & Hle).
    { intros k Hk. apply Hfin. apply elem_of_cons in Hk as [->|Hk].
      - destruct Hb as [-> | ->]; [right; left|left].
      - right; by right. }
    cbn zeta in Hin, Hle1, Hle. split; [|split].
    + apply elem_of_cons in Hin as [Hin|Hin].
      * rewrite Hin. destruct Hb as [-> | ->]; [right; left|left].
      * right; by right.
    + by eapply num_le_trans.
    + intros k [->|Hk]%elem_of_cons; [by eapply num_le_trans|by apply Hle].
Qed.

(** X16.  The comparison at the end of the report.  When every endpoint
    has a finite average, the endpoint named fastest is a key whose
    average no other key undercuts, the one named slowest is a key whose
    average no other key exceeds, and the difference that is printed is
    not negative. *)
Theorem fastest_and_slowest_are_the_extremes
    (stats : obj Parser.EndpointStats) (first : string) (rest : list string) :
  Object_keys stats = first :: rest ->
  (forall k, k ∈ Object_keys stats -> exists q, Report.avg_at stats k = Fin q) ->
  let f := Report.fastest stats first rest in
  let s := Report.slowest stats first rest in
  f ∈ Object_keys stats /\ s ∈ Object_keys stats /\
  (forall k, k ∈ Object_keys stats ->
     num_le (Report.avg_at stats f) (Report.avg_at stats k) /\
     num_le (Report.avg_at stats k) (Report.avg_at stats s)) /\
  exists d,
    num_sub (Report.avg_at stats s) (Report.avg_at stats f) = Fin d /\
    (0 <= d)%Q.
Proof.
  intros Hk Hfin f s. rewrite Hk in *.
  destruct (fastest_least stats rest first Hfin) as (Hf & Hf1 & Hfle).
  destruct (slowest_greatest stats rest first Hfin) as (Hs & Hs1 & Hsle).
  fold f in Hf, Hf1, Hfle. fold s in Hs, Hs1, Hsle.
  split; [done|]. split; [done|]. split.
  { intros k [->|Hin]%elem_of_cons; [done|]. split; auto. }
  destruct (Hfin f Hf) as [qf Hqf]. destruct (Hfin s Hs) as [qs Hqs].
  destruct (Hfin first) as [q1 Hq1]; [left|].
  rewrite Hqf, Hqs, Hq1 in *. simpl in Hf1, Hs1.
  eexists. split; [reflexivity|]. lra.
Qed.

Lemma fold_keeps_undefined stats rest first :
  Report.avg_at stats first = NaN ->
  Report.fastest stats first rest = first /\
  Report.slowest stats first rest = first.
Proof.
  intros Hn. unfold Report.fastest, Report.slowest.
  induction rest as [|c rest [IH1 IH2]]; [done|].
  cbn [fold_left]. rewrite Hn.
  assert (E1 : num_lt (Report.avg_at stats c) NaN = false)
    by by destruct (Report.avg_at stats c).
  by rewrite E1.
Qed.

(** X17.  An average that is not a number wins both ways.  When the
    endpoint listed first has no durations its average is [NaN]; no
    comparison with it holds, and the report names that endpoint both the
    fastest and the slowest, whatever the averages of the others. *)
Theorem undefined_average_is_fastest_and_slowest
    (stats : obj Parser.EndpointStats) (first : string) (rest : list string)
    (data : Parser.bucket) :
  obj_get stats first = Some (Parser.endpoint_stats data) ->
  Parser.durations data = [] ->
  Report.avg_at stats first = NaN /\
  Report.fastest stats first rest = first /\
  Report.slowest stats first rest = first.
Proof.
  intros Hget Hd.
  assert (Hn : Report.avg_at stats first = NaN).
  { unfold Report.avg_at. rewrite Hget.
    unfold Parser.endpoint_stats, Parser.response_times. by rewrite Hd. }
  split; [done|]. by apply fold_keeps_undefined.
Qed.
End ReporterCompares.

Section ReporterPrints.
Context {P : Platform}.

(** The statistics of an endpoint with another sending time. *)
Local Abbreviation with_sending x st :=
  {| Parser.totalRequests := Parser.totalRequests st;
     Parser.successRate := Parser.successRate st;
     Parser.responseTimes := Parser.responseTimes st;
     Parser.timingBreakdown :=
       {| Parser.blockedTime := Parser.blockedTime (Parser.timingBreakdown st);
          Parser.connectingTime := Parser.connectingTime (Parser.timingBreakdown st);
          Parser.sendingTime := x;
          Parser.waitingTime := Parser.waitingTime (Parser.timingBreakdown st);
          Parser.receivingTime := Parser.receivingTime (Parser.timingBreakdown st) |} |}.

Lemma obj_get_map {A B} (f : string -> A -> B) (o : obj A) k :
  obj_get (map (fun kv => (kv.1, f kv.1 kv.2)) o) k = f k <$> obj_get o k.
Proof.
  induction o as [|[k' a] o IH]; [done|]. cbn [map obj_get fst snd].
  destruct (String.eqb_spec k k') as [->|]; [done|apply IH].
Qed.

Lemma keys_map {A B} (f : string -> A -> B) (o : obj A) :
  Object_keys (map (fun kv => (kv.1, f kv.1 kv.2)) o) = Object_keys o.
Proof. unfold Object_keys. rewrite map_map. by apply map_ext. Qed.

(** X18.  The report never shows the sending time.  The line for it reads
    a property the statistics do not have and prints [undefined] for every
    endpoint; the whole report stays the same when the sending times are
    replaced by any others. *)
Theorem report_never_shows_the_sending_time
    (stats : obj Parser.EndpointStats) (other : string -> number) :
  (forall endpoint st,
     obj_get stats endpoint = Some st -> endpoint ∈ Object_keys stats ->
     "      Sending: undefinedms" ∈ Report.displayResults (Some stats)) /\
  Report.displayResults
    (Some (map (fun kv => (kv.1, with_sending (other kv.1) kv.2)) stats))
  = Report.displayResults (Some stats).
Proof.
  split.
  - intros endpoint st Hget Hin. unfold Report.displayResults.
    rewrite !elem_of_app. right. left.
    apply list_elem_of_In, in_flat_map. exists endpoint.
    split; [by apply list_elem_of_In|]. rewrite Hget.
    apply list_elem_of_In. unfold Report.endpoint_block. cbn [ToString].
    do 14 right. left.
  - unfold Report.displayResults.
    set (stats' := map _ stats).
    assert (Hk : Object_keys stats' = Object_keys stats)
      by apply (keys_map (fun k st => with_sending (other k) st)).
    assert (Hg : forall k, obj_get stats' k
                           = (fun st => with_sending (other k) st) <$> obj_get stats k)
      by apply (obj_get_map (fun k st => with_sending (other k) st)).
    assert (Ha : forall k, Report.avg_at stats' k = Report.avg_at stats k).
    { intros k. unfold Report.avg_at. rewrite Hg. by destruct (obj_get stats k). }
    assert (Hf : forall first rest,
      Report.fastest stats' first rest = Report.fastest stats first rest).
    { intros first rest. unfold Report.fastest. revert first.
      induction rest as [|c rest IH]; intros first; [done|].
      cbn [fold_left]. by rewrite !Ha, IH. }
    assert (Hs : forall first rest,
      Report.slowest stats' first rest = Report.slowest stats first rest).
    { intros first rest. unfold Report.slowest. revert first.
      induction rest as [|c rest IH]; intros first; [done|].
      cbn [fold_left]. by rewrite !Ha, IH. }
    assert (Hc : Report.comparison stats' = Report.comparison stats).
    { unfold Report.comparison. rewrite Hk.
      destruct (Object_keys stats) as [|first [|second rest]]; [done..|].
      by rewrite Hf, Hs, !Ha. }
    rewrite Hk, Hc. do 2 f_equal.
    apply flat_map_ext. intros k. rewrite Hg.
    by destruct (obj_get stats k).
Qed.
End ReporterPrints.

(** A blank line between two samples, and a line that reads [null] after
    a sample. *)
Lemma console_reporter_reads_all_or_nothing_witness :
  let blank := Samples.one_file "r.json" MoreSamples.blank_between in
  let null := Samples.one_file "r.json" MoreSamples.null_last in
  Parser.parseK6Results (P := ReferencePlatform.platform) blank "r.json"
  = (None, ["Error parsing k6 results: "
            +:+ error_message (Platform := ReferencePlatform.platform) SyntaxError]) /\
  Parser.parseK6Results (P := ReferencePlatform.platform) null "r.json"
  = (None, ["Error parsing k6 results: "
            +:+ error_message (Platform := ReferencePlatform.platform) TypeError]).
Proof.
  intros blank null.
  destruct (console_reporter_reads_all_or_nothing (P := ReferencePlatform.platform)
              blank "r.json" MoreSamples.blank_between eq_refl) as [Hb _].
  destruct (console_reporter_reads_all_or_nothing (P := ReferencePlatform.platform)
              null "r.json" MoreSamples.null_last eq_refl) as [_ Hn].
  split.
  - apply Hb. exists EmptyString. split; [|reflexivity].
    apply list_elem_of_In. vm_compute. right. left. reflexivity.
  - apply Hn.
    + apply Forall_forall. intros line Hin. apply list_elem_of_In in Hin.
      vm_compute in Hin. destruct Hin as [<-|[<-|[]]]; eexists; reflexivity.
    + exists "null". split; [|reflexivity].
      apply list_elem_of_In. vm_compute. right. left. reflexivity.
Defined.

(** The endpoints [A], with an average of 150 ms, and [B], with one of
    50 ms. *)
Lemma fastest_and_slowest_are_the_extremes_witness :
  Report.fastest MoreSamples.report_stats "A" ["B"]
    ∈ Object_keys MoreSamples.report_stats /\
  exists d,
    num_sub
      (Report.avg_at MoreSamples.report_stats
         (Report.slowest
            MoreSamples.report_stats "A" ["B"]))
      (Report.avg_at MoreSamples.report_stats
         (Report.fastest
            MoreSamples.report_stats "A" ["B"]))
    = Fin d /\ (0 <= d)%Q.
Proof.
  destruct (fastest_and_slowest_are_the_extremes
              MoreSamples.report_stats "A" ["B"] eq_refl)
    as (Hf & _ & _ & Hd).
  - intros k Hk. apply list_elem_of_In in Hk. vm_compute in Hk.
    destruct Hk as [<-|[<-|[]]]; eexists; reflexivity.
  - split; [exact Hf|exact Hd].
Defined.

(** The endpoint [Idle], with a request and no duration, listed before
    [A] and [B]. *)
Lemma undefined_average_is_fastest_and_slowest_witness :
  Report.avg_at MoreSamples.idle_first "Idle" = NaN /\
  Report.fastest MoreSamples.idle_first
    "Idle" ["A"; "B"] = "Idle" /\
  Report.slowest MoreSamples.idle_first
    "Idle" ["A"; "B"] = "Idle".
Proof.
  exact (undefined_average_is_fastest_and_slowest (P := ReferencePlatform.platform)
           MoreSamples.idle_first "Idle" ["A"; "B"] MoreSamples.idle
           eq_refl eq_refl).
Defined.

(** The report on the endpoints [A] and [B]. *)
Lemma report_never_shows_the_sending_time_witness :
  "      Sending: undefinedms"
    ∈ Report.displayResults (P := ReferencePlatform.platform)
        (Some MoreSamples.report_stats).
Proof.
  destruct (report_never_shows_the_sending_time (P := ReferencePlatform.platform)
              MoreSamples.report_stats (fun _ => Fin 7)) as [H _].
  destruct (obj_get MoreSamples.report_stats "A") as [st|] eqn:E;
    [|vm_compute in E; discriminate E].
  apply (H "A" st E).
  apply list_elem_of_In. vm_compute. left. reflexivity.
Defined.

(** ** The summary analyzer *)

Section SummaryAnalyzer.
Context {P : Platform}.
Implicit Types (stats : obj Analyzer.entry) (check : jsval).

Lemma fixed2_of_throws v e : Summary.fixed2_of v = Throw e -> e = TypeError.
Proof. destruct v; simpl; congruence. Qed.

Lemma summary_endpoint_of_throws check e :
  Summary.endpoint_of check = Throw e -> e = TypeError.
Proof.
  unfold Summary.endpoint_of.
  destruct (get check "tags") as [tags|e1] eqn:E1; cbn [mbind result_bind];
    [|intros [= <-]; by apply get_throws in E1].
  destruct (get tags "endpoint") as [byTag|e2] eqn:E2; cbn [mbind result_bind];
    [|intros [= <-]; by apply get_throws in E2].
  by destruct (truthy byTag).
Qed.

Lemma group_check_throws stats check e :
  Summary.group_check stats check = Throw e -> e = TypeError.
Proof.
  unfold Summary.group_check.
  destruct (get check "type") as [t|e1] eqn:E1; cbn [mbind result_bind];
    [|intros [= <-]; by apply get_throws in E1].
  destruct (is_str t "http_req_duration"); [|done].
  destruct (Summary.endpoint_of check) as [k|e2] eqn:E2; cbn [mbind result_bind];
    [|intros [= <-]; by apply summary_endpoint_of_throws in E2].
  destruct (inherited k); congruence.
Qed.

Lemma group_checks_throws checks : forall stats e,
  Summary.group_checks stats checks = Throw e -> e = TypeError.
Proof.
  induction checks as [|c checks IH]; intros stats e; [done|].
  cbn [Summary.group_checks].
  destruct (Summary.group_check stats c) as [s|e1] eqn:E1; cbn [mbind result_bind];
    [apply IH|intros [= <-]; by apply group_check_throws in E1].
Qed.

Lemma read_failures_throws checks e :
  Summary.read_failures checks = Throw e -> e = TypeError.
Proof.
  induction checks as [|c checks IH]; [done|].
  cbn [Summary.read_failures]. unfold Summary.read_failure.
  destruct (get c "type") as [t|e1] eqn:E1; cbn [mbind result_bind];
    [|intros [= <-]; by apply get_throws in E1].
  destruct (is_str t "http_req_failed" && is_one (get_opt c "value")).
  - destruct (Summary.endpoint_of c) as [k|e2] eqn:E2; cbn [mbind result_bind];
      [apply IH|intros [= <-]; by apply summary_endpoint_of_throws in E2].
  - cbn [mbind result_bind]. apply IH.
Qed.

Lemma summary_csv_rows_throws stats e :
  Summary.csv_rows stats = Throw e -> e = TypeError.
Proof.
  induction stats as [|[k en] stats IH]; [done|].
  cbn [Summary.csv_rows]. unfold Summary.csv_row.
  repeat match goal with
         | |- context [Summary.fixed2 ?p] =>
             destruct p; cbn [Summary.fixed2 mbind result_bind]; [|congruence]
         end.
  destruct (Summary.csv_rows stats); cbn [mbind result_bind]; [done|].
  intros [= <-]. by apply IH.
Qed.

(** What the analysis does once the document is parsed: it throws a
    [TypeError], or it gets as far as writing the CSV. *)
Lemma analysis_of_document w jsonFile content data :
  readFileSync w jsonFile = Ok content ->
  JSON_parse content = Some data ->
  Summary.analyze w jsonFile = Throw TypeError \/
  exists rows,
    Summary.analyze w jsonFile
    = writeFileSync w (replace_first ".json" "-analysis.csv" jsonFile)
        (join Summary.nl (join "," Summary.csv_headers :: rows)) /\
    exists metrics root_group checks,
      get_opt data "metrics" = metrics /\ metrics <> Undefined /\ metrics <> Null /\
      get_opt data "root_group" = root_group /\
      root_group <> Undefined /\ root_group <> Null /\
      get_opt root_group "checks" = Arr checks.
Proof.
  intros Hread Hparse. unfold Summary.analyze.
  rewrite Hread. cbn [mbind result_bind]. rewrite Hparse. cbn [mbind result_bind].
  destruct (get data "metrics") as [metrics|e] eqn:Em; cbn [mbind result_bind];
    [|left; by rewrite (get_throws _ _ _ Em)].
  destruct (get metrics "http_reqs") as [reqs|e] eqn:Er; cbn [mbind result_bind];
    [|left; by rewrite (get_throws _ _ _ Er)].
  destruct (get data "root_group") as [rg|e] eqn:Eg; cbn [mbind result_bind];
    [|left; by rewrite (get_throws _ _ _ Eg)].
  destruct (get rg "duration") as [d|e] eqn:Ed; cbn [mbind result_bind];
    [|left; by rewrite (get_throws _ _ _ Ed)].
  repeat match goal with
         | |- context [mbind _ (Summary.fixed2_of ?v)] =>
             let E := fresh "E" in
             destruct (Summary.fixed2_of v) eqn:E; cbn [mbind result_bind];
             [|left; by rewrite (fixed2_of_throws _ _ E)]
         end.
  destruct (get_opt rg "checks") as [| | | | |checks|] eqn:Ec;
    cbn [mbind result_bind]; try (by left).
  destruct (Summary.group_checks [] checks) as [stats|e] eqn:Es;
    cbn [mbind result_bind]; [|left; by rewrite (group_checks_throws _ _ _ Es)].
  destruct (Summary.csv_rows stats) as [rows|e] eqn:Erows;
    cbn [mbind result_bind]; [|left; by rewrite (summary_csv_rows_throws _ _ Erows)].
  destruct (Summary.read_failures checks) as [[]|e] eqn:Ef;
    cbn [mbind result_bind]; [|left; by rewrite (read_failures_throws _ _ Ef)].
  right. exists rows. unfold Summary.generateCSV. rewrite Erows.
  split; [done|]. exists metrics, rg, checks.
  assert (Hm : metrics <> Undefined /\ metrics <> Null) by (by destruct metrics).
  assert (Hg : rg <> Undefined /\ rg <> Null) by (by destruct rg).
  assert (Hd : data <> Undefined /\ data <> Null) by (by destruct data).
  rewrite (get_defined data "metrics") in Em by tauto.
  rewrite (get_defined data "root_group") in Eg by tauto.
  simplify_eq. tauto.
Qed.

(** X19.  The summary analyzer wants one JSON document with [metrics] and
    with a [root_group] whose [checks] is an array.  A run writes at most
    one file.  When the text of the file is not one JSON value, as the
    line-by-line output of the load test is not, the run reports a syntax
    error; when the document lacks [metrics] or [root_group], or when the
    [checks] of the root group is not an array, it reports a type error;
    in both cases nothing is written.  Otherwise it reports a type error
    and writes nothing, or it reports nothing and writes the CSV, header
    line first, at the input path with its first [.json] replaced by
    [-analysis.csv]. *)
Theorem summary_analysis_needs_its_fields
    (w : filesystem) (jsonFile content : string) :
  readFileSync w jsonFile = Ok content ->
  let out := replace_first ".json" "-analysis.csv" jsonFile in
  let fails e :=
    Summary.analyzeK6Results w jsonFile
    = (w, ["Error analyzing results: " +:+ error_message e]) in
  (JSON_parse content = None -> fails SyntaxError) /\
  (forall data,
     JSON_parse content = Some data ->
     (get_opt data "metrics" = Undefined \/ get_opt data "metrics" = Null \/
      get_opt data "root_group" = Undefined \/ get_opt data "root_group" = Null \/
      (forall checks,
         get_opt (get_opt data "root_group") "checks" <> Arr checks)) ->
     fails TypeError) /\
  (forall data,
     JSON_parse content = Some data ->
     fails TypeError \/ fails (IOError out) \/
     exists rows,
       Summary.analyzeK6Results w jsonFile
       = (with_file w out
            (join Summary.nl (join "," Summary.csv_headers :: rows)), [])).
Proof.
  intros Hread out fails. split; [|split].
  - intros Hnone. unfold fails, Summary.analyzeK6Results, Summary.analyze.
    rewrite Hread. cbn [mbind result_bind]. by rewrite Hnone.
  - intros data Hdata Hmissing.
    destruct (analysis_of_document w jsonFile content data Hread Hdata)
      as [Ht|(rows & _ & m & rg & checks & Hm & Hm1 & Hm2 & Hg & Hg1 & Hg2 & Hc)].
    + unfold fails, Summary.analyzeK6Results. by rewrite Ht.
    + exfalso. rewrite Hm, Hg in Hmissing.
      destruct Hmissing as [?|[?|[?|[?|Hno]]]]; try done.
      by apply (Hno checks).
  - intros data Hdata.
    destruct (analysis_of_document w jsonFile content data Hread Hdata)
      as [Ht|(rows & Hrun & _)].
    + left. unfold fails, Summary.analyzeK6Results. by rewrite Ht.
    + right. unfold fails, Summary.analyzeK6Results. rewrite Hrun.
      fold out. unfold writeFileSync. case_decide; [by left|].
      right. by exists rows.
Qed.

(** What a check adds to the grouping when it is a duration of the
    endpoint [e]. *)
Local Abbreviation duration_for e check :=
  (if is_str (get_opt check "type") "http_req_duration" then
     match Summary.endpoint_of check with
     | Ok k =>
         if String.eqb k e then Some (value_number (get_opt check "value"))
         else None
     | Throw _ => None
     end
   else None).

Local Abbreviation groupable check :=
  (check <> Undefined /\ check <> Null /\
   (is_str (get_opt check "type") "http_req_duration" = true ->
    exists k n, Summary.endpoint_of check = Ok k /\ inherited k = false /\
                get_opt check "value" = Num n)).

Local Abbreviation entry_of ds :=
  {| Analyzer.count := length ds;
     Analyzer.totalDuration := sum_numbers ds;
     Analyzer.durations := ds;
     Analyzer.errors := 0 |}.

Lemma sum_numbers_snoc ds d :
  sum_numbers (ds ++ [d]) = num_add (sum_numbers ds) d.
Proof. unfold sum_numbers. by rewrite fold_left_app. Qed.

Lemma group_check_get stats check :
  groupable check ->
  (forall k en, obj_get stats k = Some en ->
     en = entry_of (Analyzer.durations en)) ->
  exists stats',
    Summary.group_check stats check = Ok stats' /\
    (NoDup (Object_keys stats) -> NoDup (Object_keys stats')) /\
    forall e,
      obj_get stats' e
      = match duration_for e check with
        | Some d =>
            Some (entry_of (default [] (Analyzer.durations <$> obj_get stats e)
                            ++ [d])%list)
        | None => obj_get stats e
        end.
Proof.
  intros (Hu & Hn & Hd) Hinv. unfold Summary.group_check.
  rewrite (get_defined _ _ Hu Hn). cbn [mbind result_bind].
  destruct (is_str (get_opt check "type") "http_req_duration") eqn:Et.
  - destruct (Hd eq_refl) as (k & n & Hk & Hin & _). rewrite Hk.
    cbn [mbind result_bind]. rewrite Hin.
    eexists. split; [reflexivity|]. split; [apply keys_set_NoDup|].
    intros e. rewrite obj_get_set_cases.
    destruct (String.eqb_spec k e) as [->|Hne].
    + rewrite decide_True by done. f_equal.
      destruct (obj_get stats e) as [en|] eqn:E; cbn [default fmap option_fmap option_map].
      * pose proof (Hinv _ _ E) as Hen. destruct en as [c t ds er].
        cbn [Analyzer.durations] in Hen. injection Hen as -> -> ->.
        unfold id.
        cbn [Analyzer.count Analyzer.totalDuration Analyzer.durations
               Analyzer.errors].
        rewrite length_app, sum_numbers_snoc. cbn [length].
        f_equal. lia.
      * done.
    + by rewrite decide_False by done.
  - exists stats. split; [done|]. split; [done|]. done.
Qed.

Lemma group_checks_get checks : forall stats,
  Forall (fun check => groupable check) checks ->
  (forall k en, obj_get stats k = Some en ->
     en = entry_of (Analyzer.durations en)) ->
  exists stats',
    Summary.group_checks stats checks = Ok stats' /\
    (NoDup (Object_keys stats) -> NoDup (Object_keys stats')) /\
    forall e,
      obj_get stats' e
      = match omap (fun check => duration_for e check) checks,
              obj_get stats e with
        | [], o => o
        | ds, o =>
            Some (entry_of (default [] (Analyzer.durations <$> o) ++ ds)%list)
        end.
Proof.
  induction checks as [|c checks IH]; intros stats Hall Hinv.
  - exists stats. split; [done|]. split; [done|]. intros e.
    by destruct (obj_get stats e).
  - apply Forall_cons in Hall as [Hc Hall].
    destruct (group_check_get stats c Hc Hinv) as (s1 & H1 & Hnd1 & Hget1).
    destruct (IH s1 Hall) as (s2 & H2 & Hnd2 & Hget2).
    { intros k en. rewrite Hget1.
      destruct (duration_for k c); [by intros [= <-]|apply Hinv]. }
    exists s2. cbn [Summary.group_checks]. rewrite H1.
    cbn [mbind result_bind]. split; [done|]. split; [tauto|].
    intros e. rewrite Hget2, Hget1. cbn [omap list_omap].
    destruct (duration_for e c) as [d|].
    + destruct (omap _ checks) as [|d' ds]; cbn [default fmap option_fmap option_map
                                                  Analyzer.durations].
      * done.
      * unfold id. by rewrite <- app_assoc.
    + done.
Qed.

(** X20.  The entries of the summary analyzer.  When the checks are
    objects, and those that are durations have tags, a number for a value
    and no inherited name for an endpoint, the grouping succeeds; an
    endpoint has an entry when it has a duration; and in the entry the
    durations are the values of its checks in their order, the count is
    their number and the total duration is their sum, so that the average
    the analyzer prints is the mean of the durations. *)
Theorem summary_entries_are_consistent (checks : list jsval) :
  Forall (fun check => groupable check) checks ->
  exists stats,
    Summary.group_checks [] checks = Ok stats /\
    NoDup (Object_keys stats) /\
    forall e,
      let ds := omap (fun check => duration_for e check) checks in
      obj_get stats e
      = match ds with
        | [] => None
        | _ => Some (entry_of ds)
        end /\
      (ds <> [] ->
       Analyzer.avg (Analyzer.statistics (entry_of ds))
       = Streaming.calculateAverage ds).
Proof.
  intros Hall.
  destruct (group_checks_get checks [] Hall) as (s & Hs & Hnd & Hget); [done|].
  exists s. split; [done|]. split; [apply Hnd, NoDup_nil_2|].
  intros e ds. split.
  - rewrite Hget. cbn [obj_get]. fold ds. by destruct ds.
  - intros Hne. unfold Analyzer.statistics, Streaming.calculateAverage.
    cbn [Analyzer.avg Analyzer.totalDuration Analyzer.count].
    case_decide as Hz; [by apply length_zero_iff_nil in Hz|done].
Qed.
End SummaryAnalyzer.

(** The line-by-line output of a load test; a document without a root
    group; and a summary with two durations of the endpoint [A]. *)
Lemma summary_analysis_needs_its_fields_witness :
  let lines := Samples.one_file "s.json" Samples.two_samples in
  let bare := Samples.one_file "s.json" MoreSamples.no_root_group in
  let whole := Samples.one_file "s.json" MoreSamples.summary_document in
  Summary.analyzeK6Results (P := ReferencePlatform.platform) lines "s.json"
  = (lines, ["Error analyzing results: "
             +:+ error_message (Platform := ReferencePlatform.platform) SyntaxError]) /\
  Summary.analyzeK6Results (P := ReferencePlatform.platform) bare "s.json"
  = (bare, ["Error analyzing results: "
            +:+ error_message (Platform := ReferencePlatform.platform) TypeError]) /\
  exists rows,
    Summary.analyzeK6Results (P := ReferencePlatform.platform) whole "s.json"
    = (with_file whole "s-analysis.csv"
         (join Summary.nl (join "," Summary.csv_headers :: rows)), []).
Proof.
  intros lines bare whole.
  destruct (summary_analysis_needs_its_fields (P := ReferencePlatform.platform)
              lines "s.json" Samples.two_samples eq_refl) as (Hl & _ & _).
  destruct (summary_analysis_needs_its_fields (P := ReferencePlatform.platform)
              bare "s.json" MoreSamples.no_root_group eq_refl) as (_ & Hb & _).
  destruct (summary_analysis_needs_its_fields (P := ReferencePlatform.platform)
              whole "s.json" MoreSamples.summary_document eq_refl) as (_ & _ & Hw).
  split; [exact (Hl eq_refl)|]. split.
  - destruct (JSON_parse (Platform := ReferencePlatform.platform)
                MoreSamples.no_root_group) as [data|] eqn:E;
      [|vm_compute in E; discriminate E].
    apply (Hb data eq_refl). right. right. left.
    vm_compute in E. injection E as <-. reflexivity.
  - destruct (JSON_parse (Platform := ReferencePlatform.platform)
                MoreSamples.summary_document) as [data|] eqn:E;
      [|vm_compute in E; discriminate E].
    destruct (Hw data eq_refl) as [H|[H|H]].
    + vm_compute in H. discriminate H.
    + vm_compute in H. discriminate H.
    + exact H.
Defined.

(** Two durations of the endpoint [A], of 100 ms and of 200 ms. *)
Lemma summary_entries_are_consistent_witness :
  let checks := [MoreSamples.summary_check "A" 100; MoreSamples.summary_check "A" 200] in
  exists stats,
    Summary.group_checks (P := ReferencePlatform.platform) [] checks = Ok stats /\
    obj_get stats "A"
    = Some {| Analyzer.count := 2;
              Analyzer.totalDuration := sum_numbers [Fin 100; Fin 200];
              Analyzer.durations := [Fin 100; Fin 200];
              Analyzer.errors := 0 |} /\
    obj_get stats "B" = None.
Proof.
  intros checks.
  destruct (summary_entries_are_consistent (P := ReferencePlatform.platform) checks)
    as (stats & Hs & _ & Hget).
  { repeat constructor; try discriminate;
      intros _; eexists "A", _; repeat split; reflexivity. }
  exists stats. split; [exact Hs|].
  split; [exact (proj1 (Hget "A"))|exact (proj1 (Hget "B"))].
Defined.

(** ** The performance history *)

Section HistoryFacts.
Context {P : Platform}.
Variable homedir : string.

Local Abbreviation path := (History.csvFilePath homedir).
Local Abbreviation folder := (History.performanceFolder homedir).

Lemma files_mkdir w p w' : mkdirSync w p = Ok w' -> files w' = files w.
Proof. unfold mkdirSync. case_decide; [done|]. by intros [= <-]. Qed.

Lemma unwritable_mkdir w p w' :
  mkdirSync w p = Ok w' -> unwritable w' = unwritable w.
Proof. unfold mkdirSync. case_decide; [done|]. by intros [= <-]. Qed.

Lemma exists_mkdir w p w' q :
  mkdirSync w p = Ok w' -> q <> p -> existsSync w' q = existsSync w q.
Proof.
  unfold mkdirSync. case_decide; [done|]. intros [= <-] Hq.
  unfold existsSync. apply bool_decide_ext. simpl.
  rewrite elem_of_union, elem_of_singleton. tauto.
Qed.

(** X21.  How a run of the script ends.  Without a row, or with an empty
    one, it says so and exits with status 1.  With a row it either appends
    the row and a line break to the history, which it first creates with
    the header line when there is none, and returns; or it fails to make
    the folder or to write the file, reports the failure, leaves the
    contents of all files as they were and exits with status 1. *)
Theorem history_run_ends (w : filesystem) (args : list string) :
  path <> folder ->
  let o := History.run homedir w args in
  let row := default EmptyString (head args) in
  (row = EmptyString ->
   o = {| fs_after := w; stderr := ["No CSV row provided"]; ending := Exited 1 |}) /\
  (row <> EmptyString ->
   (ending o = Returned /\ stderr o = [] /\
    files (fs_after o) !! path
    = Some ((if existsSync w path
             then default EmptyString (files w !! path)
             else History.headers)
            +:+ row +:+ newline) /\
    forall p, p <> path -> files (fs_after o) !! p = files w !! p) \/
   (ending o = Exited 1 /\
    (exists e, stderr o = ["Failed to append to CSV: " +:+ error_message e]) /\
    files (fs_after o) = files w)).
Proof.
  intros Hpath o row. subst o. unfold History.run. fold row. split.
  - intros ->. done.
  - intros Hrow. destruct (String.eqb_spec row EmptyString) as [?|_]; [done|].
    destruct (if negb (existsSync w folder) then mkdirSync w folder else Ok w)
      as [w1|e] eqn:E1; [|right; split; [done|]; split; [by exists e|done]].
    assert (Hf1 : files w1 = files w).
    { destruct (negb (existsSync w folder)); [by eapply files_mkdir|].
      by simplify_eq. }
    assert (Hu1 : unwritable w1 = unwritable w).
    { destruct (negb (existsSync w folder)); [by eapply unwritable_mkdir|].
      by simplify_eq. }
    assert (He1 : existsSync w1 path = existsSync w path).
    { destruct (negb (existsSync w folder)); [by eapply exists_mkdir|].
      by simplify_eq. }
    rewrite He1.
    destruct (decide (path ∈ unwritable w)) as [Hun|Hwr].
    { right. destruct (negb (existsSync w path)).
      - unfold writeFileSync. rewrite decide_True by by rewrite Hu1.
        split; [done|]. split; [by eexists|done].
      - unfold appendFileSync. rewrite decide_True by by rewrite Hu1.
        split; [done|]. split; [by eexists|done]. }
    left. destruct (existsSync w path); cbn [negb].
    + unfold appendFileSync. rewrite decide_False by by rewrite Hu1.
      cbn [fs_after stderr ending with_file files].
      split; [done|]. split; [done|]. split.
      * by rewrite lookup_insert_eq, Hf1.
      * intros p Hp. by rewrite lookup_insert_ne, Hf1.
    + unfold writeFileSync. rewrite decide_False by by rewrite Hu1.
      unfold appendFileSync. cbn [with_file unwritable].
      rewrite decide_False by by rewrite Hu1.
      cbn [fs_after stderr ending with_file files].
      split; [done|]. split; [done|]. split.
      * rewrite lookup_insert_eq. cbn [default]. by rewrite lookup_insert_eq.
      * intros p Hp. by rewrite !lookup_insert_ne, Hf1.
Qed.

Lemma history_step w row :
  path <> folder -> path ∉ unwritable w -> folder ∉ unwritable w ->
  row <> EmptyString ->
  let w' := fs_after (History.run homedir w [row]) in
  files w' !! path
  = Some ((if existsSync w path
           then default EmptyString (files w !! path)
           else History.headers)
          +:+ row +:+ newline) /\
  unwritable w' = unwritable w /\
  existsSync w' path = true.
Proof.
  intros Hpath Hwp Hwf Hrow. cbn zeta. unfold History.run. cbn [head default].
  unfold id. destruct (String.eqb_spec row EmptyString) as [?|_]; [done|].
  assert (E1 : exists w1,
    (if negb (existsSync w folder) then mkdirSync w folder else Ok w) = Ok w1 /\
    files w1 = files w /\ unwritable w1 = unwritable w /\
    existsSync w1 path = existsSync w path).
  { destruct (negb (existsSync w folder)); [|by exists w].
    unfold mkdirSync. rewrite decide_False by done. eexists. split; [done|].
    split; [done|]. split; [done|].
    unfold existsSync. apply bool_decide_ext. simpl.
    rewrite elem_of_union, elem_of_singleton. tauto. }
  destruct E1 as (w1 & -> & Hf1 & Hu1 & He1). rewrite He1.
  assert (Hex : forall w0 c, existsSync (with_file w0 path c) path = true).
  { intros w0 c. apply bool_decide_eq_true_2. left. simpl.
    rewrite lookup_insert_eq. by eexists. }
  destruct (existsSync w path); cbn [negb].
  - unfold appendFileSync. rewrite decide_False by by rewrite Hu1.
    cbn [fs_after]. split; [|split; [exact Hu1|apply Hex]].
    cbn [with_file files]. by rewrite lookup_insert_eq, Hf1.
  - unfold writeFileSync. rewrite decide_False by by rewrite Hu1.
    unfold appendFileSync.
    rewrite decide_False by (cbn [with_file unwritable]; by rewrite Hu1).
    cbn [fs_after]. split; [|split; [exact Hu1|apply Hex]].
    cbn [with_file files]. rewrite lookup_insert_eq. cbn [default].
    by rewrite lookup_insert_eq.
Qed.

Lemma rows_after_text rows : forall text,
  fold_left (fun text row => text +:+ row +:+ newline) rows text
  = text +:+ fold_left (fun text row => text +:+ row +:+ newline) rows EmptyString.
Proof.
  induction rows as [|r rows IH]; intros text; cbn [fold_left].
  - by rewrite append_nil_r.
  - rewrite IH. rewrite (IH (EmptyString +:+ r +:+ newline)).
    by rewrite append_nil_l, !append_assoc.
Qed.

(** X22.  Run after run, the history grows by one line each time and the
    header line stands at its head once.  When the folder and the file can
    be written, the runs for the rows [rows], none of them empty, leave a
    history that is the text it had before, or the header line when there
    was no history, followed by the rows in their order, each with its
    line break. *)
Theorem history_accumulates_rows (w : filesystem) (rows : list string) :
  path <> folder -> path ∉ unwritable w -> folder ∉ unwritable w ->
  Forall (fun row => row <> EmptyString) rows -> rows <> [] ->
  files (History.runs homedir w rows) !! path
  = Some ((if existsSync w path
           then default EmptyString (files w !! path)
           else History.headers)
          +:+ fold_left (fun text row => text +:+ row +:+ newline)
                rows EmptyString).
Proof.
  intros Hpath Hwp Hwf Hall Hne.
  rewrite <- rows_after_text.
  revert w Hwp Hwf Hne. induction Hall as [|r rows Hr Hall IH];
    intros w Hwp Hwf Hne; [done|].
  cbn [History.runs fold_left].
  destruct (history_step w r Hpath Hwp Hwf Hr) as (Hf & Hu & Hex).
  destruct rows as [|r' rows].
  - cbn [History.runs fold_left]. by rewrite Hf.
  - rewrite IH; [|by rewrite Hu|by rewrite Hu|done].
    rewrite Hex, Hf. done.
Qed.
End HistoryFacts.

(** A first run in a home directory without the folder: without a row,
    and with the row [a,b]. *)
Lemma history_run_ends_witness :
  let o := History.run (P := ReferencePlatform.platform) "/home/u"
             MoreSamples.no_files ["a,b"] in
  History.run (P := ReferencePlatform.platform) "/home/u" MoreSamples.no_files []
  = {| fs_after := MoreSamples.no_files;
       stderr := ["No CSV row provided"];
       ending := Exited 1 |} /\
  ending o = Returned /\
  files (fs_after o) !! History.csvFilePath (P := ReferencePlatform.platform) "/home/u"
  = Some (History.headers +:+ "a,b" +:+ newline).
Proof.
  intros o.
  assert (Hpath : History.csvFilePath (P := ReferencePlatform.platform) "/home/u"
                  <> History.performanceFolder "/home/u")
    by (vm_compute; discriminate).
  destruct (history_run_ends (P := ReferencePlatform.platform) "/home/u"
              MoreSamples.no_files [] Hpath) as [Hnone _].
  destruct (history_run_ends (P := ReferencePlatform.platform) "/home/u"
              MoreSamples.no_files ["a,b"] Hpath) as [_ Hrow].
  split; [exact (Hnone eq_refl)|].
  destruct Hrow as [(He & _ & Hf & _)|(He & _)]; [discriminate| |].
  - split; [exact He|exact Hf].
  - vm_compute in He. discriminate He.
Defined.

(** Two runs in a home directory without the folder, with the rows [a,b]
    and [c,d]. *)
Lemma history_accumulates_rows_witness :
  files (History.runs (P := ReferencePlatform.platform) "/home/u"
           MoreSamples.no_files ["a,b"; "c,d"])
    !! History.csvFilePath (P := ReferencePlatform.platform) "/home/u"
  = Some (History.headers +:+ "a,b" +:+ newline +:+ "c,d" +:+ newline).
Proof.
  apply (history_accumulates_rows (P := ReferencePlatform.platform) "/home/u"
           MoreSamples.no_files ["a,b"; "c,d"]).
  - vm_compute; discriminate.
  - vm_compute. intros H. inversion H.
  - vm_compute. intros H. inversion H.
  - repeat constructor; discriminate.
  - discriminate.
Defined.

(** ** The workflow runner *)

Section WorkflowFacts.
Context {P : Platform}.
Variable k6 : filesystem -> list string -> filesystem * Workflow.ended.
Variable clock : nat -> string.

(** The third step cannot fail: the exporter always returns. *)
Lemma step3_never_fails w2 jsonFilePath (appendMode : bool) :
  Workflow.step3_ExportToExcel clock w2 jsonFilePath appendMode
  = (fs_after
       (Exporter.main clock w2
          (if appendMode
           then [jsonFilePath; Workflow.outputDir; "--append"]
           else [jsonFilePath; Workflow.outputDir])),
     inl ()).
Proof.
  unfold Workflow.step3_ExportToExcel. cbn zeta.
  by rewrite exporter_main_returns.
Qed.

Lemma export_of_unreadable w2 jsonFilePath (rest : list string) err :
  readFileSync w2 jsonFilePath = Throw err ->
  fs_after (Exporter.main clock w2 (jsonFilePath :: Workflow.outputDir :: rest))
  = w2.
Proof.
  intros Hread. unfold Exporter.main.
  change (String.eqb Workflow.outputDir EmptyString) with false. cbn iota.
  destruct (negb (existsSync w2 jsonFilePath)); [done|].
  destruct (negb (existsSync w2 Workflow.outputDir)); [done|].
  by rewrite (export_read_failure clock _ _ _ _ _ Hread).
Qed.

(** X23.  The exit status of the workflow.  With [--help] or [-h] among
    the arguments the script prints its usage and exits with status 0.
    Otherwise it exits with status 1 when the environment is not valid,
    when the load test does not close with code 0, or when the load test
    leaves no JSON file; and when the load test closes with code 0 and
    leaves its JSON file, the run returns, with status 0, whatever the
    exporter does: the exporter always closes with code 0, so that an
    export that fails is not noticed.  When the JSON file cannot be read,
    the exporter writes nothing and the workflow still ends with status 0. *)
Theorem workflow_exit_status
    (w w1 : filesystem) (cwd now : string) (args : list string) :
  let json :=
    path_join Workflow.outputDir
      ("k6-api-test-results-" +:+ Exporter.dashed now +:+ ".json") in
  let command := ["run"; "--out"; "json=" +:+ json; Workflow.k6Script] in
  let export w2 :=
    Exporter.main clock w2
      (if existsb (String.eqb "--append") args
       then [json; Workflow.outputDir; "--append"]
       else [json; Workflow.outputDir]) in
  let run := Workflow.main k6 clock w cwd now args in
  (existsb (String.eqb "--help") args || existsb (String.eqb "-h") args = true ->
   run = (w, Exited 0)) /\
  (existsb (String.eqb "--help") args || existsb (String.eqb "-h") args = false ->
   (forall msg,
      Workflow.step1_ValidateEnvironment w cwd = (w1, inr msg) ->
      run = (w1, Exited 1)) /\
   (Workflow.step1_ValidateEnvironment w cwd = (w1, inl ()) ->
    forall w2 e,
      k6 w1 command = (w2, e) ->
      (e <> Workflow.Closed 0 -> run = (w2, Exited 1)) /\
      (e = Workflow.Closed 0 -> existsSync w2 json = false ->
       run = (w2, Exited 1)) /\
      (e = Workflow.Closed 0 -> existsSync w2 json = true ->
       run = (fs_after (export w2), Returned) /\
       forall err,
         readFileSync w2 json = Throw err ->
         fs_after (export w2) = w2 /\ run = (w2, Returned)))).
Proof.
  intros json command export run. subst run. unfold Workflow.main. split.
  - by intros ->.
  - intros ->. split.
    + by intros msg ->.
    + intros -> w2 e Hk6. unfold Workflow.step2_RunK6Test.
      fold json command. rewrite Hk6.
      split; [|split].
      * intros He. destruct e as [code| |m]; [|done..].
        destruct code; [done|done..].
      * intros -> Hno. cbn [Workflow.settled]. by rewrite Hno.
      * intros -> Hyes. cbn [Workflow.settled]. rewrite Hyes. cbn [negb].
        rewrite step3_never_fails. split; [done|].
        intros err Hread.
        assert (Hfs : fs_after (export w2) = w2).
        { unfold export. destruct (existsb (String.eqb "--append") args);
            by eapply export_of_unreadable. }
        split; [done|]. by rewrite <- Hfs at 2.
Qed.
End WorkflowFacts.

(** Runs in the directory of the tests: with [--help]; with a load test
    that closes with code 99; and with a load test that closes with
    code 0 and leaves a file that cannot be read. *)
Lemma workflow_exit_status_witness :
  let now := "2025-09-12T15:32:09.000Z" in
  let run k6 args :=
    Workflow.main (P := ReferencePlatform.platform) k6 ReferencePlatform.clock
      MoreSamples.workflow_directory "/x/k6_tests" now args in
  run MoreSamples.k6_fails ["--help"] = (MoreSamples.workflow_directory, Exited 0) /\
  run MoreSamples.k6_fails [] = (MoreSamples.workflow_directory, Exited 1) /\
  run MoreSamples.k6_hides ["--append"]
  = ((MoreSamples.k6_hides MoreSamples.workflow_directory
        [ "run"; "--out";
          "json=./test-results/k6-api-test-results-2025-09-12T15-32-09-000Z.json";
          Workflow.k6Script ]).1,
     Returned).
Proof.
  intros now run.
  pose (w := MoreSamples.workflow_directory).
  destruct (workflow_exit_status (P := ReferencePlatform.platform)
              MoreSamples.k6_fails ReferencePlatform.clock
              w w "/x/k6_tests" now ["--help"]) as [Hhelp _].
  destruct (workflow_exit_status (P := ReferencePlatform.platform)
              MoreSamples.k6_fails ReferencePlatform.clock
              w w "/x/k6_tests" now []) as [_ Hfail].
  destruct (workflow_exit_status (P := ReferencePlatform.platform)
              MoreSamples.k6_hides ReferencePlatform.clock
              w w "/x/k6_tests" now ["--append"]) as [_ Hhide].
  split; [exact (Hhelp eq_refl)|]. split.
  - destruct (Hfail eq_refl) as [_ H].
    destruct (H eq_refl w (Workflow.Closed 99) eq_refl) as [H1 _].
    apply H1. discriminate.
  - destruct (Hhide eq_refl) as [_ H].
    destruct (H eq_refl _ _ eq_refl) as (_ & _ & H3).
    destruct (H3 eq_refl eq_refl) as [_ H4].
    exact (proj2 (H4 _ eq_refl)).
Defined.

(** ** Reading the lines in the streaming analyzer *)

Lemma assoc_last_snoc k (fs : list (string * jsval)) v :
  v <> Undefined -> assoc_last k (fs ++ [(k, v)]) = v.
Proof.
  intros Hv. induction fs as [|[k' v'] fs IH]; cbn [app assoc_last].
  - rewrite String.eqb_refl. by destruct v.
  - rewrite IH. by destruct v.
Qed.

Section StreamingReads.
Context {P : Platform}.
Implicit Types (ms : obj jsval) (st : Streaming.reading) (v d : jsval).

Lemma assoc_last_set_field fs k v :
  v <> Undefined -> assoc_last k (Streaming.set_field fs k v) = v.
Proof. intros Hv. unfold Streaming.set_field. by apply assoc_last_snoc. Qed.

(** The entries the reader makes: objects whose [values], if any, is an
    array. *)
Local Abbreviation collecting ms :=
  (forall k e, obj_get ms k = Some e ->
     exists fs, e = Obj fs /\
       (assoc_last "values" fs = Undefined \/
        exists items, assoc_last "values" fs = Arr items)).

(** A line of the output of the load test: a point of a metric, or the
    definition of a metric, whose data is an object without [values]; in
    both the name of the metric is no inherited name. *)
Local Abbreviation point_of v m d :=
  (exists fs, v = Obj fs /\ assoc_last "type" fs = Str "Point" /\
     assoc_last "metric" fs = Str m /\ assoc_last "data" fs = d).
Local Abbreviation definition_of v m :=
  (exists fs fs', v = Obj fs /\ assoc_last "type" fs = Str "Metric" /\
     assoc_last "metric" fs = Str m /\ assoc_last "data" fs = Obj fs' /\
     assoc_last "values" fs' = Undefined).

Lemma values_of_collecting ms name :
  collecting ms -> exists items, Streaming.values_of ms name = Ok items.
Proof.
  intros Hc. unfold Streaming.values_of.
  destruct (obj_get ms name) as [e|] eqn:E; [|by exists []].
  destruct (Hc _ _ E) as (fs & -> & [Hv|[items Hv]]); rewrite Hv; by eexists.
Qed.

Lemma store_point ms m d :
  collecting ms ->
  exists ms',
    Streaming.store_value ms m d = Ok ms' /\ collecting ms' /\
    (forall items, Streaming.values_of ms m = Ok items ->
       Streaming.values_of ms' m = Ok (items ++ [d])%list) /\
    (forall k, k <> m -> Streaming.values_of ms' k = Streaming.values_of ms k).
Proof.
  intros Hc. unfold Streaming.store_value.
  assert (He : exists fs,
    match obj_get ms m with
    | Some e => if truthy e then e else Streaming.fresh_entry
    | None => Streaming.fresh_entry
    end = Obj fs /\
    ((assoc_last "values" fs = Undefined /\ Streaming.values_of ms m = Ok []) \/
     exists items, assoc_last "values" fs = Arr items /\
                   Streaming.values_of ms m = Ok items)).
  { unfold Streaming.values_of.
    destruct (obj_get ms m) as [e|] eqn:E.
    - destruct (Hc _ _ E) as (fs & -> & [Hv|[items Hv]]); cbn [truthy];
        exists fs; rewrite Hv; split; [done|by left|done|right; by eexists].
    - eexists. split; [done|]. right. by exists []. }
  destruct He as (fs & -> & Hvals).
  assert (Hnew : forall fs0 items,
    collecting (obj_set ms m
                  (Obj (Streaming.set_field fs0 "values" (Arr items)))) /\
    Streaming.values_of
      (obj_set ms m (Obj (Streaming.set_field fs0 "values" (Arr items)))) m
    = Ok items /\
    forall k, k <> m ->
      Streaming.values_of
        (obj_set ms m (Obj (Streaming.set_field fs0 "values" (Arr items)))) k
      = Streaming.values_of ms k).
  { intros fs0 items. split; [|split].
    - intros k e. rewrite obj_get_set_cases. case_decide; [|by apply Hc].
      intros [= <-]. eexists. split; [done|]. right. exists items.
      by apply assoc_last_set_field.
    - unfold Streaming.values_of. rewrite obj_get_set.
      by rewrite assoc_last_set_field.
    - intros k Hk. unfold Streaming.values_of.
      by rewrite obj_get_set_ne by done. }
  destruct Hvals as [[Hu Hold]|(items & Ha & Hold)].
  - rewrite Hu. cbn [truthy]. rewrite assoc_last_set_field by done.
    destruct (Hnew (Streaming.set_field fs "values" (Arr [])) ([] ++ [d])%list)
      as (H1 & H2 & H3).
    eexists. split; [reflexivity|]. split; [done|]. split; [|done].
    intros items. rewrite Hold. by intros [= <-].
  - rewrite Ha. cbn [truthy]. rewrite Ha.
    destruct (Hnew fs (items ++ [d])%list) as (H1 & H2 & H3).
    eexists. split; [reflexivity|]. split; [done|]. split; [|done].
    intros items'. rewrite Hold. by intros [= <-].
Qed.

Lemma read_point st line v m d :
  JSON_parse line = Some v -> point_of v m d ->
  collecting (Streaming.metrics st) ->
  let st' := Streaming.read_line st line in
  collecting (Streaming.metrics st') /\
  (forall items, Streaming.values_of (Streaming.metrics st) m = Ok items ->
     Streaming.values_of (Streaming.metrics st') m = Ok (items ++ [d])%list) /\
  (forall k, k <> m ->
     Streaming.values_of (Streaming.metrics st') k
     = Streaming.values_of (Streaming.metrics st) k).
Proof.
  intros Hparse (fs & -> & Ht & Hm & Hd) Hc. cbn zeta.
  unfold Streaming.read_line. rewrite Hparse.
  unfold Streaming.process_line. cbn [get get_opt mbind result_bind].
  rewrite Ht, Hm, Hd. cbn [is_str ToString]. simpl String.eqb.
  rewrite orb_true_r.
  destruct (store_point (Streaming.metrics st) m d Hc) as (ms' & -> & H1 & H2 & H3).
  by cbn [mbind result_bind Streaming.metrics].
Qed.

Lemma read_definition st line v m :
  JSON_parse line = Some v -> definition_of v m ->
  collecting (Streaming.metrics st) ->
  let st' := Streaming.read_line st line in
  collecting (Streaming.metrics st') /\
  Streaming.values_of (Streaming.metrics st') m = Ok [] /\
  (forall k, k <> m ->
     Streaming.values_of (Streaming.metrics st') k
     = Streaming.values_of (Streaming.metrics st) k).
Proof.
  intros Hparse (fs & fs' & -> & Ht & Hm & Hd & Hv) Hc. cbn zeta.
  unfold Streaming.read_line. rewrite Hparse.
  unfold Streaming.process_line. cbn [get get_opt mbind result_bind].
  rewrite Ht, Hm, Hd. cbn [is_str ToString]. simpl String.eqb.
  cbn [Streaming.metrics]. split; [|split].
  - intros k e. rewrite obj_get_set_cases. case_decide; [|by apply Hc].
    intros [= <-]. eexists. split; [done|]. by left.
  - unfold Streaming.values_of. by rewrite obj_get_set, Hv.
  - intros k Hk. unfold Streaming.values_of. by rewrite obj_get_set_ne by done.
Qed.

(** The data of a line when it is a point of the metric [name]. *)
Local Abbreviation data_of name line :=
  (match JSON_parse line with
   | Some v =>
       if is_str (get_opt v "type") "Point" && is_str (get_opt v "metric") name
       then Some (get_opt v "data") else None
   | None => None
   end).

Local Abbreviation record line :=
  (exists v m, JSON_parse line = Some v /\ inherited m = false /\
     ((exists d, point_of v m d) \/ definition_of v m)).

Lemma data_of_point name line v m d :
  JSON_parse line = Some v -> point_of v m d ->
  data_of name line = if String.eqb m name then Some d else None.
Proof.
  intros -> (fs & -> & Ht & Hm & Hd). cbn [get_opt].
  rewrite Ht, Hm, Hd. cbn [is_str]. by simpl String.eqb.
Qed.

Lemma data_of_definition name line v m :
  JSON_parse line = Some v -> definition_of v m -> data_of name line = None.
Proof.
  intros -> (fs & fs' & -> & Ht & Hm & Hd & Hv). cbn [get_opt].
  rewrite Ht. cbn [is_str]. by simpl String.eqb.
Qed.

Lemma read_records name lines : forall st items,
  Forall (fun line => record line) lines ->
  Forall (fun line =>
            forall v, JSON_parse line = Some v -> ~ definition_of v name) lines ->
  collecting (Streaming.metrics st) ->
  Streaming.values_of (Streaming.metrics st) name = Ok items ->
  collecting (Streaming.metrics (fold_left Streaming.read_line lines st)) /\
  Streaming.values_of
    (Streaming.metrics (fold_left Streaming.read_line lines st)) name
  = Ok (items ++ omap (fun line => data_of name line) lines)%list.
Proof.
  induction lines as [|line lines IH]; intros st items Hrec Hnodef Hc Hv.
  - cbn [fold_left omap list_omap]. by rewrite app_nil_r.
  - apply Forall_cons in Hrec as [(v & m & Hparse & _ & Hkind) Hrec].
    apply Forall_cons in Hnodef as [Hnd Hnodef].
    cbn [fold_left omap list_omap].
    destruct Hkind as [[d Hpoint]|Hdef].
    + destruct (read_point st line v m d Hparse Hpoint Hc) as (Hc' & Hm & Hother).
      rewrite (data_of_point name line v m d Hparse Hpoint).
      destruct (String.eqb_spec m name) as [->|Hne].
      * destruct (IH (Streaming.read_line st line) (items ++ [d])%list)
          as [Hc2 Hv2]; [done..|by apply Hm|].
        split; [done|]. rewrite Hv2. f_equal. by rewrite <- app_assoc.
      * destruct (IH (Streaming.read_line st line) items) as [Hc2 Hv2];
          [done..|by rewrite Hother|]. done.
    + destruct (read_definition st line v m Hparse Hdef Hc) as (Hc' & Hm & Hother).
      rewrite (data_of_definition name line v m Hparse Hdef).
      assert (Hne : name <> m).
      { intros ->. by apply (Hnd v Hparse). }
      destruct (IH (Streaming.read_line st line) items) as [Hc2 Hv2];
        [done..|by rewrite Hother|]. done.
Qed.

Lemma read_before name lines : forall st,
  Forall (fun line => record line) lines ->
  Forall (fun line => data_of name line = None) lines ->
  collecting (Streaming.metrics st) ->
  Streaming.values_of (Streaming.metrics st) name = Ok [] ->
  collecting (Streaming.metrics (fold_left Streaming.read_line lines st)) /\
  Streaming.values_of
    (Streaming.metrics (fold_left Streaming.read_line lines st)) name
  = Ok [].
Proof.
  induction lines as [|line lines IH]; intros st Hrec Hnone Hc Hv; [done|].
  apply Forall_cons in Hrec as [(v & m & Hparse & _ & Hkind) Hrec].
  apply Forall_cons in Hnone as [Hn Hnone].
  cbn [fold_left].
  destruct Hkind as [[d Hpoint]|Hdef].
  - destruct (read_point st line v m d Hparse Hpoint Hc) as (Hc' & Hm & Hother).
    rewrite (data_of_point name line v m d Hparse Hpoint) in Hn.
    destruct (String.eqb_spec m name) as [->|Hne]; [done|].
    apply IH; [done..|]. by rewrite Hother.
  - destruct (read_definition st line v m Hparse Hdef Hc) as (Hc' & Hm & Hother).
    apply IH; [done..|].
    destruct (decide (name = m)) as [->|Hne]; [done|]. by rewrite Hother.
Qed.

(** X24.  The points of a metric are collected in the order of the file.
    Let the lines be points and definitions of metrics, as the load test
    writes them, and let the definition of the metric [name], if there is
    one, stand before its points.  Then the values the analyzer has for
    [name] after reading are the data of the points of [name], in the
    order of their lines, none lost and none twice. *)
Theorem points_are_collected_in_file_order
    (content name : string) (before after : list string) :
  split_lines (trim content) = (before ++ after)%list ->
  Forall (fun line => record line) (before ++ after)%list ->
  Forall (fun line => data_of name line = None) before ->
  Forall (fun line =>
            forall v, JSON_parse line = Some v -> ~ definition_of v name) after ->
  Streaming.values_of (Streaming.metrics (Streaming.read_lines content)) name
  = Ok (omap (fun line => data_of name line) (before ++ after)%list).
Proof.
  intros Hlines Hrec Hbefore Hafter. unfold Streaming.read_lines.
  rewrite Hlines, fold_left_app.
  apply Forall_app in Hrec as [Hrec1 Hrec2].
  destruct (read_before name before
              {| Streaming.metrics := []; Streaming.checks := [] |})
    as [Hc Hv]; [done..|].
  destruct (read_records name after _ [] Hrec2 Hafter Hc Hv) as [_ Hv'].
  rewrite Hv'. f_equal. rewrite omap_app.
  assert (E : omap (fun line => data_of name line) before = []).
  { clear -Hbefore. induction Hbefore as [|l ls Hl _ IH]; [done|].
    cbn [omap list_omap]. by rewrite Hl. }
  by rewrite E.
Qed.
End StreamingReads.

(** The definition of [http_req_duration], two of its points and, between
    them, a point of [http_reqs]. *)
Lemma points_are_collected_in_file_order_witness :
  let data v := Obj [("value", Num (Fin v)); ("tags", Obj [("endpoint", Str "A")])] in
  Streaming.values_of
    (Streaming.metrics
       (Streaming.read_lines (P := ReferencePlatform.platform)
          MoreSamples.test_output))
    "http_req_duration"
  = Ok [data 100%Q; data 200%Q].
Proof.
  intros data.
  apply (points_are_collected_in_file_order (P := ReferencePlatform.platform)
           MoreSamples.test_output "http_req_duration"
           [MoreSamples.definition_line]
           [ MoreSamples.point_line "http_req_duration" "100";
             MoreSamples.point_line "http_reqs" "1";
             MoreSamples.point_line "http_req_duration" "200" ]).
  - reflexivity.
  - apply Forall_cons. split.
    { eexists _, "http_req_duration". split; [vm_compute; reflexivity|].
      split; [reflexivity|]. right. eexists _, _.
      split; [reflexivity|]. repeat split; reflexivity. }
    apply Forall_cons. split.
    { eexists _, "http_req_duration". split; [vm_compute; reflexivity|].
      split; [reflexivity|]. left. eexists _, _.
      split; [reflexivity|]. repeat split; reflexivity. }
    apply Forall_cons. split.
    { eexists _, "http_reqs". split; [vm_compute; reflexivity|].
      split; [reflexivity|]. left. eexists _, _.
      split; [reflexivity|]. repeat split; reflexivity. }
    apply Forall_cons. split; [|apply Forall_nil_2].
    eexists _, "http_req_duration". split; [vm_compute; reflexivity|].
    split; [reflexivity|]. left. eexists _, _.
    split; [reflexivity|]. repeat split; reflexivity.
  - apply Forall_cons. split; [reflexivity|apply Forall_nil_2].
  - repeat (apply Forall_cons; split); [| | |apply Forall_nil_2];
      intros v Hv (fs & fs' & -> & Ht & _); vm_compute in Hv;
      injection Hv as <-; vm_compute in Ht; discriminate Ht.
Defined.

